(** * TStarBot1: the parallel DQN training pipeline

    A shallow embedding of [agents/fast_dqn_agent.py] (class [FastDQNAgent],
    function [actor_worker]), of the epsilon bookkeeping and the training
    loop of its predecessor [deprecated/agents/fast_dqn_agent.py], and of the
    resource actions of [envs/actions/resource.py].

    Numbers.  Python [int] is [Z].  Python [float] is modelled twice:
    - over the reals [R], the arithmetic the formulas of the agent are written
      in; every general statement is made there;
    - in [Binary64], over the kernel's IEEE 754 binary64 numbers, for the
      scalar code that is plain Python float arithmetic (the two schedules,
      the epsilon counter of the deprecated agent), where concrete runs can be
      evaluated bit for bit;
    - in [Binary32], over the IEEE 754 binary32 numbers a [torch.FloatTensor]
      holds, for the arithmetic of the bootstrapped target, where infinities
      and NaN matter.
    A statement over the reals is a statement in exact arithmetic: it says
    what the formulas give on finite values, before rounding.
    Tensors are lists of reals and the tensor library's operations are total
    functions on them; exceptions raised by Python itself (division by zero,
    [math.exp] out of range, [int] of a non-numeral, the explicit [raise]
    statements) are results of the embedded functions. *)

From Stdlib Require Import ZArith NArith List String Ascii Bool Reals Lra Lia QArith.
From Stdlib Require Import DecimalString PrimFloat Uint63.
From Stdlib Require Import DecimalPos DecimalZ SpecFloat.
Import ListNotations.

Set Warnings "-inexact-float".

(* ================================================================== *)
(** * Python values, exceptions and builtins *)
(* ================================================================== *)

Module Py.

(** The exceptions the embedded code can raise. *)
Inductive exn : Set :=
| NotImplementedError
| ZeroDivisionError
| OverflowError
| ValueError
| AssertionError
| AttributeError
| FileNotFoundError.

(** A computation either returns a value or raises. *)
Inductive result (A : Type) : Type :=
| Ret (a : A)
| Raise (e : exn).

Arguments Ret {A} a.
Arguments Raise {A} e.

Definition bind {A B : Type} (c : result A) (k : A -> result B) : result B :=
  match c with
  | Ret a => k a
  | Raise e => Raise e
  end.

Definition raises {A : Type} (c : result A) : Prop :=
  exists e, c = Raise e.

(** Truth value of an optional string argument ([None] and [''] are false). *)
Definition truthy (s : option string) : bool :=
  match s with
  | Some s => negb (String.eqb s EmptyString)
  | None => false
  end.

(** [a % b] on integers: the sign follows the divisor, as [Z.modulo] does. *)
Definition mod_ (a b : Z) : result Z :=
  if (b =? 0)%Z then Raise ZeroDivisionError else Ret (a mod b)%Z.

(** [x / y] on floats, over the reals. *)
Definition truediv (x y : R) : result R :=
  if Req_dec_T y 0 then Raise ZeroDivisionError else Ret (x / y)%R.

(** [x / y] on numbers that are kept rational (sizes and ratios). *)
Definition qtruediv (x y : Q) : result Q :=
  if Qeq_bool y 0 then Raise ZeroDivisionError else Ret (x / y)%Q.

(** [int(x)]: truncation towards zero. *)
Definition int_of_Q (x : Q) : Z := Z.quot (Qnum x) (Zpos (Qden x)).

(** [x < y] on rationals, as a boolean. *)
Definition qlt (x y : Q) : bool :=
  if Qlt_le_dec x y then true else false.

(** The largest finite binary64 number. *)
Definition float_max : R := ((2 - / 2 ^ 52) * 2 ^ 1023)%R.

(** [math.exp]: raises [OverflowError] when the result leaves the float
    range; an underflow is no error. *)
Definition math_exp (x : R) : result R :=
  if Rlt_dec float_max (exp x) then Raise OverflowError else Ret (exp x).

(** [min(a, b)]: the first argument unless the second is smaller. *)
Definition min (a b : R) : R := if Rlt_dec b a then b else a.

(** [s.rfind(c)]: index of the last occurrence of [c], [-1] when absent. *)
Fixpoint rfind_from (c : ascii) (s : string) (i : Z) : Z :=
  match s with
  | EmptyString => (-1)%Z
  | String a s' =>
      let r := rfind_from c s' (i + 1)%Z in
      if (0 <=? r)%Z then r else if Ascii.eqb a c then i else (-1)%Z
  end.

Definition rfind (s : string) (c : ascii) : Z := rfind_from c s 0%Z.

(** [s[i:]] for [i >= 0]. *)
Fixpoint drop (n : nat) (s : string) : string :=
  match n, s with
  | O, _ => s
  | S n', String _ s' => drop n' s'
  | S _, EmptyString => EmptyString
  end.

Definition slice_from (s : string) (i : Z) : string := drop (Z.to_nat i) s.

Definition digit_of_ascii (a : ascii) : option Z :=
  let n := nat_of_ascii a in
  if ((48 <=? n) && (n <=? 57))%nat then Some (Z.of_nat (n - 48)) else None.

Fixpoint int_digits (s : string) (acc : Z) : option Z :=
  match s with
  | EmptyString => Some acc
  | String a s' =>
      match digit_of_ascii a with
      | Some d => int_digits s' (10 * acc + d)%Z
      | None => None
      end
  end.

(** [int(s)] on a plain decimal numeral; any other text is a [ValueError]
    here (Python also accepts a sign, surrounding blanks and underscores
    between digits, none of which a checkpoint name written by [learn] has). *)
Definition int_of_str (s : string) : result Z :=
  match s with
  | EmptyString => Raise ValueError
  | _ => match int_digits s 0%Z with
         | Some z => Ret z
         | None => Raise ValueError
         end
  end.

(** ['%d' % z]. *)
Definition format_d (z : Z) : string := NilZero.string_of_int (Z.to_int z).

Fixpoint ends_with_slash (s : string) : bool :=
  match s with
  | EmptyString => false
  | String a EmptyString => Ascii.eqb a "/"%char
  | String _ s' => ends_with_slash s'
  end.

(** [os.path.join(d, name)] for a relative [name]. *)
Definition path_join (d name : string) : string :=
  if String.eqb d EmptyString || ends_with_slash d
  then (d ++ name)%string
  else (d ++ "/" ++ name)%string.

End Py.

Import Py.

Declare Scope py_scope.
Delimit Scope py_scope with py.
Notation "x <- c ;; k" := (Py.bind c (fun x => k))
  (at level 61, c at next level, right associativity) : py_scope.
Notation "' pat <- c ;; k" := (Py.bind c (fun x => match x with pat => k end))
  (at level 61, pat pattern, c at next level, right associativity) : py_scope.
Open Scope py_scope.

(* ================================================================== *)
(** * The agent object: the attributes [__init__] sets once *)
(* ================================================================== *)

Record FastDQNAgent : Type := {
  _batch_size : Z;
  _discount : R;
  _eps_method : string;
  _eps_start : R;
  _eps_end : R;
  _eps_decay : R;
  _frame_step_ratio : Q;
  _target_update_freq : Z;
  _double_dqn : bool;
  _save_model_dir : option string;
  _save_model_freq : Z;
  _action_space : nat;
  _memory_size : Z;
  _init_memory_size : Z;
  _gradient_clipping : R;
  _allow_eval_mode : bool;
  _loss_type : string;
  _print_freq : Z;
  _episode_idx : Z;
  _num_threads : Z
}.

(** [_get_current_eps(self, steps)], in exact arithmetic: the quotient and
    the sum are those of the reals and [math.exp] is the real exponential,
    raising where its value leaves the float range.  What rounding does to
    the two branches is in [Binary64]. *)
Definition _get_current_eps (self : FastDQNAgent) (steps : Z) : result R :=
  if String.eqb (_eps_method self) "exponential" then
    q <- truediv (-1 * IZR steps) (_eps_decay self) ;;
    e <- math_exp q ;;
    Ret (_eps_end self + (_eps_start self - _eps_end self) * e)%R
  else if String.eqb (_eps_method self) "linear" then
    let steps := Py.min (_eps_decay self) (IZR steps) in
    q <- truediv ((_eps_start self - _eps_end self) * steps) (_eps_decay self) ;;
    Ret (_eps_start self - q)%R
  else Raise NotImplementedError.

(* ================================================================== *)
(** * The epsilon counter of the deprecated agent *)
(* ================================================================== *)

Module Deprecated.

(** The attributes of [deprecated/agents/fast_dqn_agent.py]'s agent that
    its epsilon bookkeeping reads. *)
Record FastDQNAgent : Type := {
  _epsilon_min : R;
  _epsilon_decrease : R
}.

(** [__init__], lines 82-85: the shared epsilon starts at [epsilon_max] and
    the decrement is fixed once. *)
Definition __init__ (epsilon_max epsilon_min epsilon_decrease_steps : R)
  : result (FastDQNAgent * R) :=
  d <- truediv (epsilon_max - epsilon_min) epsilon_decrease_steps ;;
  Ret ({| _epsilon_min := epsilon_min; _epsilon_decrease := d |}, epsilon_max).

(** [train], lines 148-149: the epsilon update of one training iteration. *)
Definition train_epsilon (self : FastDQNAgent) (epsilon : R) : R :=
  if Rlt_dec (_epsilon_min self) epsilon
  then (epsilon - _epsilon_decrease self)%R
  else epsilon.

(** The shared epsilon after [n] iterations of [train]'s loop. *)
Fixpoint train_epsilon_n (self : FastDQNAgent) (n : nat) (epsilon : R) : R :=
  match n with
  | O => epsilon
  | S n' => train_epsilon_n self n' (train_epsilon self epsilon)
  end.

End Deprecated.

(* ================================================================== *)
(** * Python float code, bit for bit *)
(* ================================================================== *)

Module Binary64.

(** Conversion of an [int] operand to [float], for integers below [2^63]
    in magnitude (exact below [2^53], rounded to nearest above). *)
Definition of_int (z : Z) : float :=
  if (z <? 0)%Z
  then PrimFloat.opp (of_uint63 (Uint63.of_Z (- z)))
  else of_uint63 (Uint63.of_Z z).

(** The ['linear'] branch of [_get_current_eps], on binary64 numbers. *)
Definition _get_current_eps_linear
  (eps_start eps_end : float) (eps_decay steps : Z) : result float :=
  let steps := Z.min eps_decay steps in
  if (eps_decay =? 0)%Z then Raise ZeroDivisionError
  else Ret (eps_start - (eps_start - eps_end) * of_int steps / of_int eps_decay)%float.

(** [math.exp] on binary64, where the C standard fixes its result exactly
    (Annex F: [exp(+-0)] is 1).  At the other arguments the result is the
    platform's, correct up to its rounding error, and is not modelled:
    [None]. *)
Definition math_exp (x : float) : option float :=
  if PrimFloat.eqb x 0 then Some 1%float else None.

(** [_get_current_eps], lines 319-320, from the value [math.exp] returned. *)
Definition exponential_mix (eps_start eps_end e : float) : float :=
  (eps_end + (eps_start - eps_end) * e)%float.

(** The ['exponential'] branch of [_get_current_eps], on binary64 numbers:
    [None] where [math.exp] is not modelled. *)
Definition _get_current_eps_exponential
  (eps_start eps_end : float) (eps_decay steps : Z) : result (option float) :=
  if (eps_decay =? 0)%Z then Raise ZeroDivisionError
  else Ret (option_map (exponential_mix eps_start eps_end)
              (math_exp ((-1) * of_int steps / of_int eps_decay)%float)).

(** Python's [==] between a returned float and a literal. *)
Definition returns_float (c : result float) (x : float) : bool :=
  match c with
  | Ret y => PrimFloat.eqb y x
  | Raise _ => false
  end.

(** The deprecated agent's decrement, lines 84-85. *)
Definition epsilon_decrease (epsilon_max epsilon_min : float) (steps : Z) : float :=
  ((epsilon_max - epsilon_min) / of_int steps)%float.

(** The deprecated agent's update of epsilon, lines 148-149. *)
Definition train_epsilon (epsilon_min decrease epsilon : float) : float :=
  if PrimFloat.ltb epsilon_min epsilon then (epsilon - decrease)%float else epsilon.

(** The shared epsilon after [n] iterations of [train]'s loop. *)
Definition train_epsilon_n (epsilon_min decrease : float) (n : N) (epsilon : float) : float :=
  N.iter n (train_epsilon epsilon_min decrease) epsilon.

End Binary64.

(* ================================================================== *)
(** * Replay memory *)
(* ================================================================== *)

Module Memory.

Section ReplayMemory.

Context {T : Type}.

(** Modelled from the spec: [agents/memory.py] is not among the sources.
    A Replay Shard is a fixed-capacity circular buffer with a write cursor;
    its count is the number of stored transitions. *)
Record ReplayMemory : Type := {
  capacity : nat;
  buffer : list T;
  write_cursor : nat
}.

Definition count (m : ReplayMemory) : nat := List.length (buffer m).

(** Modelled from the spec: [ReplayMemory(capacity)], an empty shard. *)
Definition new (cap : Z) : ReplayMemory :=
  {| capacity := Z.to_nat cap; buffer := []; write_cursor := 0 |}.

Fixpoint set_nth (i : nat) (x : T) (l : list T) : list T :=
  match l, i with
  | [], _ => []
  | _ :: l', O => x :: l'
  | y :: l', S i' => y :: set_nth i' x l'
  end.

(** Modelled from the spec: [push] appends until the shard is full and then
    overwrites the oldest slot, advancing the cursor circularly. *)
Definition push (m : ReplayMemory) (x : T) : ReplayMemory :=
  match capacity m with
  | O => m
  | S _ =>
      {| capacity := capacity m;
         buffer := if (count m <? capacity m)%nat
                   then buffer m ++ [x]
                   else set_nth (write_cursor m) x (buffer m);
         write_cursor := ((write_cursor m + 1) mod capacity m)%nat |}
  end.

(** Modelled from the spec: [sample(k)] draws [k] indices with replacement
    from [[0, count)] ([rnd i] is the [i]-th draw); sampling more
    transitions than are stored is an assertion failure. *)
Definition sample (m : ReplayMemory) (k : Z) (rnd : nat -> nat) : result (list T) :=
  if (Z.of_nat (count m) <? k)%Z then Raise AssertionError
  else Ret (flat_map
              (fun i => match nth_error (buffer m) (rnd i mod count m)%nat with
                        | Some t => [t]
                        | None => []
                        end)
              (seq 0 (Z.to_nat k))).

End ReplayMemory.

Arguments ReplayMemory T : clear implicits.

End Memory.

(* ================================================================== *)
(** * Tensors as lists *)
(* ================================================================== *)

Fixpoint zip_with {A B C : Type} (f : A -> B -> C) (l1 : list A) (l2 : list B) : list C :=
  match l1, l2 with
  | x :: l1', y :: l2' => f x y :: zip_with f l1' l2'
  | _, _ => []
  end.

(** [row.max()[0]]: the largest entry of a row of action values. *)
Fixpoint row_max (row : list R) : R :=
  match row with
  | [] => 0%R
  | x :: rest =>
      match rest with
      | [] => x
      | _ => Rmax x (row_max rest)
      end
  end.

(** [row.max()[1]]: the index of a largest entry (the first one). *)
Fixpoint row_argmax (row : list R) : nat :=
  match row with
  | [] => O
  | x :: rest =>
      match rest with
      | [] => O
      | _ => if Rle_dec (row_max rest) x then O else S (row_argmax rest)
      end
  end.

(** [t.gather(1, index)]: one entry per row. *)
Definition gather (rows : list (list R)) (index : list nat) : list R :=
  zip_with (fun row i => nth i row 0%R) rows index.

Definition mean (l : list R) : R :=
  (fold_right Rplus 0 l / INR (List.length l))%R.

Definition mse_loss (q target : list R) : R :=
  mean (zip_with (fun a b => (a - b) ^ 2) q target)%R.

Definition smooth_l1_loss (q target : list R) : R :=
  mean (zip_with (fun a b =>
                    let d := Rabs (a - b) in
                    if Rlt_dec d 1 then (/ 2 * d ^ 2) else (d - / 2))
                 q target)%R.

(* ================================================================== *)
(** * The bootstrapped target on float tensors *)
(* ================================================================== *)

(** [reward_batch] is a [torch.FloatTensor] and [done_batch] a
    [torch.Tensor]: their entries, and those of what lines 197-198 compute
    from them, are IEEE 754 binary32 numbers.  The operations are the
    specification's ([SpecFloat]); what they do on zeros, infinities and
    NaN is the same in every IEEE format. *)
Module Binary32.

Definition float32 : Set := spec_float.

Definition prec : Z := 24.
Definition emax : Z := 128.

Definition add : float32 -> float32 -> float32 := SFadd prec emax.
Definition sub : float32 -> float32 -> float32 := SFsub prec emax.
Definition mul : float32 -> float32 -> float32 := SFmul prec emax.

(** The floats 1.0 and 0.0. *)
Definition one : float32 := S754_finite false 8388608 (-23).
Definition zero : float32 := S754_zero false.

(** An entry of [torch.Tensor(batch.done)]. *)
Definition of_bool (b : bool) : float32 := if b then one else zero.

(** Neither an infinity nor NaN. *)
Definition finite (x : float32) : bool :=
  match x with
  | S754_zero _ | S754_finite _ _ _ => true
  | S754_infinity _ | S754_nan => false
  end.

(** Lines 197-198 at one entry of the batch. *)
Definition target_q_entry (reward discount future done : float32) : float32 :=
  add reward (mul discount (mul future (sub one done))).

(** Lines 197-198 on the tensors, from the bootstrapped values of lines
    190-196. *)
Definition target_q (reward_batch : list float32) (discount : float32)
  (futures done_batch : list float32) : list float32 :=
  let futures := zip_with (fun f d => mul f (sub one d)) futures done_batch in
  zip_with (fun r f => add r (mul discount f)) reward_batch futures.

End Binary32.

(* ================================================================== *)
(** * The learner *)
(* ================================================================== *)

Section Pipeline.

(** The collaborators the pipeline is generic in: observations, network
    parameters, optimizer state and environments. *)
Context {Obs Params OptState Env : Type}.

(** The network's forward pass: mode ([true] is training mode),
    parameters and observation give one value per action. *)
Variable forward : bool -> Params -> Obs -> list R.

Record Transition : Type := {
  observation : Obs;
  action : nat;
  reward : R;
  next_observation : Obs;
  done : bool
}.

(** The tuple [_transitions_to_batch] returns. *)
Record Batch : Type := {
  next_obs_batch : list Obs;
  obs_batch : list Obs;
  reward_batch : list R;
  action_batch : list nat;
  done_batch : list R
}.

(** [_transitions_to_batch]: [torch.Tensor(batch.done)] turns the flags
    into the floats 1 and 0. *)
Definition _transitions_to_batch (transitions : list Transition) : Batch :=
  {| next_obs_batch := map next_observation transitions;
     obs_batch := map observation transitions;
     reward_batch := map reward transitions;
     action_batch := map action transitions;
     done_batch := map (fun t => if done t then 1%R else 0%R) transitions |}.

(** A network object: its parameters and its mode flag. *)
Record Network : Type := {
  state_dict : Params;
  training : bool
}.

Definition call (net : Network) (o : Obs) : list R :=
  forward (training net) (state_dict net) o.

Definition eval (net : Network) : Network :=
  {| state_dict := state_dict net; training := false |}.

Definition train (net : Network) : Network :=
  {| state_dict := state_dict net; training := true |}.

Definition load_state_dict (net : Network) (p : Params) : Network :=
  {| state_dict := p; training := training net |}.

(** The backward pass, the clamping of the gradients and
    [self._optimizer.step()]: the optimizer owns the parameters of
    [self._q_network] and nothing else. *)
Variable optimizer_step :
  FastDQNAgent -> Params -> OptState -> Batch -> list R -> Params * OptState.

(** What the agent mutates while it runs, and the checkpoint files. *)
Record AgentState : Type := {
  _current_eps : R;
  _q_network : Network;
  _target_q_network : option Network;
  _optimizer : OptState;
  files : list (string * Params)
}.

Definition set_current_eps (st : AgentState) (eps : R) : AgentState :=
  {| _current_eps := eps;
     _q_network := _q_network st;
     _target_q_network := _target_q_network st;
     _optimizer := _optimizer st;
     files := files st |}.

Definition set_q_network (st : AgentState) (net : Network) (o : OptState) : AgentState :=
  {| _current_eps := _current_eps st;
     _q_network := net;
     _target_q_network := _target_q_network st;
     _optimizer := o;
     files := files st |}.

(** [_update_target_network]. *)
Definition _update_target_network (st : AgentState) : result AgentState :=
  match _target_q_network st with
  | Some t =>
      Ret {| _current_eps := _current_eps st;
             _q_network := _q_network st;
             _target_q_network := Some (load_state_dict t (state_dict (_q_network st)));
             _optimizer := _optimizer st;
             files := files st |}
  | None => Raise AttributeError
  end.

(** [_save_model]. *)
Definition _save_model (st : AgentState) (model_path : string) : AgentState :=
  {| _current_eps := _current_eps st;
     _q_network := _q_network st;
     _target_q_network := _target_q_network st;
     _optimizer := _optimizer st;
     files := (model_path, state_dict (_q_network st)) :: files st |}.

Fixpoint lookup (fs : list (string * Params)) (path : string) : option Params :=
  match fs with
  | [] => None
  | (p, v) :: fs' => if String.eqb p path then Some v else lookup fs' path
  end.

(** [_load_model]. *)
Definition _load_model (fs : list (string * Params)) (net : Network) (model_path : string)
  : result Network :=
  match lookup fs model_path with
  | Some p => Ret (load_state_dict net p)
  | None => Raise FileNotFoundError
  end.

(** [_optimize], lines 188-199: the bootstrapped target of a batch. *)
Definition futures (self : FastDQNAgent) (q_network : Network)
  (target_q_network : option Network) (batch : Batch) : result (list R) :=
  let q_next := map (call q_network) (next_obs_batch batch) in
  if _double_dqn self then
    match target_q_network with
    | Some t =>
        let q_next_target := map (call t) (next_obs_batch batch) in
        Ret (gather q_next_target (map row_argmax q_next))
    | None => Raise AttributeError
    end
  else Ret (map row_max q_next).

(** Lines 197-198 in exact arithmetic, on finite values; what they give on
    the float tensors, infinities and NaN included, is
    [Binary32.target_q]. *)
Definition target_q (self : FastDQNAgent) (q_network : Network)
  (target_q_network : option Network) (batch : Batch) : result (list R) :=
  futures <- futures self q_network target_q_network batch ;;
  let futures := zip_with (fun f d => f * (1 - d))%R futures (done_batch batch) in
  Ret (zip_with (fun r f => r + _discount self * f)%R (reward_batch batch) futures).

(** [_optimize], lines 204-209: the loss. *)
Definition loss (self : FastDQNAgent) (q target : list R) : result R :=
  if String.eqb (_loss_type self) "smooth_l1" then Ret (smooth_l1_loss q target)
  else if String.eqb (_loss_type self) "mse" then Ret (mse_loss q target)
  else Raise NotImplementedError.

(** [_optimize], for the batch taken from the batch queue. *)
Definition _optimize (self : FastDQNAgent) (st : AgentState) (batch : Batch)
  : result (AgentState * R) :=
  let net := if _allow_eval_mode self then eval (_q_network st) else _q_network st in
  target_q <- target_q self net (_target_q_network st) batch ;;
  let net := train net in
  let q := gather (map (call net) (obs_batch batch)) (action_batch batch) in
  loss <- loss self q target_q ;;
  let '(p, o) := optimizer_step self (state_dict net) (_optimizer st) batch target_q in
  Ret (set_q_network st (load_state_dict net p) o, loss).

(** The local variables of [learn]. *)
Record Locals : Type := {
  steps : Z;
  loss_sum : R
}.

(** [learn], lines 168-169: the periodic synchronisation of the target. *)
Definition learn_sync (self : FastDQNAgent) (st : AgentState) (l : Locals)
  : result AgentState :=
  sync <- (if _double_dqn self
           then m <- mod_ (steps l) (_target_update_freq self) ;; Ret (m =? 0)%Z
           else Ret false) ;;
  if sync then _update_target_network st else Ret st.

(** [learn], line 170: the schedule's value is published. *)
Definition learn_publish (self : FastDQNAgent) (st : AgentState) (l : Locals)
  : result AgentState :=
  eps <- _get_current_eps self (steps l) ;;
  Ret (set_current_eps st eps).

(** [learn], lines 172-181: the counter, the checkpoint and the report. *)
Definition learn_bookkeeping (self : FastDQNAgent) (st : AgentState) (l : Locals) (loss : R)
  : result (AgentState * Locals) :=
  let loss_sum := (loss_sum l + loss)%R in
  let steps := (steps l + 1)%Z in
  save <- (match _save_model_dir self with
           | Some d =>
               if truthy (Some d)
               then m <- mod_ steps (_save_model_freq self) ;;
                    Ret (if (m =? 0)%Z
                         then Some (path_join d ("agent.model-" ++ format_d steps))
                         else None)
               else Ret None
           | None => Ret None
           end) ;;
  let st := match save with Some path => _save_model st path | None => st end in
  pr <- mod_ steps (_print_freq self) ;;
  Ret (st, {| steps := steps; loss_sum := if (pr =? 0)%Z then 0%R else loss_sum |}).

(** One iteration of [learn]'s loop, lines 168-181. *)
Definition learn_iter (self : FastDQNAgent) (st : AgentState) (l : Locals) (batch : Batch)
  : result (AgentState * Locals) :=
  st <- learn_sync self st l ;;
  st <- learn_publish self st l ;;
  ' (st, loss) <- _optimize self st batch ;;
  learn_bookkeeping self st l loss.

(** The loop of [learn] over the batches it is handed, from given locals. *)
Fixpoint learn_loop (self : FastDQNAgent) (st : AgentState) (l : Locals) (batches : list Batch)
  : result (AgentState * Locals) :=
  match batches with
  | [] => Ret (st, l)
  | b :: bs => ' (st, l) <- learn_iter self st l b ;; learn_loop self st l bs
  end.

(** [learn], line 165 onwards: the loop starts from [steps, loss_sum = 0, 0.0]. *)
Definition learn (self : FastDQNAgent) (st : AgentState) (batches : list Batch)
  : result (AgentState * Locals) :=
  learn_loop self st {| steps := 0; loss_sum := 0 |} batches.

(** The arguments of [FastDQNAgent.__init__] the pipeline reads
    ([learning_rate] and [momentum] are inside [optimizer]). *)
Record Args : Type := {
  action_space : nat;
  network : Network;
  optimizer : OptState;
  batch_size : Z;
  discount : R;
  eps_method : string;
  eps_start : R;
  eps_end : R;
  eps_decay : R;
  memory_size : Z;
  init_memory_size : Z;
  frame_step_ratio : Q;
  gradient_clipping : R;
  double_dqn : bool;
  target_update_freq : Z;
  allow_eval_mode : bool;
  loss_type : string;
  init_model_path : option string;
  save_model_dir : option string;
  save_model_freq : Z;
  print_freq : Z
}.

(** [_init_target_network]: a deep copy of the network, put in evaluation
    mode when that is allowed. *)
Definition _init_target_network (a : Args) (net : Network) : Network :=
  if allow_eval_mode a then eval net else net.

(** [FastDQNAgent.__init__], with the checkpoint files it may read, on a
    machine with at most one CUDA device: lines 133-136 then leave the
    network as it is (with more devices they wrap it in [nn.DataParallel],
    after the checkpoint has been loaded). *)
Definition __init__ (a : Args) (fs : list (string * Params))
  : result (FastDQNAgent * AgentState) :=
  ' (net, episode_idx) <-
    (match init_model_path a with
     | Some path =>
         if truthy (Some path)
         then net <- _load_model fs (network a) path ;;
              idx <- int_of_str (slice_from path (rfind path "-" + 1)) ;;
              Ret (net, idx)
         else Ret (network a, 0%Z)
     | None => Ret (network a, 0%Z)
     end) ;;
  let st := {| _current_eps := 1%R;
               _q_network := net;
               _target_q_network :=
                 if double_dqn a then Some (_init_target_network a net) else None;
               _optimizer := optimizer a;
               files := fs |} in
  st <- (if double_dqn a then _update_target_network st else Ret st) ;;
  Ret ({| _batch_size := batch_size a;
          _discount := discount a;
          _eps_method := eps_method a;
          _eps_start := eps_start a;
          _eps_end := eps_end a;
          _eps_decay := eps_decay a;
          _frame_step_ratio := frame_step_ratio a;
          _target_update_freq := target_update_freq a;
          _double_dqn := double_dqn a;
          _save_model_dir := save_model_dir a;
          _save_model_freq := save_model_freq a;
          _action_space := action_space a;
          _memory_size := memory_size a;
          _init_memory_size := Z.max (init_memory_size a) (batch_size a);
          _gradient_clipping := gradient_clipping a;
          _allow_eval_mode := allow_eval_mode a;
          _loss_type := loss_type a;
          _print_freq := print_freq a;
          _episode_idx := episode_idx;
          _num_threads := 8 |}, st).

(* ================================================================== *)
(** * The batch builders *)
(* ================================================================== *)

(** The local variables of [_prepare_batch]: the shard, the loop counter
    and [steps_per_frame] or [frames_per_step], whichever line 244 sets. *)
Record Builder : Type := {
  memory : Memory.ReplayMemory Transition;
  builder_steps : Z;
  per : Z
}.

(** [_prepare_batch], lines 242-247. *)
Definition _prepare_batch_init (self : FastDQNAgent) : result Builder :=
  c <- qtruediv (inject_Z (_memory_size self)) (inject_Z (_num_threads self)) ;;
  per <- (if qlt (_frame_step_ratio self) 1
          then r <- qtruediv 1 (_frame_step_ratio self) ;; Ret (int_of_Q r)
          else Ret (int_of_Q (_frame_step_ratio self))) ;;
  Ret {| memory := Memory.new (int_of_Q c); builder_steps := 0; per := per |}.

(** [n] blocking [get]s from a queue: [None] while it holds fewer items. *)
Fixpoint get_n {A : Type} (n : nat) (queue : list A) : option (list A * list A) :=
  match n with
  | O => Some ([], queue)
  | S n' =>
      match queue with
      | [] => None
      | x :: queue' =>
          match get_n n' queue' with
          | Some (got, rest) => Some (x :: got, rest)
          | None => None
          end
      end
  end.

(** [_prepare_batch], line 257: the warm-up gate. *)
Definition warming_up (self : FastDQNAgent) (m : Memory.ReplayMemory Transition)
  : result bool :=
  threshold <- qtruediv (inject_Z (_init_memory_size self)) (inject_Z (_num_threads self)) ;;
  Ret (qlt (inject_Z (Z.of_nat (Memory.count m))) threshold).

(** One iteration of [_prepare_batch]'s loop, lines 249-260: the builder
    after it, what is left of the transition queue and the transitions
    sampled for a batch, if any.  [None]: the iteration waits for the
    transition queue.  The [get]s of one iteration are taken in one piece:
    that is what the code does in an iteration with at most one [get], and
    with several when no other builder thread comes between them. *)
Definition _prepare_batch_iter (self : FastDQNAgent) (b : Builder)
  (transition_queue : list Transition) (rnd : nat -> nat)
  : option (result (Builder * list Transition * option (list Transition))) :=
  let steps := (builder_steps b + 1)%Z in
  let wanted :=
    if qlt (_frame_step_ratio self) 1
    then m <- mod_ steps (per b) ;; Ret (if (m =? 0)%Z then 1%nat else 0%nat)
    else Ret (Z.to_nat (per b)) in
  match wanted with
  | Raise e => Some (Raise e)
  | Ret n =>
      match get_n n transition_queue with
      | None => None
      | Some (got, rest) =>
          let m := fold_left Memory.push got (memory b) in
          let b' := {| memory := m; builder_steps := steps; per := per b |} in
          Some (w <- warming_up self m ;;
                if (w : bool) then Ret (b', rest, None)
                else transitions <- Memory.sample m (_batch_size self) rnd ;;
                     Ret (b', rest, Some transitions))
      end
  end.

(** The loop of [_prepare_batch] for [n] iterations on a filled queue: the
    builder and the batches put on the batch queue, oldest first.  A wait
    on the transition queue ends the run early. *)
Fixpoint _prepare_batch_loop (self : FastDQNAgent) (n : nat) (b : Builder)
  (transition_queue : list Transition) (rnd : nat -> nat)
  : result (Builder * list Batch) :=
  match n with
  | O => Ret (b, [])
  | S n' =>
      match _prepare_batch_iter self b transition_queue rnd with
      | None => Ret (b, [])
      | Some r =>
          ' (b', rest, out) <- r ;;
          ' (b'', batches) <- _prepare_batch_loop self n' b' rest rnd ;;
          Ret (b'', match out with
                    | Some ts => _transitions_to_batch ts :: batches
                    | None => batches
                    end)
      end
  end.

(** [_prepare_batch(tid)] run for [n] iterations. *)
Definition _prepare_batch (self : FastDQNAgent) (n : nat)
  (transition_queue : list Transition) (rnd : nat -> nat)
  : result (Builder * list Batch) :=
  b <- _prepare_batch_init self ;;
  _prepare_batch_loop self n b transition_queue rnd.

(* ================================================================== *)
(** * The actor workers and the running system *)
(* ================================================================== *)

Variable env_create_fn : Env.
Variable env_reset : Env -> Env * Obs.
Variable env_step : Env -> nat -> Env * Obs * R * bool.

(** The local state of one [actor_worker] process: its environment, the
    mode flag of its handle on the shared network, the observation it is
    at ([None] between episodes) and its counters. *)
Record Actor : Type := {
  env : Env;
  mode : bool;
  at_observation : option Obs;
  episode_id : Z;
  cum_return : R
}.

(** [act] inside [actor_worker]: [u] is the draw of [random.uniform(0, 1)]
    and [sampled] the draw of [action_space.sample()]. *)
Definition act (allow_eval_mode : bool) (q_network : Network) (observation : Obs)
  (eps u : R) (sampled : nat) : Network * nat :=
  if Rle_dec eps u
  then let net := if allow_eval_mode then eval q_network else q_network in
       (net, row_argmax (call net observation))
  else (q_network, sampled).

(** A bounded queue of size [maxsize] is full ([maxsize <= 0]: never). *)
Definition full {A : Type} (maxsize : Z) (queue : list A) : bool :=
  ((0 <? maxsize) && (maxsize <=? Z.of_nat (List.length queue)))%Z.

(** [_init_parallel_actors], lines 220-222 and 230: the queue sizes. *)
Definition transition_queue_size (self : FastDQNAgent) : Z :=
  if qlt (_frame_step_ratio self) 1 then 1%Z
  else int_of_Q (_frame_step_ratio self * inject_Z (_num_threads self)).

Definition batch_queue_size : Z := 8.

(** One turn of [actor_worker]'s inner loop, lines 61-69, reading the shared
    epsilon and parameters; [None] while [out_queue.put] waits. *)
Definition actor_worker (self : FastDQNAgent) (current_eps : R) (q_params : Params)
  (a : Actor) (out_queue : list Transition) (u : R) (sampled : nat)
  : option (Actor * list Transition) :=
  let '(e, observation) :=
    match at_observation a with
    | Some o => (env a, o)
    | None => env_reset (env a)
    end in
  let '(net, action) :=
    act (_allow_eval_mode self) {| state_dict := q_params; training := mode a |}
        observation current_eps u sampled in
  let '(e, next_observation, reward, done) := env_step e action in
  if full (transition_queue_size self) out_queue then None
  else
    let t := {| observation := observation; action := action; reward := reward;
                next_observation := next_observation; done := done |} in
    Some ({| env := e;
             mode := training net;
             at_observation := if done then None else Some next_observation;
             episode_id := if done then (episode_id a + 1)%Z else episode_id a;
             cum_return := if done then 0%R else (cum_return a + reward)%R |},
          out_queue ++ [t]).

(** The processes and threads of a run of [learn], with the queues between
    them.  [waiting]: the learner has published epsilon and is at
    [self._batch_queue.get()].  A builder thread that raised is gone
    ([None]). *)
Record System : Type := {
  agent : AgentState;
  locals : Locals;
  waiting : bool;
  transition_queue : list Transition;
  batch_queue : list Batch;
  actors : list Actor;
  builders : list (option Builder)
}.

(** [learn], lines 164-166, with [_init_parallel_actors]. *)
Definition learn_start (self : FastDQNAgent) (st : AgentState) (num_actor_workers : nat)
  : System :=
  {| agent := st;
     locals := {| steps := 0; loss_sum := 0 |};
     waiting := false;
     transition_queue := [];
     batch_queue := [];
     actors := repeat {| env := env_create_fn;
                         mode := training (_q_network st);
                         at_observation := None;
                         episode_id := 0;
                         cum_return := 0 |} num_actor_workers;
     builders := repeat (match _prepare_batch_init self with
                         | Ret b => Some b
                         | Raise _ => None
                         end) (Z.to_nat (_num_threads self)) |}.

(** What can happen next: an actor takes a turn, a builder thread runs an
    iteration, the learner runs the head of its loop (lines 168-170) or,
    once a batch is there, the rest of it (lines 171-181). *)
Inductive Event : Type :=
| ActorTurn (pid : nat) (u : R) (sampled : nat)
| BuilderIter (tid : nat) (rnd : nat -> nat)
| LearnerHead
| LearnerOptimize.

(** The system after an event; [None] when the event cannot happen now (a
    full or empty queue, no such process); [Raise] when the learner raises. *)
Definition step (self : FastDQNAgent) (s : System) (e : Event) : option (result System) :=
  match e with
  | ActorTurn pid u sampled =>
      match nth_error (actors s) pid with
      | Some a =>
          match actor_worker self (_current_eps (agent s))
                  (state_dict (_q_network (agent s))) a (transition_queue s) u sampled with
          | Some (a', queue) =>
              Some (Ret {| agent := agent s; locals := locals s; waiting := waiting s;
                           transition_queue := queue;
                           batch_queue := batch_queue s;
                           actors := Memory.set_nth pid a' (actors s);
                           builders := builders s |})
          | None => None
          end
      | None => None
      end
  | BuilderIter tid rnd =>
      match nth_error (builders s) tid with
      | Some (Some b) =>
          match _prepare_batch_iter self b (transition_queue s) rnd with
          | Some (Ret (b', queue, out)) =>
              match out with
              | Some ts =>
                  if full batch_queue_size (batch_queue s) then None
                  else Some (Ret {| agent := agent s; locals := locals s; waiting := waiting s;
                                    transition_queue := queue;
                                    batch_queue := batch_queue s ++ [_transitions_to_batch ts];
                                    actors := actors s;
                                    builders := Memory.set_nth tid (Some b') (builders s) |})
              | None =>
                  Some (Ret {| agent := agent s; locals := locals s; waiting := waiting s;
                               transition_queue := queue;
                               batch_queue := batch_queue s;
                               actors := actors s;
                               builders := Memory.set_nth tid (Some b') (builders s) |})
              end
          | Some (Raise _) =>
              Some (Ret {| agent := agent s; locals := locals s; waiting := waiting s;
                           transition_queue := transition_queue s;
                           batch_queue := batch_queue s;
                           actors := actors s;
                           builders := Memory.set_nth tid None (builders s) |})
          | None => None
          end
      | _ => None
      end
  | LearnerHead =>
      if waiting s then None
      else Some (st <- learn_sync self (agent s) (locals s) ;;
                 st <- learn_publish self st (locals s) ;;
                 Ret {| agent := st; locals := locals s; waiting := true;
                        transition_queue := transition_queue s;
                        batch_queue := batch_queue s;
                        actors := actors s;
                        builders := builders s |})
  | LearnerOptimize =>
      if waiting s then
        match batch_queue s with
        | batch :: rest =>
            Some (' (st, loss) <- _optimize self (agent s) batch ;;
                  ' (st, l) <- learn_bookkeeping self st (locals s) loss ;;
                  Ret {| agent := st; locals := l; waiting := false;
                         transition_queue := transition_queue s;
                         batch_queue := rest;
                         actors := actors s;
                         builders := builders s |})
        | [] => None
        end
      else None
  end.

(** A run of the system along a list of events. *)
Fixpoint run (self : FastDQNAgent) (s : System) (events : list Event) : option (result System) :=
  match events with
  | [] => Some (Ret s)
  | e :: events' =>
      match step self s e with
      | Some (Ret s') => run self s' events'
      | other => other
      end
  end.

(** What the shared epsilon holds during a run that started with [eps0]
    in it: the schedule's value at the current count while the learner
    waits for a batch, and otherwise [eps0] before the first iteration and
    the schedule's value at the previous count after it. *)
Definition published (self : FastDQNAgent) (eps0 : R) (s : System) : Prop :=
  if waiting s
  then (0 <= steps (locals s))%Z
       /\ _get_current_eps self (steps (locals s)) = Ret (_current_eps (agent s))
  else (steps (locals s) = 0%Z /\ _current_eps (agent s) = eps0)
       \/ ((0 < steps (locals s))%Z
           /\ _get_current_eps self (steps (locals s) - 1) = Ret (_current_eps (agent s))).

End Pipeline.

Arguments Transition Obs : clear implicits.
Arguments Batch Obs : clear implicits.
Arguments Network Params : clear implicits.
Arguments AgentState Params OptState : clear implicits.
Arguments Args Params OptState : clear implicits.
Arguments Builder Obs : clear implicits.
Arguments Actor Obs Env : clear implicits.
Arguments System Obs Params OptState Env : clear implicits.

(* ================================================================== *)
(** * Concrete configurations *)
(* ================================================================== *)

(** An agent object with the given schedule, discount, double-DQN switch,
    batch size and warm-up size; the other attributes are fixed. *)
Definition agent_of (eps_method : string) (eps_start eps_end eps_decay discount : R)
  (double_dqn : bool) (batch_size init_memory_size : Z) : FastDQNAgent :=
  {| _batch_size := batch_size;
     _discount := discount;
     _eps_method := eps_method;
     _eps_start := eps_start;
     _eps_end := eps_end;
     _eps_decay := eps_decay;
     _frame_step_ratio := 1;
     _target_update_freq := 2;
     _double_dqn := double_dqn;
     _save_model_dir := Some "ckpt"%string;
     _save_model_freq := 2;
     _action_space := 2;
     _memory_size := 100000;
     _init_memory_size := Z.max init_memory_size batch_size;
     _gradient_clipping := 1;
     _allow_eval_mode := true;
     _loss_type := "mse";
     _print_freq := 1000;
     _episode_idx := 0;
     _num_threads := 8 |}.

(** The schedule scenario: [eps_start=1.0, eps_end=0.1, eps_decay=100]. *)
Definition scenario (eps_method : string) : FastDQNAgent :=
  agent_of eps_method 1 0.1 100 0.9 false 32 100.

(** A toy instance of the collaborators: observations are numbers,
    parameters are one integer, and the network has two actions. *)
Definition toy_forward (training : bool) (p : Z) (o : nat) : list R :=
  [IZR p; IZR (Z.of_nat o)].

Definition toy_network (p : Z) : Network Z :=
  {| state_dict := p; training := true |}.

(** A terminal transition with the given reward. *)
Definition terminal (r : R) : Transition nat :=
  {| observation := 0%nat; action := 0%nat; reward := r;
     next_observation := 1%nat; done := true |}.

(** Constructor arguments over the toy instance: a linear schedule from
    [eps_start] to 0.1 over 100 steps, [discount=0.9], checkpoints every
    2 steps into [ckpt], one frame per step. *)
Definition toy_args (eps_start : R) (double_dqn : bool) (batch_size init_memory_size : Z)
  (init_model_path : option string) : Args Z unit :=
  {| action_space := 2;
     network := toy_network 7;
     optimizer := tt;
     batch_size := batch_size;
     discount := 0.9;
     eps_method := "linear";
     eps_start := eps_start;
     eps_end := 0.1;
     eps_decay := 100;
     memory_size := 100000;
     init_memory_size := init_memory_size;
     frame_step_ratio := 1;
     gradient_clipping := 1;
     double_dqn := double_dqn;
     target_update_freq := 2;
     allow_eval_mode := true;
     loss_type := "mse";
     init_model_path := init_model_path;
     save_model_dir := Some "ckpt"%string;
     save_model_freq := 2;
     print_freq := 1000 |}.

(** A toy optimizer step: the parameter counts the updates. *)
Definition toy_optimizer_step (self : FastDQNAgent) (p : Z) (o : unit)
  (batch : Batch nat) (target_q : list R) : Z * unit :=
  ((p + 1)%Z, tt).

(** A non-terminal transition from observation [o]. *)
Definition transition_at (o : nat) : Transition nat :=
  {| observation := o; action := 1%nat; reward := 0;
     next_observation := S o; done := false |}.

(** The settings under which the learner's own arithmetic is defined: a
    supported schedule with a positive decay constant, a supported loss,
    and non-zero periods wherever [learn] takes a remainder. *)
Definition well_configured (self : FastDQNAgent) : Prop :=
  (_eps_method self = "exponential"%string \/ _eps_method self = "linear"%string)
  /\ (0 < _eps_decay self)%R
  /\ (_loss_type self = "smooth_l1"%string \/ _loss_type self = "mse"%string)
  /\ (_double_dqn self = true -> _target_update_freq self <> 0%Z)
  /\ (truthy (_save_model_dir self) = true -> _save_model_freq self <> 0%Z)
  /\ _print_freq self <> 0%Z.

(** The target network exists whenever double-DQN reads it. *)
Definition has_target {Params OptState : Type} (self : FastDQNAgent)
  (st : AgentState Params OptState) : Prop :=
  _double_dqn self = true -> _target_q_network st <> None.

(** A running agent over the toy instance, with a target network. *)
Definition toy_state : AgentState Z unit :=
  {| _current_eps := 1;
     _q_network := toy_network 7;
     _target_q_network := Some (toy_network 3);
     _optimizer := tt;
     files := [] |}.

(** A toy environment: a counter that ends its episode at 3. *)
Definition toy_env_reset (e : nat) : nat * nat := (O, O).

Definition toy_env_step (e : nat) (action : nat) : nat * nat * R * bool :=
  (S e, S e, 1%R, (3 <=? S e)%nat).

(* ================================================================== *)
(** * Counting the events of a run *)
(* ================================================================== *)

(** How many events of a run satisfy [p]. *)
Fixpoint count_events (p : Event -> bool) (events : list Event) : Z :=
  match events with
  | [] => 0%Z
  | e :: events' => ((if p e then 1 else 0) + count_events p events')%Z
  end.

Definition is_optimize (e : Event) : bool :=
  match e with LearnerOptimize => true | _ => false end.

Definition is_head (e : Event) : bool :=
  match e with LearnerHead => true | _ => false end.

(** A system over the toy instance in the middle of [learn]: the learner is
    at the head of its loop, the given batches wait in the batch queue, and
    one actor stands at observation 1 of its episode. *)
Definition toy_actor : Actor nat nat :=
  {| env := 1%nat; mode := true; at_observation := Some 1%nat;
     episode_id := 0; cum_return := 1 |}.

Definition toy_system (batches : list (Batch nat)) : System nat Z unit nat :=
  {| agent := toy_state;
     locals := {| steps := 0; loss_sum := 0 |};
     waiting := false;
     transition_queue := [];
     batch_queue := batches;
     actors := [toy_actor];
     builders := [] |}.

(* ================================================================== *)
(** * Exceptions outside the pipeline *)
(* ================================================================== *)

(** The deprecated agent and the resource actions can raise two more
    exceptions than the pipeline: [TypeError] ([os.path.join] on [None])
    and [IndexError] ([random.choice] on an empty list). *)
Module PyErr.

Inductive error : Set :=
| Builtin (e : Py.exn)
| TypeError
| IndexError.

(** What a call does: it returns or it raises. *)
Inductive outcome (A : Type) : Type :=
| Done (a : A)
| Fail (e : error).

Arguments Done {A} a.
Arguments Fail {A} e.

Definition bind {A B : Type} (c : outcome A) (k : A -> outcome B) : outcome B :=
  match c with
  | Done a => k a
  | Fail e => Fail e
  end.

(** A computation of the pipeline, seen with the larger exception type. *)
Definition lift {A : Type} (c : result A) : outcome A :=
  match c with
  | Ret a => Done a
  | Raise e => Fail (Builtin e)
  end.

End PyErr.

(* ================================================================== *)
(** * The deprecated agent: [train] *)
(* ================================================================== *)

(** [deprecated/agents/fast_dqn_agent.py]: [__init__] (lines 57-126) and the
    loop of [train] (lines 140-162).  The networks are their parameters;
    [_update] (lines 206-250) is a parameter for its effect on the network
    and the optimizer, and its increment of [self._steps] (line 249) is
    written out in [train_iter]. *)
Module Legacy.

Import PyErr.

(** [os.path.join(self._save_model_dir, name)]: [save_model_dir] defaults
    to [None], on which [os.path.join] raises [TypeError]. *)
Definition path_join (d : option string) (name : string) : outcome string :=
  match d with
  | Some d => Done (Py.path_join d name)
  | None => Fail TypeError
  end.

Section Train.

Context {Params OptState Batch : Type}.

Variable _update : Params -> Params -> OptState -> Batch -> Params * OptState * R.

(** The attributes [train] reads and never writes; [epsilon_schedule] holds
    [_epsilon_min] and [_epsilon_decrease]. *)
Record Agent : Type := {
  epsilon_schedule : Deprecated.FastDQNAgent;
  _save_model_dir : option string;
  _save_model_freq : Z;
  _print_freq : Z;
  _target_update_freq : Z
}.

(** The attributes [train] writes, and the checkpoint files. *)
Record State : Type := {
  _steps : Z;
  _epsilon : R;
  _q_network : Params;
  _target_q_network : Params;
  _optimizer : OptState;
  files : list (string * Params)
}.

(** [__init__]: the schedule (lines 82-85), [_steps = 0] (line 93), the
    checkpoint and the count parsed from its name (lines 113-116), and the
    target network copied from the network (line 124). *)
Definition __init__ (network : Params) (optimizer : OptState)
  (epsilon_max epsilon_min epsilon_decrease_steps : R) (target_update_freq : Z)
  (init_model_path save_model_dir : option string) (save_model_freq print_freq : Z)
  (fs : list (string * Params)) : outcome (Agent * State) :=
  bind (lift (Deprecated.__init__ epsilon_max epsilon_min epsilon_decrease_steps))
    (fun '(schedule, epsilon) =>
  bind (match init_model_path with
        | Some path =>
            if truthy (Some path)
            then match lookup fs path with
                 | Some p =>
                     bind (lift (int_of_str (slice_from path (rfind path "-" + 1))))
                       (fun n => Done (p, n))
                 | None => Fail (Builtin FileNotFoundError)
                 end
            else Done (network, 0%Z)
        | None => Done (network, 0%Z)
        end)
    (fun '(q, steps) =>
  Done ({| epsilon_schedule := schedule;
           _save_model_dir := save_model_dir;
           _save_model_freq := save_model_freq;
           _print_freq := print_freq;
           _target_update_freq := target_update_freq |},
        {| _steps := steps;
           _epsilon := epsilon;
           _q_network := q;
           _target_q_network := q;
           _optimizer := optimizer;
           files := fs |}))).

(** One iteration of [train]'s loop, lines 144-162. *)
Definition train_iter (self : Agent) (st : State) (loss_sum : R) (batch : Batch)
  : outcome (State * R) :=
  bind (lift (mod_ (_steps st) (_target_update_freq self))) (fun m =>
  let target := if (m =? 0)%Z then _q_network st else _target_q_network st in
  let epsilon := Deprecated.train_epsilon (epsilon_schedule self) (_epsilon st) in
  let '(q, o, loss) := _update (_q_network st) target (_optimizer st) batch in
  let steps := (_steps st + 1)%Z in
  let loss_sum := (loss_sum + loss)%R in
  bind (lift (mod_ steps (_save_model_freq self))) (fun m =>
  bind (if (m =? 0)%Z
        then bind (path_join (_save_model_dir self) ("agent.model-" ++ format_d steps))
               (fun path => Done ((path, q) :: files st))
        else Done (files st)) (fun fs =>
  bind (lift (mod_ steps (_print_freq self))) (fun m =>
  Done ({| _steps := steps;
           _epsilon := epsilon;
           _q_network := q;
           _target_q_network := target;
           _optimizer := o;
           files := fs |},
        if (m =? 0)%Z then 0%R else loss_sum))))).

(** The loop over the batches it is handed. *)
Fixpoint train_loop (self : Agent) (st : State) (loss_sum : R) (batches : list Batch)
  : outcome (State * R) :=
  match batches with
  | [] => Done (st, loss_sum)
  | b :: bs =>
      bind (train_iter self st loss_sum b)
        (fun '(st', loss_sum') => train_loop self st' loss_sum' bs)
  end.

(** [train], line 143 onwards: [loss_sum = 0.0]. *)
Definition train (self : Agent) (st : State) (batches : list Batch) : outcome (State * R) :=
  train_loop self st 0%R batches.

End Train.

End Legacy.

(* ================================================================== *)
(** * The resource actions *)
(* ================================================================== *)

(** [envs/actions/resource.py].  The data context [dc] and
    [utils.closest_unit], [utils.closest_units] are not in this module:
    they are parameters.  The outcome of [closest_unit] stands for the call
    together with the read of [.tag] on what it returns.  An action is the
    [unit_command] of the [sc_pb.Action] the code fills in.
    [random.choice] is given the draw it makes. *)
Module Resource.

Import PyErr.

(** The attributes of a unit the actions read. *)
Record Unit : Type := {
  tag : Z;
  energy : Q;
  ideal_harvesters : Z;
  assigned_harvesters : Z
}.

(** [action.action_raw.unit_command]. *)
Record Action : Type := {
  unit_tags : list Z;
  ability_id : Z;
  target_unit_tag : Z
}.

(** [random.choice(l)] with its draw: [IndexError] on an empty list. *)
Definition choice {A : Type} (draw : nat) (l : list A) : outcome A :=
  match nth_error l (draw mod List.length l) with
  | Some x => Done x
  | None => Fail IndexError
  end.

(** A [for] loop that appends one result per element and stops at the
    first exception. *)
Fixpoint for_each {A B : Type} (f : A -> outcome B) (l : list A) : outcome (list B) :=
  match l with
  | [] => Done []
  | x :: l' =>
      bind (f x) (fun y => bind (for_each f l') (fun ys => Done (y :: ys)))
  end.

Section ResourceActions.

Variable DataContext : Type.
Variable units_of_type : DataContext -> Z -> list Unit.
Variable mature_units_of_types : DataContext -> list Z -> list Unit.
Variable idle_units_of_type : DataContext -> Z -> list Unit.
Variable minerals : DataContext -> list Unit.
Variable closest_unit : Unit -> list Unit -> outcome Unit.
Variable closest_units : Unit -> list Unit -> Z -> outcome (list Unit).
Variable ZERG_QUEEN ZERG_HATCHERY ZERG_LAIR ZERG_HIVE ZERG_DRONE ZERG_EXTRACTOR : Z.
Variable EFFECT_INJECTLARVA HARVEST_GATHER_DRONE : Z.

(** Lines 35-39 and 55-59. *)
Definition injectable_queens (dc : DataContext) : list Unit :=
  filter (fun u => Qle_bool 25 (energy u)) (units_of_type dc ZERG_QUEEN).

(** Lines 40-42 and 60-62. *)
Definition bases (dc : DataContext) : list Unit :=
  mature_units_of_types dc [ZERG_HATCHERY; ZERG_LAIR; ZERG_HIVE].

Definition _all_idle_queens_inject_larva (dc : DataContext) : outcome (list Action) :=
  let injectable_queens := injectable_queens dc in
  let bases := bases dc in
  for_each (fun queen =>
              bind (closest_unit queen bases) (fun base =>
              Done {| unit_tags := [tag queen];
                      ability_id := EFFECT_INJECTLARVA;
                      target_unit_tag := tag base |}))
           injectable_queens.

Definition _is_valid_all_idle_queens_inject_larva (dc : DataContext) : bool :=
  ((0 <? List.length (bases dc)) && (0 <? List.length (injectable_queens dc)))%nat.

Definition _all_idle_workers_gather_minerals (dc : DataContext) : outcome (list Action) :=
  for_each (fun worker =>
              bind (closest_unit worker (minerals dc)) (fun mineral =>
              Done {| unit_tags := [tag worker];
                      ability_id := HARVEST_GATHER_DRONE;
                      target_unit_tag := tag mineral |}))
           (idle_units_of_type dc ZERG_DRONE).

Definition _is_valid_all_idle_workers_gather_minerals (dc : DataContext) : bool :=
  ((0 <? List.length (idle_units_of_type dc ZERG_DRONE))
   && (0 <? List.length (minerals dc)))%nat.

(** Lines 89-92 and 110-113. *)
Definition idle_extractors (dc : DataContext) : list Unit :=
  filter (fun u => (0 <? ideal_harvesters u - assigned_harvesters u)%Z)
         (units_of_type dc ZERG_EXTRACTOR).

Definition _some_workers_gather_gas (dc : DataContext) (draw : nat) : outcome (list Action) :=
  bind (choice draw (idle_extractors dc)) (fun extractor =>
  let num_workers_need := (ideal_harvesters extractor - assigned_harvesters extractor)%Z in
  bind (closest_units extractor (units_of_type dc ZERG_DRONE) num_workers_need)
    (fun workers =>
  Done [{| unit_tags := map tag workers;
           ability_id := HARVEST_GATHER_DRONE;
           target_unit_tag := tag extractor |}])).

Definition _is_valid_some_workers_gather_gas (dc : DataContext) : bool :=
  ((0 <? List.length (idle_extractors dc))
   && (0 <? List.length (units_of_type dc ZERG_DRONE)))%nat.

End ResourceActions.

End Resource.

(** A toy [_update] for the deprecated agent: the parameter counts the
    updates, the loss is 1. *)
Definition toy_update (q target : Z) (o : unit) (batch : nat) : Z * unit * R :=
  ((q + 1)%Z, tt, 1%R).

(** A deprecated agent without a checkpoint directory (the default),
    saving every [save_model_freq] steps. *)
Definition legacy_agent (save_model_dir : option string) (save_model_freq : Z) : Legacy.Agent :=
  {| Legacy.epsilon_schedule :=
       {| Deprecated._epsilon_min := 0.1; Deprecated._epsilon_decrease := 0.001 |};
     Legacy._save_model_dir := save_model_dir;
     Legacy._save_model_freq := save_model_freq;
     Legacy._print_freq := 1000;
     Legacy._target_update_freq := 10000 |}.

Definition legacy_state (steps : Z) : Legacy.State (Params := Z) (OptState := unit) :=
  {| Legacy._steps := steps;
     Legacy._epsilon := 1;
     Legacy._q_network := 7%Z;
     Legacy._target_q_network := 7%Z;
     Legacy._optimizer := tt;
     Legacy.files := [] |}.

(* ================================================================== *)
(** * The builtins and the replay memory on examples *)
(* ================================================================== *)

Example rfind_last_dash :
  rfind "a-b/agent.model-50000" "-" = 15%Z /\ rfind "model" "-" = (-1)%Z.
Proof. split; reflexivity. Qed.

Example int_of_checkpoint_name :
  let path := "a-b/agent.model-50000"%string in
  int_of_str (slice_from path (rfind path "-" + 1)) = Ret 50000%Z
  /\ int_of_str (slice_from "model" (rfind "model" "-" + 1)) = Raise ValueError.
Proof. split; reflexivity. Qed.

Example checkpoint_name :
  path_join "ckpt" ("agent.model-" ++ format_d 150000) = "ckpt/agent.model-150000"%string.
Proof. reflexivity. Qed.

Example int_truncates :
  int_of_Q (7 # 2) = 3%Z /\ int_of_Q (- 7 # 2) = (-3)%Z.
Proof. split; reflexivity. Qed.

(** The shard scenario of the spec: capacity 4, transitions 1 to 5 pushed
    in order; the fifth overwrites slot 0. *)
Example shard_overwrites_oldest :
  let m := fold_left Memory.push [1; 2; 3; 4; 5]%nat (Memory.new 4) in
  Memory.buffer m = [5; 2; 3; 4]%nat /\ Memory.count m = 4%nat.
Proof. split; reflexivity. Qed.

(* ================================================================== *)
(** * Results: the epsilon schedule *)
(* ================================================================== *)

Lemma truediv_ok (x y : R) : y <> 0%R -> truediv x y = Ret (x / y)%R.
Proof.
  intros Hy. unfold truediv.
  destruct (Req_dec_T y 0) as [E | _]; [contradiction | reflexivity].
Qed.

Lemma truediv_zero (x : R) : truediv x 0 = Raise ZeroDivisionError.
Proof.
  unfold truediv. destruct (Req_dec_T 0 0) as [_ | N]; [reflexivity | now elim N].
Qed.

Lemma float_max_gt_1 : (1 < float_max)%R.
Proof.
  unfold float_max.
  assert (H52 : (1 <= 2 ^ 52)%R) by (apply pow_R1_Rle; lra).
  assert (H1023 : (2 <= 2 ^ 1023)%R).
  { change 1023%nat with (S 1022). simpl pow.
    assert (1 <= 2 ^ 1022)%R by (apply pow_R1_Rle; lra). lra. }
  assert (Hinv : (/ 2 ^ 52 <= 1)%R).
  { rewrite <- Rinv_1. apply Rinv_le_contravar; lra. }
  assert (Hpos : (0 < / 2 ^ 52)%R) by (apply Rinv_0_lt_compat; lra).
  nra.
Qed.

Lemma math_exp_nonpos (x : R) : (x <= 0)%R -> math_exp x = Ret (exp x).
Proof.
  intros Hx. unfold math_exp.
  destruct (Rlt_dec float_max (exp x)) as [Hlt | _]; [ | reflexivity].
  exfalso.
  assert (exp x <= 1)%R.
  { destruct Hx as [Hx | ->]; [ | rewrite exp_0; lra].
    left. rewrite <- exp_0. now apply exp_increasing. }
  pose proof float_max_gt_1. lra.
Qed.

Lemma min_Rmin (a b : R) : Py.min a b = Rmin b a.
Proof.
  unfold Py.min, Rmin.
  destruct (Rlt_dec b a), (Rle_dec b a); try reflexivity; lra.
Qed.

(** The schedule on a supported kind, with a positive decay constant. *)
Lemma linear_value (self : FastDQNAgent) (step : Z) :
  _eps_method self = "linear"%string -> (0 < _eps_decay self)%R ->
  _get_current_eps self step =
  Ret (_eps_start self
       - (_eps_start self - _eps_end self) * Rmin (IZR step) (_eps_decay self)
         / _eps_decay self)%R.
Proof.
  intros Hm Hd. unfold _get_current_eps. rewrite Hm. simpl.
  rewrite truediv_ok by lra. simpl. now rewrite min_Rmin.
Qed.

Lemma exponential_value (self : FastDQNAgent) (step : Z) :
  _eps_method self = "exponential"%string -> (0 < _eps_decay self)%R -> (0 <= step)%Z ->
  _get_current_eps self step =
  Ret (_eps_end self
       + (_eps_start self - _eps_end self) * exp (- IZR step / _eps_decay self))%R.
Proof.
  intros Hm Hd Hs. unfold _get_current_eps. rewrite Hm. simpl.
  rewrite truediv_ok by lra. simpl.
  replace (-1 * IZR step / _eps_decay self)%R with (- IZR step / _eps_decay self)%R
    by (field; lra).
  rewrite math_exp_nonpos; [reflexivity | ].
  apply IZR_le in Hs.
  assert (0 <= IZR step / _eps_decay self)%R.
  { apply Rmult_le_pos; [lra | left; now apply Rinv_0_lt_compat]. }
  unfold Rdiv in *. rewrite Ropp_mult_distr_l_reverse. lra.
Qed.

(** C3, as the code has it.  Over the reals the linear schedule is
    [eps_start - (eps_start - eps_end) * min(step, eps_decay) / eps_decay]
    for a positive [eps_decay]: it is [eps_start] at step 0 and [eps_end]
    at [eps_decay] and at every later step, and the scenario
    [eps_start=1.0, eps_end=0.1, eps_decay=100] gives 0.55 at step 50 and
    0.1 at step 150.  Evaluated in binary64, as Python evaluates it, step
    50 gives the float 0.55, and step 150 gives 0.09999999999999998
    ([0x1.9999999999998p-4]), two units in the last place below the
    float 0.1. *)
Theorem linear_schedule (self : FastDQNAgent) (step : Z) :
  _eps_method self = "linear"%string -> (0 < _eps_decay self)%R -> (0 <= step)%Z ->
  _get_current_eps self step =
    Ret (_eps_start self
         - (_eps_start self - _eps_end self) * Rmin (IZR step) (_eps_decay self)
           / _eps_decay self)%R
  /\ _get_current_eps self 0 = Ret (_eps_start self)
  /\ (IZR step = _eps_decay self -> _get_current_eps self step = Ret (_eps_end self))
  /\ ((_eps_decay self < IZR step)%R -> _get_current_eps self step = Ret (_eps_end self))
  /\ _get_current_eps (scenario "linear") 50 = Ret 0.55%R
  /\ _get_current_eps (scenario "linear") 150 = Ret 0.1%R
  /\ Binary64.returns_float (Binary64._get_current_eps_linear 1 0.1 100 50) 0.55 = true
  /\ Binary64._get_current_eps_linear 1 0.1 100 150 = Ret 0x1.9999999999998p-4%float.
Proof.
  intros Hm Hd Hs.
  assert (Hgen : forall k : Z,
             _get_current_eps self k =
             Ret (_eps_start self
                  - (_eps_start self - _eps_end self) * Rmin (IZR k) (_eps_decay self)
                    / _eps_decay self)%R)
    by (intro k; now apply linear_value).
  split; [apply Hgen | ].
  split.
  { rewrite Hgen. f_equal. rewrite Rmin_left by lra. field. lra. }
  split.
  { intros E. rewrite Hgen. f_equal. rewrite Rmin_left by lra. rewrite E. field. lra. }
  split.
  { intros L. rewrite Hgen. f_equal. rewrite Rmin_right by lra. field. lra. }
  split.
  { rewrite linear_value by (simpl; first [reflexivity | lra]). simpl.
    f_equal. rewrite Rmin_left by lra. lra. }
  split.
  { rewrite linear_value by (simpl; first [reflexivity | lra]). simpl.
    f_equal. rewrite Rmin_right by lra. lra. }
  split; reflexivity.
Qed.

Lemma linear_schedule_witness :
  _get_current_eps (scenario "linear") 50 =
  Ret (1 - (1 - 0.1) * Rmin 50 100 / 100)%R.
Proof.
  apply (linear_schedule (scenario "linear") 50); simpl; [reflexivity | lra | lia].
Defined.

(** C3 as stated fails on the code: Python evaluates the scenario's step 150
    as [1.0 - (1.0 - 0.1) * 100 / 100], that is [1.0 - 0.9 * 100 / 100] with
    [0.9 * 100 = 90.0] and [90.0 / 100 = 0.9], and [1.0 - 0.9] is
    0.09999999999999998 in binary64: [compute(150) == 0.1] is [False], and
    so is [compute(eps_decay) == eps_end] at [eps_decay = 100]. *)
Lemma linear_schedule_rounds :
  Binary64.returns_float (Binary64._get_current_eps_linear 1 0.1 100 150) 0.1 = false
  /\ Binary64.returns_float (Binary64._get_current_eps_linear 1 0.1 100 100) 0.1 = false.
Proof.
  split; vm_compute; reflexivity.
Qed.

Lemma exp_neg_lt_inv (x : R) : (0 < x)%R -> (exp (- x) < / x)%R.
Proof.
  intros Hx. rewrite exp_Ropp.
  apply Rinv_lt_contravar.
  - apply Rmult_lt_0_compat; [assumption | apply exp_pos].
  - pose proof (exp_ineq1 x ltac:(lra)). lra.
Qed.

(** C7, as the code has it.  For a positive [eps_decay] the exponential
    schedule returns [eps_end + (eps_start - eps_end) * exp(-step / eps_decay)]
    at every non-negative step.  Over the reals it is [eps_start] at step
    0; for [eps_start > eps_end] a later step gives a strictly smaller
    value; and its values come as close to [eps_end] as one wants from some
    step on.  Evaluated in binary64, as Python evaluates it, step 0 gives
    [eps_end + (eps_start - eps_end) * 1.0]: the float 1.0 for
    [eps_start=1.0, eps_end=0.1], and 0.30000000000000004
    ([0x1.3333333333334p-2]) for [eps_start=0.3, eps_end=0.03]; and the sum
    absorbs a small decaying term: with [eps_start=1.0, eps_end=0.1] the
    values [2^-60] and [2^-61] of the exponential both give the float
    0.1. *)
Theorem exponential_schedule (self : FastDQNAgent) :
  _eps_method self = "exponential"%string -> (0 < _eps_decay self)%R ->
  (forall step, (0 <= step)%Z ->
     _get_current_eps self step =
     Ret (_eps_end self
          + (_eps_start self - _eps_end self) * exp (- IZR step / _eps_decay self))%R)
  /\ _get_current_eps self 0 = Ret (_eps_start self)
  /\ ((_eps_end self < _eps_start self)%R ->
      forall s1 s2, (0 <= s1 < s2)%Z ->
      exists v1 v2, _get_current_eps self s1 = Ret v1
                    /\ _get_current_eps self s2 = Ret v2 /\ (v2 < v1)%R)
  /\ (forall delta, (0 < delta)%R ->
      exists N, forall step, (N <= step)%Z ->
      exists v, _get_current_eps self step = Ret v
                /\ (Rabs (v - _eps_end self) < delta)%R)
  /\ Binary64._get_current_eps_exponential 1 0.1 100 0 = Ret (Some 1%float)
  /\ Binary64._get_current_eps_exponential 0.3 0.03 100 0
     = Ret (Some 0x1.3333333333334p-2%float)
  /\ Binary64.exponential_mix 1 0.1 0x1p-60 = 0.1%float
  /\ Binary64.exponential_mix 1 0.1 0x1p-61 = 0.1%float.
Proof.
  intros Hm Hd.
  pose proof (fun k => exponential_value self k Hm Hd) as Hval.
  assert (Hfloat :
            Binary64._get_current_eps_exponential 1 0.1 100 0 = Ret (Some 1%float)
            /\ Binary64._get_current_eps_exponential 0.3 0.03 100 0
               = Ret (Some 0x1.3333333333334p-2%float)
            /\ Binary64.exponential_mix 1 0.1 0x1p-60 = 0.1%float
            /\ Binary64.exponential_mix 1 0.1 0x1p-61 = 0.1%float)
    by (repeat split; reflexivity).
  split; [exact Hval | ].
  split.
  { rewrite Hval by lia. f_equal.
    replace (- 0 / _eps_decay self)%R with 0%R by (field; lra).
    rewrite exp_0. ring. }
  split.
  { intros Hlt s1 s2 [H1 H12].
    eexists. eexists.
    split; [apply Hval; lia | ].
    split; [apply Hval; lia | ].
    assert (Hexp : (exp (- IZR s2 / _eps_decay self) < exp (- IZR s1 / _eps_decay self))%R).
    { apply exp_increasing. apply IZR_lt in H12.
      unfold Rdiv. apply Rmult_lt_compat_r; [now apply Rinv_0_lt_compat | lra]. }
    nra. }
  split; [ | exact Hfloat].
  intros delta Hdelta.
  set (a := Rabs (_eps_start self - _eps_end self)).
  assert (Ha : (0 <= a)%R) by apply Rabs_pos.
  set (bound := (a * _eps_decay self / delta)%R).
  assert (Hbound : (0 <= bound)%R).
  { unfold bound. apply Rmult_le_pos; [nra | left; now apply Rinv_0_lt_compat]. }
  exists (up bound). intros step Hstep.
  destruct (archimed bound) as [Hup _].
  assert (Hs : (bound < IZR step)%R) by (apply IZR_le in Hstep; lra).
  assert (Hpos : (0 < IZR step)%R) by lra.
  assert (Hz : (0 <= step)%Z) by (apply le_IZR; lra).
  eexists. split; [apply Hval; exact Hz | ].
  replace (_eps_end self
           + (_eps_start self - _eps_end self) * exp (- IZR step / _eps_decay self)
           - _eps_end self)%R
    with ((_eps_start self - _eps_end self) * exp (- IZR step / _eps_decay self))%R by ring.
  rewrite Rabs_mult. fold a.
  rewrite (Rabs_pos_eq (exp _)) by (left; apply exp_pos).
  set (x := (IZR step / _eps_decay self)%R).
  assert (Hx : (0 < x)%R).
  { unfold x. apply Rmult_lt_0_compat; [assumption | now apply Rinv_0_lt_compat]. }
  replace (- IZR step / _eps_decay self)%R with (- x)%R by (unfold x; field; lra).
  pose proof (exp_neg_lt_inv x Hx) as Hinv.
  pose proof (exp_pos (- x)) as Hexp.
  assert (Hax : (a * / x < delta)%R).
  { unfold x. replace (a * / (IZR step / _eps_decay self))%R
      with (a * _eps_decay self / IZR step)%R by (field; lra).
    apply Rmult_lt_reg_r with (IZR step); [assumption | ].
    replace (a * _eps_decay self / IZR step * IZR step)%R
      with (a * _eps_decay self)%R by (field; lra).
    unfold bound in Hs.
    apply Rmult_lt_compat_r with (r := delta) in Hs; [ | assumption].
    replace (a * _eps_decay self / delta * delta)%R
      with (a * _eps_decay self)%R in Hs by (field; lra).
    lra. }
  destruct Ha as [Ha | Ha0].
  - apply Rlt_trans with (a * / x)%R; [ | assumption].
    now apply Rmult_lt_compat_l.
  - rewrite <- Ha0. lra.
Qed.

(** C7 as stated fails on the code.  In binary64 the schedule at step 0 is
    [0.03 + (0.3 - 0.03) * 1.0 = 0.30000000000000004] for [eps_start=0.3,
    eps_end=0.03], which is not [eps_start]; and two different values of
    the exponential, [2^-61 < 2^-60], give the same epsilon 0.1 for
    [eps_start=1.0, eps_end=0.1], so strict decrease does not survive
    rounding. *)
Lemma exponential_schedule_rounds :
  Binary64._get_current_eps_exponential 0.3 0.03 100 0
  = Ret (Some 0x1.3333333333334p-2%float)
  /\ PrimFloat.eqb 0x1.3333333333334p-2 0.3 = false
  /\ PrimFloat.ltb 0x1p-61 0x1p-60 = true
  /\ Binary64.exponential_mix 1 0.1 0x1p-61 = Binary64.exponential_mix 1 0.1 0x1p-60.
Proof. repeat split; reflexivity. Qed.

Lemma exponential_schedule_witness :
  _get_current_eps (scenario "exponential") 0 = Ret 1%R.
Proof.
  apply (exponential_schedule (scenario "exponential")); simpl; [reflexivity | lra].
Defined.

(* ================================================================== *)
(** * Results: unsupported kinds *)
(* ================================================================== *)

Lemma raise_not_ret {A : Type} (c : result A) (a : A) : c = Ret a -> ~ raises c.
Proof. intros -> [e He]. discriminate. Qed.

(** C8, as the code has it.  [_get_current_eps] raises
    [NotImplementedError] exactly when the schedule kind is neither
    ['exponential'] nor ['linear'], whatever the other settings; for a
    positive [eps_decay] and a non-negative step it raises nothing else,
    so it raises at all exactly for an unsupported kind.  The loss of
    [_optimize] raises exactly when the loss kind is neither ['smooth_l1']
    nor ['mse'], and then [NotImplementedError]. *)
Theorem unsupported_kinds (self : FastDQNAgent) (step : Z) (q target : list R) :
  (_get_current_eps self step = Raise NotImplementedError <->
   _eps_method self <> "exponential"%string /\ _eps_method self <> "linear"%string)
  /\ ((0 < _eps_decay self)%R -> (0 <= step)%Z ->
      (raises (_get_current_eps self step) <->
       _eps_method self <> "exponential"%string /\ _eps_method self <> "linear"%string))
  /\ (raises (loss self q target) <->
      _loss_type self <> "smooth_l1"%string /\ _loss_type self <> "mse"%string)
  /\ (forall e, loss self q target = Raise e -> e = NotImplementedError).
Proof.
  split; [ | split; [ | split]].
  - unfold _get_current_eps.
    destruct (String.eqb_spec (_eps_method self) "exponential") as [He | He].
    + split; [ | intros [N _]; contradiction].
      intros H. exfalso. unfold truediv in H.
      destruct (Req_dec_T (_eps_decay self) 0); simpl in H; [discriminate | ].
      unfold math_exp in H.
      destruct (Rlt_dec float_max _); simpl in H; discriminate.
    + destruct (String.eqb_spec (_eps_method self) "linear") as [Hl | Hl].
      * split; [ | intros [_ N]; contradiction].
        intros H. exfalso. unfold truediv in H.
        destruct (Req_dec_T (_eps_decay self) 0); simpl in H; discriminate.
      * split; [intros _; now split | reflexivity].
  - intros Hd Hs.
    destruct (String.eqb_spec (_eps_method self) "exponential") as [He | He].
    + split; [ | intros [N _]; contradiction].
      intros Hr. exfalso.
      exact (raise_not_ret _ _ (exponential_value self step He Hd Hs) Hr).
    + destruct (String.eqb_spec (_eps_method self) "linear") as [Hl | Hl].
      * split; [ | intros [_ N]; contradiction].
        intros Hr. exfalso.
        exact (raise_not_ret _ _ (linear_value self step Hl Hd) Hr).
      * split; [intros _; now split | ].
        intros _. exists NotImplementedError. unfold _get_current_eps.
        apply String.eqb_neq in He, Hl. now rewrite He, Hl.
  - unfold loss.
    destruct (String.eqb_spec (_loss_type self) "smooth_l1") as [Hs | Hs].
    + split; [intros [e He]; discriminate | intros [N _]; contradiction].
    + destruct (String.eqb_spec (_loss_type self) "mse") as [Hm | Hm].
      * split; [intros [e He]; discriminate | intros [_ N]; contradiction].
      * split; [intros _; now split | intros _; now exists NotImplementedError].
  - intros e. unfold loss.
    destruct (String.eqb (_loss_type self) "smooth_l1"); [discriminate | ].
    destruct (String.eqb (_loss_type self) "mse"); [discriminate | ].
    intros H. now inversion H.
Qed.

(** C8 as stated fails on the code: with the supported kind ['linear'] and
    [eps_decay = 0], line 323 divides by zero and [_get_current_eps]
    raises [ZeroDivisionError]. *)
Lemma supported_kind_raises :
  let self := agent_of "linear" 1 0.1 0 0.9 false 32 100 in
  _eps_method self = "linear"%string
  /\ _get_current_eps self 0 = Raise ZeroDivisionError
  /\ raises (_get_current_eps self 0).
Proof.
  assert (E : _get_current_eps (agent_of "linear" 1 0.1 0 0.9 false 32 100) 0
              = Raise ZeroDivisionError).
  { unfold _get_current_eps. simpl. now rewrite truediv_zero. }
  split; [reflexivity | ].
  split; [exact E | ].
  exists ZeroDivisionError. exact E.
Qed.

(* ================================================================== *)
(** * Results: the bootstrapped target *)
(* ================================================================== *)

Lemma zip_with_length {A B C : Type} (f : A -> B -> C) (l1 : list A) (l2 : list B) :
  List.length (zip_with f l1 l2) = Nat.min (List.length l1) (List.length l2).
Proof.
  revert l2. induction l1 as [ | x l1 IH]; intros [ | y l2]; simpl; auto.
Qed.

Lemma zip_with_nth_error {A B C : Type} (f : A -> B -> C) (l1 : list A) (l2 : list B)
  (i : nat) (a : A) (b : B) :
  nth_error l1 i = Some a -> nth_error l2 i = Some b ->
  nth_error (zip_with f l1 l2) i = Some (f a b).
Proof.
  revert l2 i. induction l1 as [ | x l1 IH]; intros [ | y l2] [ | i]; simpl;
    try discriminate.
  - intros H1 H2. inversion H1; inversion H2; reflexivity.
  - apply IH.
Qed.

Lemma row_max_spec (row : list R) :
  row <> [] -> In (row_max row) row /\ forall x, In x row -> (x <= row_max row)%R.
Proof.
  induction row as [ | x rest IH]; [now intros N | intros _].
  destruct rest as [ | y rest'].
  - simpl. split; [now left | intros z [<- | []]; lra].
  - destruct IH as [IHin IHle]; [discriminate | ].
    change (row_max (x :: y :: rest')) with (Rmax x (row_max (y :: rest'))).
    split.
    + unfold Rmax. destruct (Rle_dec x (row_max (y :: rest'))); [now right | now left].
    + intros z [<- | Hz].
      * apply Rmax_l.
      * eapply Rle_trans; [now apply IHle | apply Rmax_r].
Qed.

Lemma row_argmax_spec (row : list R) :
  row <> [] ->
  (row_argmax row < List.length row)%nat /\ nth (row_argmax row) row 0%R = row_max row.
Proof.
  induction row as [ | x rest IH]; [now intros N | intros _].
  destruct rest as [ | y rest'].
  - simpl. split; [lia | reflexivity].
  - destruct IH as [IHlt IHnth]; [discriminate | ].
    change (row_argmax (x :: y :: rest'))
      with (if Rle_dec (row_max (y :: rest')) x then O else S (row_argmax (y :: rest'))).
    change (row_max (x :: y :: rest')) with (Rmax x (row_max (y :: rest'))).
    destruct (Rle_dec (row_max (y :: rest')) x) as [Hle | Hgt].
    + split; [simpl; lia | ]. simpl nth. now rewrite Rmax_left.
    + split; [simpl in *; lia | ].
      change (nth (S (row_argmax (y :: rest'))) (x :: y :: rest') 0%R)
        with (nth (row_argmax (y :: rest')) (y :: rest') 0%R).
      rewrite IHnth. rewrite Rmax_right; [reflexivity | lra].
Qed.

Section TargetResults.

Context {Obs Params : Type}.
Variable forward : bool -> Params -> Obs -> list R.

(** The bootstrapped values of a batch are computed whenever the target
    network the double-DQN branch reads exists, one per transition. *)
Lemma futures_returns (self : FastDQNAgent) (q_network : Network Params)
  (target_q_network : option (Network Params)) (batch : Batch Obs) :
  _double_dqn self = false \/ target_q_network <> None ->
  exists fs, futures forward self q_network target_q_network batch = Ret fs
             /\ List.length fs = List.length (next_obs_batch batch).
Proof.
  intros H. unfold futures.
  destruct (_double_dqn self) eqn:Hd.
  - destruct target_q_network as [t | ].
    + eexists. split; [reflexivity | ].
      unfold gather. rewrite zip_with_length. rewrite !length_map. lia.
    + destruct H as [H | H]; [discriminate | now elim H].
  - eexists. split; [reflexivity | ]. now rewrite !length_map.
Qed.

(** On binary32 numbers the mask of a terminal transition gives back the
    reward (up to the sign of a zero reward) when the bootstrapped value
    and the discount are finite. *)
Lemma binary32_terminal_entry (reward discount future : Binary32.float32) :
  Binary32.finite discount = true -> Binary32.finite future = true ->
  match reward with
  | S754_zero _ =>
      exists s, Binary32.target_q_entry reward discount future (Binary32.of_bool true)
                = S754_zero s
  | _ => Binary32.target_q_entry reward discount future (Binary32.of_bool true) = reward
  end.
Proof.
  intros Hd Hf. unfold Binary32.target_q_entry, Binary32.of_bool.
  change (Binary32.sub Binary32.one Binary32.one) with (S754_zero false).
  unfold Binary32.add, Binary32.mul.
  destruct future as [sf | sf | | sf mf ef]; try discriminate;
    destruct discount as [sd | sd | | sd md ed]; try discriminate;
    destruct reward as [sr | sr | | sr mr er]; cbn [SFmul SFadd xorb];
    try reflexivity;
    destruct sr, sf, sd; cbn; eexists; reflexivity.
Qed.

(** An infinite or NaN bootstrapped value makes the target NaN, also on a
    terminal transition: [inf * 0] is NaN. *)
Lemma binary32_terminal_nan (reward discount future : Binary32.float32) :
  Binary32.finite future = false ->
  Binary32.target_q_entry reward discount future (Binary32.of_bool true) = S754_nan.
Proof.
  intros Hf. unfold Binary32.target_q_entry, Binary32.of_bool.
  change (Binary32.sub Binary32.one Binary32.one) with (S754_zero false).
  unfold Binary32.add, Binary32.mul.
  destruct future as [sf | sf | | sf mf ef]; try discriminate;
    destruct discount as [sd | sd | | sd md ed];
    destruct reward as [sr | sr | | sr mr er]; reflexivity.
Qed.

Lemma binary32_target_nth (reward_batch : list Binary32.float32)
  (discount : Binary32.float32) (futures done_batch : list Binary32.float32)
  (i : nat) (r f d : Binary32.float32) :
  nth_error reward_batch i = Some r -> nth_error futures i = Some f ->
  nth_error done_batch i = Some d ->
  nth_error (Binary32.target_q reward_batch discount futures done_batch) i
  = Some (Binary32.target_q_entry r discount f d).
Proof.
  intros Hr Hf Hd. unfold Binary32.target_q, Binary32.target_q_entry.
  apply zip_with_nth_error with (a := r) (b := Binary32.mul f (Binary32.sub Binary32.one d));
    [exact Hr | ].
  now apply zip_with_nth_error with (a := f) (b := d).
Qed.

(** C1, as the code has it.  For the batch made of any transitions,
    [_optimize] computes [target_q = reward + discount * future] entry by
    entry, where [future] is the bootstrapped value times [1 - done].  Over
    the reals, so for finite values before rounding, the target of a
    transition with [done] set is its reward, whatever the networks return
    for the next observation.  On the binary32 numbers of the tensors, the
    target of a terminal entry is the reward (a zero for a zero reward)
    whenever the bootstrapped value and the discount are finite, and it is
    NaN whenever the bootstrapped value is an infinity or NaN. *)
Theorem terminal_target (self : FastDQNAgent) (q_network : Network Params)
  (target_q_network : option (Network Params)) (transitions : list (Transition Obs)) :
  _double_dqn self = false \/ target_q_network <> None ->
  let batch := _transitions_to_batch transitions in
  exists fs targets,
    futures forward self q_network target_q_network batch = Ret fs
    /\ target_q forward self q_network target_q_network batch = Ret targets
    /\ targets = zip_with (fun r f => r + _discount self * f)%R (reward_batch batch)
                   (zip_with (fun f d => f * (1 - d))%R fs (done_batch batch))
    /\ List.length targets = List.length transitions
    /\ (forall i t, nth_error transitions i = Some t ->
        exists f, nth_error fs i = Some f
                  /\ nth_error targets i =
                     Some (reward t
                           + _discount self * (f * (1 - (if done t then 1 else 0))))%R)
    /\ (forall i t, nth_error transitions i = Some t -> done t = true ->
        nth_error targets i = Some (reward t))
    /\ (forall reward_batch discount futures done_batch i r f d,
        nth_error reward_batch i = Some r -> nth_error futures i = Some f ->
        nth_error done_batch i = Some d ->
        nth_error (Binary32.target_q reward_batch discount futures done_batch) i
        = Some (Binary32.target_q_entry r discount f d))
    /\ (forall r discount f,
        Binary32.finite discount = true -> Binary32.finite f = true ->
        match r with
        | S754_zero _ =>
            exists s, Binary32.target_q_entry r discount f (Binary32.of_bool true)
                      = S754_zero s
        | _ => Binary32.target_q_entry r discount f (Binary32.of_bool true) = r
        end)
    /\ (forall r discount f,
        Binary32.finite f = false ->
        Binary32.target_q_entry r discount f (Binary32.of_bool true) = S754_nan).
Proof.
  intros H batch.
  destruct (futures_returns self q_network target_q_network batch H) as [fs [Hfs Hlen]].
  assert (Hn : List.length fs = List.length transitions).
  { rewrite Hlen. unfold batch. simpl. apply length_map. }
  set (targets := zip_with (fun r f => r + _discount self * f)%R (reward_batch batch)
                    (zip_with (fun f d => f * (1 - d))%R fs (done_batch batch))).
  assert (Hentry : forall i t, nth_error transitions i = Some t ->
            exists f, nth_error fs i = Some f
                      /\ nth_error targets i =
                         Some (reward t
                               + _discount self * (f * (1 - (if done t then 1 else 0))))%R).
  { intros i t Ht.
    assert (Hi : (i < List.length fs)%nat).
    { rewrite Hn. apply nth_error_Some. congruence. }
    destruct (nth_error fs i) as [f | ] eqn:Hf; [ | apply nth_error_None in Hf; lia].
    exists f. split; [reflexivity | ].
    unfold targets.
    apply zip_with_nth_error with (a := reward t) (b := (f * (1 - (if done t then 1 else 0)))%R).
    - unfold batch. simpl. now apply map_nth_error.
    - apply zip_with_nth_error
        with (a := f) (b := if done t then 1%R else 0%R); [assumption | ].
      unfold batch. simpl.
      now apply (map_nth_error (fun t => if done t then 1%R else 0%R)). }
  exists fs, targets.
  split; [exact Hfs | ].
  split; [unfold target_q; rewrite Hfs; reflexivity | ].
  split; [reflexivity | ].
  split.
  { unfold targets. rewrite !zip_with_length. unfold batch. simpl.
    rewrite !length_map. lia. }
  split; [exact Hentry | ].
  split.
  { intros i t Ht Hdone.
    destruct (Hentry i t Ht) as [f [_ Hf]].
    rewrite Hf, Hdone. f_equal. ring. }
  split; [exact binary32_target_nth | ].
  split; [exact binary32_terminal_entry | exact binary32_terminal_nan].
Qed.

(** C1 as stated fails on the code: with [discount=0.9], [reward=1.0] and
    [done] set, a next-state value [inf] gives the target NaN, which is not
    the reward; a finite one (here 1.0) gives 1.0. *)
Lemma terminal_target_not_finite :
  Binary32.target_q [Binary32.one] (S754_finite false 15099494 (-24))
    [S754_infinity false] [Binary32.of_bool true] = [S754_nan]
  /\ SFeqb S754_nan Binary32.one = false
  /\ Binary32.target_q [Binary32.one] (S754_finite false 15099494 (-24))
       [Binary32.one] [Binary32.of_bool true] = [Binary32.one].
Proof. repeat split; reflexivity. Qed.


End TargetResults.

(** The scenario of C1: double-DQN off, [discount=0.9], reward 1.0, [done]
    set. *)
Lemma terminal_target_witness :
  exists targets,
    target_q toy_forward (scenario "linear") (toy_network 7) None
      (_transitions_to_batch [terminal 1]) = Ret targets
    /\ nth_error targets 0 = Some 1%R.
Proof.
  destruct (terminal_target toy_forward (scenario "linear") (toy_network 7) None
              [terminal 1] (or_introl eq_refl))
    as [fs [targets [_ [Ht [_ [_ [_ [Hd _]]]]]]]].
  exists targets. split; [exact Ht | ].
  apply (Hd 0%nat (terminal 1)); reflexivity.
Defined.


(* ================================================================== *)
(** * Results: the epsilon counter of the deprecated agent *)
(* ================================================================== *)

Lemma train_epsilon_fixed (self : Deprecated.FastDQNAgent) (epsilon : R) (k : nat) :
  (epsilon <= Deprecated._epsilon_min self)%R ->
  Deprecated.train_epsilon_n self k epsilon = epsilon.
Proof.
  intros Hle. induction k as [ | k IH]; [reflexivity | ].
  simpl. unfold Deprecated.train_epsilon at 1.
  destruct (Rlt_dec (Deprecated._epsilon_min self) epsilon) as [Hlt | _]; [lra | exact IH].
Qed.

Lemma train_epsilon_floor (self : Deprecated.FastDQNAgent) (n : nat) (epsilon : R) :
  (0 <= Deprecated._epsilon_decrease self)%R ->
  (Deprecated._epsilon_min self - Deprecated._epsilon_decrease self <= epsilon)%R ->
  (Deprecated._epsilon_min self - Deprecated._epsilon_decrease self
   <= Deprecated.train_epsilon_n self n epsilon)%R.
Proof.
  intros Hd. revert epsilon.
  induction n as [ | n IH]; intros epsilon He; [exact He | ].
  simpl. apply IH. unfold Deprecated.train_epsilon.
  destruct (Rlt_dec (Deprecated._epsilon_min self) epsilon); lra.
Qed.

Lemma binary64_run_add (epsilon_min decrease : float) (n k : N) (epsilon : float) :
  Binary64.train_epsilon_n epsilon_min decrease (k + n) epsilon
  = Binary64.train_epsilon_n epsilon_min decrease k
      (Binary64.train_epsilon_n epsilon_min decrease n epsilon).
Proof. unfold Binary64.train_epsilon_n. apply N.iter_add. Qed.

Lemma binary64_run_succ (epsilon_min decrease : float) (n : N) (epsilon : float) :
  Binary64.train_epsilon_n epsilon_min decrease (N.succ n) epsilon
  = Binary64.train_epsilon epsilon_min decrease
      (Binary64.train_epsilon_n epsilon_min decrease n epsilon).
Proof. unfold Binary64.train_epsilon_n. apply N.iter_succ. Qed.

Lemma binary64_run_fixed (epsilon_min decrease : float) (k : N) (epsilon : float) :
  Binary64.train_epsilon epsilon_min decrease epsilon = epsilon ->
  Binary64.train_epsilon_n epsilon_min decrease k epsilon = epsilon.
Proof.
  intros Hf. induction k as [ | k IH] using N.peano_ind; [reflexivity | ].
  rewrite binary64_run_succ, IH. exact Hf.
Qed.

(** C10.  In the deprecated agent, with [epsilon_decrease_steps > 0] and
    [epsilon_min <= epsilon_max], the shared epsilon starts at
    [epsilon_max] and every iteration of [train] subtracts
    [(epsilon_max - epsilon_min) / epsilon_decrease_steps] from it when it
    exceeds [epsilon_min], without clamping; it never gets more than one
    decrement below [epsilon_min], and once it is at or below
    [epsilon_min] it stays as it is.  It can end strictly below
    [epsilon_min]: with the default arguments (1.0, 0.1, 1000000) the
    binary64 value after 1000000 iterations is still above 0.1, the next
    iteration takes it to 0.09999910000958534, and there it stays. *)
Theorem deprecated_epsilon (epsilon_max epsilon_min epsilon_decrease_steps : R) :
  (0 < epsilon_decrease_steps)%R -> (epsilon_min <= epsilon_max)%R ->
  (exists self,
     Deprecated.__init__ epsilon_max epsilon_min epsilon_decrease_steps
     = Ret (self, epsilon_max)
     /\ Deprecated._epsilon_min self = epsilon_min
     /\ Deprecated._epsilon_decrease self
        = ((epsilon_max - epsilon_min) / epsilon_decrease_steps)%R
     /\ (forall e, (epsilon_min < e)%R ->
         Deprecated.train_epsilon self e = (e - Deprecated._epsilon_decrease self)%R)
     /\ (forall e, (e <= epsilon_min)%R ->
         forall k, Deprecated.train_epsilon_n self k e = e)
     /\ (forall n, (epsilon_min - Deprecated._epsilon_decrease self
                    <= Deprecated.train_epsilon_n self n epsilon_max)%R))
  /\ (let d := Binary64.epsilon_decrease 1 0.1 1000000 in
      Binary64.train_epsilon_n 0.1 d 1000000 1 = 0.10000000000958534%float
      /\ PrimFloat.ltb 0.1 0.10000000000958534 = true
      /\ PrimFloat.ltb 0.09999910000958534 0.1 = true
      /\ forall k, Binary64.train_epsilon_n 0.1 d (1000001 + k) 1
                   = 0.09999910000958534%float).
Proof.
  intros Hsteps Hle. split.
  - exists {| Deprecated._epsilon_min := epsilon_min;
              Deprecated._epsilon_decrease :=
                ((epsilon_max - epsilon_min) / epsilon_decrease_steps)%R |}.
    assert (Hdec : (0 <= (epsilon_max - epsilon_min) / epsilon_decrease_steps)%R).
    { apply Rmult_le_pos; [lra | left; now apply Rinv_0_lt_compat]. }
    split.
    { unfold Deprecated.__init__. rewrite truediv_ok by lra. reflexivity. }
    split; [reflexivity | ].
    split; [reflexivity | ].
    split.
    { intros e He. unfold Deprecated.train_epsilon. simpl.
      destruct (Rlt_dec epsilon_min e); [reflexivity | contradiction]. }
    split.
    { intros e He k. now apply train_epsilon_fixed. }
    intros n.
    apply (train_epsilon_floor
             {| Deprecated._epsilon_min := epsilon_min;
                Deprecated._epsilon_decrease :=
                  ((epsilon_max - epsilon_min) / epsilon_decrease_steps)%R |});
      simpl; lra.
  - intros d.
    assert (E : Binary64.train_epsilon_n 0.1 d 1000000 1 = 0.10000000000958534%float)
      by (vm_compute; reflexivity).
    assert (E1 : Binary64.train_epsilon 0.1 d 0.10000000000958534
                 = 0.09999910000958534%float) by (vm_compute; reflexivity).
    assert (E2 : Binary64.train_epsilon 0.1 d 0.09999910000958534
                 = 0.09999910000958534%float) by (vm_compute; reflexivity).
    split; [exact E | ].
    split; [vm_compute; reflexivity | ].
    split; [vm_compute; reflexivity | ].
    intros k.
    replace (1000001 + k)%N with (k + N.succ 1000000)%N by lia.
    rewrite binary64_run_add, binary64_run_succ, E, E1.
    apply binary64_run_fixed. exact E2.
Qed.

Lemma deprecated_epsilon_witness :
  exists self,
    Deprecated.__init__ 1 0.1 1000000 = Ret (self, 1%R)
    /\ (0.1 - Deprecated._epsilon_decrease self
        <= Deprecated.train_epsilon_n self 3 1)%R.
Proof.
  destruct (deprecated_epsilon 1 0.1 1000000 ltac:(lra) ltac:(lra))
    as [[self [Hinit [_ [_ [_ [_ Hfloor]]]]]] _].
  exists self. split; [exact Hinit | apply Hfloor].
Defined.

(* ================================================================== *)
(** * Results: the warm-up gate of the batch builders *)
(* ================================================================== *)

(** What the gate of line 257 does give: when it lets a builder through,
    the shard holds at least the warm-up size divided by the number of
    builders. *)
Lemma warming_up_false {Obs : Type} (self : FastDQNAgent)
  (m : Memory.ReplayMemory (Transition Obs)) :
  (0 < _num_threads self)%Z -> warming_up self m = Ret false ->
  (_init_memory_size self <= Z.of_nat (Memory.count m) * _num_threads self)%Z.
Proof.
  intros Hn. unfold warming_up, qtruediv.
  destruct (Qeq_bool (inject_Z (_num_threads self)) 0) eqn:E.
  - apply Qeq_bool_eq in E. unfold Qeq in E. simpl in E. lia.
  - simpl. unfold qlt.
    destruct (Qlt_le_dec _ _) as [Hlt | Hle]; [discriminate | intros _].
    assert (Hpos : (0 < inject_Z (_num_threads self))%Q).
    { unfold Qlt. simpl. lia. }
    apply Qmult_le_compat_r with (z := inject_Z (_num_threads self)) in Hle;
      [ | now apply Qlt_le_weak].
    rewrite (Qmult_comm (_ / _)) in Hle.
    rewrite Qmult_div_r in Hle by (apply Qeq_bool_neq; exact E).
    rewrite <- inject_Z_mult in Hle.
    now rewrite Zle_Qle.
Qed.

(** C2 fails on the code.  With [batch_size=32] and [init_memory_size=16],
    [__init__] raises the warm-up size to 32 (line 118), but each of the 8
    builders compares its own shard against [32 / 8 = 4.0] (line 257): the
    builder is still warming up after three iterations, and in the fourth
    its shard holds 4 transitions, the gate lets it through and
    [memory.sample(32)] is called on 4 transitions, which the shard
    refuses.  What the gate does give is the warm-up size divided by the
    number of builders. *)
Theorem warmup_gate_per_shard :
  let queue := map transition_at (seq 0 8) in
  (forall self (m : Memory.ReplayMemory (Transition nat)),
     (0 < _num_threads self)%Z -> warming_up self m = Ret false ->
     (_init_memory_size self <= Z.of_nat (Memory.count m) * _num_threads self)%Z)
  /\ exists self st b,
    __init__ (toy_args 1 false 32 16 None) [] = Ret (self, st)
    /\ _batch_size self = 32%Z
    /\ _init_memory_size self = 32%Z
    /\ _num_threads self = 8%Z
    /\ _prepare_batch self 3 queue (fun i => i) = Ret (b, [])
    /\ Memory.count (memory b) = 3%nat
    /\ warming_up self (memory b) = Ret true
    /\ Memory.count (Memory.push (memory b) (transition_at 3)) = 4%nat
    /\ warming_up self (Memory.push (memory b) (transition_at 3)) = Ret false
    /\ _prepare_batch self 4 queue (fun i => i) = Raise AssertionError.
Proof.
  intros queue.
  split; [intros self m; apply warming_up_false | ].
  eexists. eexists. eexists.
  split; [reflexivity | ].
  split; [reflexivity | ].
  split; [reflexivity | ].
  split; [reflexivity | ].
  split; [vm_compute; reflexivity | ].
  repeat split; vm_compute; reflexivity.
Qed.

(* ================================================================== *)
(** * Results: the learner's loop *)
(* ================================================================== *)

Lemma mod_ok (a b : Z) : b <> 0%Z -> mod_ a b = Ret (a mod b)%Z.
Proof.
  intros Hb. unfold mod_. destruct (Z.eqb_spec b 0); [contradiction | reflexivity].
Qed.

Lemma schedule_returns (self : FastDQNAgent) (n : Z) :
  well_configured self -> (0 <= n)%Z -> exists eps, _get_current_eps self n = Ret eps.
Proof.
  intros [[He | Hl] [Hd _]] Hn; eexists.
  - now apply exponential_value.
  - now apply linear_value.
Qed.

Section LearnerResults.

Context {Obs Params OptState : Type}.
Variable forward : bool -> Params -> Obs -> list R.
Variable optimizer_step :
  FastDQNAgent -> Params -> OptState -> Batch Obs -> list R -> Params * OptState.

Implicit Types (self : FastDQNAgent) (st : AgentState Params OptState) (l : Locals)
  (batch : Batch Obs).

(** Lines 168-169 return; they leave everything but the target network as
    it is, and the target network too unless a synchronisation is due. *)
Lemma learn_sync_spec self st l :
  well_configured self -> has_target self st ->
  exists st1,
    learn_sync self st l = Ret st1
    /\ _current_eps st1 = _current_eps st
    /\ _q_network st1 = _q_network st
    /\ _optimizer st1 = _optimizer st
    /\ files st1 = files st
    /\ has_target self st1
    /\ (_double_dqn self = true ->
        (steps l mod _target_update_freq self = 0)%Z ->
        option_map (@state_dict Params) (_target_q_network st1)
        = Some (state_dict (_q_network st)))
    /\ (~ (_double_dqn self = true /\ (steps l mod _target_update_freq self = 0)%Z) ->
        st1 = st).
Proof.
  intros [_ [_ [_ [Hfreq _]]]] Ht. unfold learn_sync, has_target in *.
  destruct (_double_dqn self) eqn:Hd.
  - rewrite mod_ok by auto. simpl.
    destruct (Z.eqb_spec (steps l mod _target_update_freq self) 0) as [Hm | Hm].
    + unfold _update_target_network.
      destruct (_target_q_network st) as [t | ] eqn:Htgt; [ | now elim Ht].
      eexists. split; [reflexivity | ]. simpl.
      repeat split; try reflexivity; try discriminate.
      intros N. elim N. now split.
    + exists st. repeat split; auto. intros _ E. contradiction.
  - exists st. simpl. repeat split; auto; discriminate.
Qed.

(** Line 170 returns and writes the schedule's value for the current count,
    and nothing else. *)
Lemma learn_publish_spec self st l :
  well_configured self -> (0 <= steps l)%Z ->
  exists eps,
    _get_current_eps self (steps l) = Ret eps
    /\ learn_publish self st l = Ret (set_current_eps st eps).
Proof.
  intros Hw Hs. destruct (schedule_returns self (steps l) Hw Hs) as [eps He].
  exists eps. split; [exact He | ]. unfold learn_publish. now rewrite He.
Qed.

(** [_optimize] returns; it writes the live network and the optimizer
    state only. *)
Lemma _optimize_spec self st batch :
  well_configured self -> has_target self st ->
  exists st' v,
    _optimize forward optimizer_step self st batch = Ret (st', v)
    /\ _current_eps st' = _current_eps st
    /\ _target_q_network st' = _target_q_network st
    /\ files st' = files st.
Proof.
  intros [_ [_ [Hloss _]]] Ht. unfold _optimize, target_q.
  set (net := if _allow_eval_mode self then eval (_q_network st) else _q_network st).
  destruct (futures_returns forward self net (_target_q_network st) batch) as [fs [Hfs _]].
  { unfold has_target in Ht. destruct (_double_dqn self); [right; auto | now left]. }
  rewrite Hfs. simpl.
  match goal with
  | |- context [loss self ?q ?t] =>
      assert (Hl : exists v, loss self q t = Ret v)
  end.
  { unfold loss. destruct Hloss as [-> | ->]; simpl; eexists; reflexivity. }
  destruct Hl as [v Hv]. rewrite Hv. simpl.
  destruct (optimizer_step _ _ _ _ _) as [p o].
  eexists. eexists. split; [reflexivity | ]. simpl. repeat split; reflexivity.
Qed.

(** Whatever [_optimize] returns, the shared epsilon, the target network
    and the files are as before. *)
Lemma _optimize_frame self st batch st' v :
  _optimize forward optimizer_step self st batch = Ret (st', v) ->
  _current_eps st' = _current_eps st
  /\ _target_q_network st' = _target_q_network st
  /\ files st' = files st.
Proof.
  unfold _optimize.
  destruct (target_q _ _ _ _ _) as [tq | e]; simpl; [ | discriminate].
  destruct (loss _ _ _) as [w | e]; simpl; [ | discriminate].
  destruct (optimizer_step _ _ _ _ _) as [p o].
  intros H. inversion H; subst. simpl. repeat split; reflexivity.
Qed.

(** Lines 172-181 return: the counter advances by one, and the live
    parameters are saved under [agent.model-<steps>] when the new count is
    a multiple of [save_model_freq] and a directory is set. *)
Lemma learn_bookkeeping_spec self st l (v : R) :
  well_configured self ->
  exists st' l',
    learn_bookkeeping self st l v = Ret (st', l')
    /\ steps l' = (steps l + 1)%Z
    /\ _current_eps st' = _current_eps st
    /\ _q_network st' = _q_network st
    /\ _target_q_network st' = _target_q_network st
    /\ (forall d, _save_model_dir self = Some d -> d <> EmptyString ->
        ((steps l + 1) mod _save_model_freq self = 0)%Z ->
        files st' = (path_join d ("agent.model-" ++ format_d (steps l + 1)),
                     state_dict (_q_network st)) :: files st)
    /\ (truthy (_save_model_dir self) = false
        \/ ((steps l + 1) mod _save_model_freq self <> 0)%Z ->
        files st' = files st).
Proof.
  intros [_ [_ [_ [_ [Hsave Hprint]]]]]. unfold learn_bookkeeping.
  rewrite (mod_ok _ _ Hprint).
  destruct (_save_model_dir self) as [d | ] eqn:Hdir.
  - destruct (truthy (Some d)) eqn:Htr.
    + rewrite mod_ok by auto. simpl.
      destruct (Z.eqb_spec ((steps l + 1) mod _save_model_freq self) 0) as [Hm | Hm].
      * eexists. eexists. split; [reflexivity | ]. simpl.
        repeat split; try reflexivity.
        -- intros d' Hd' _ _. inversion Hd'; subst. reflexivity.
        -- intros [N | N]; [discriminate | contradiction].
      * eexists. eexists. split; [reflexivity | ]. simpl.
        repeat split; try reflexivity.
        intros d' _ _ N. contradiction.
    + simpl. eexists. eexists. split; [reflexivity | ]. simpl.
      repeat split; try reflexivity.
      intros d' Hd' Hne _. inversion Hd'; subst. simpl in Htr.
      destruct (String.eqb_spec d' EmptyString); [contradiction | discriminate].
  - simpl. eexists. eexists. split; [reflexivity | ]. simpl.
    repeat split; try reflexivity.
    intros d' Hd'. discriminate.
Qed.

Lemma learn_bookkeeping_frame self st l (v : R) st' l' :
  learn_bookkeeping self st l v = Ret (st', l') ->
  _current_eps st' = _current_eps st
  /\ _target_q_network st' = _target_q_network st
  /\ steps l' = (steps l + 1)%Z.
Proof.
  unfold learn_bookkeeping.
  destruct (match _save_model_dir self with Some _ => _ | None => _ end) as [save | e];
    simpl; [ | discriminate].
  destruct (mod_ _ _) as [pr | e]; simpl; [ | discriminate].
  intros H. inversion H; subst. destruct save; simpl; repeat split; reflexivity.
Qed.

(** One iteration of [learn]'s loop returns: the counter advances by one,
    the shared epsilon is the schedule's value at the old count, and a
    checkpoint is written exactly when the new count is due. *)
Lemma learn_iter_spec self st l batch :
  well_configured self -> has_target self st -> (0 <= steps l)%Z ->
  exists st' l',
    learn_iter forward optimizer_step self st l batch = Ret (st', l')
    /\ steps l' = (steps l + 1)%Z
    /\ _get_current_eps self (steps l) = Ret (_current_eps st')
    /\ has_target self st'
    /\ (forall d, _save_model_dir self = Some d -> d <> EmptyString ->
        ((steps l + 1) mod _save_model_freq self = 0)%Z ->
        files st' = (path_join d ("agent.model-" ++ format_d (steps l + 1)),
                     state_dict (_q_network st')) :: files st)
    /\ (truthy (_save_model_dir self) = false
        \/ ((steps l + 1) mod _save_model_freq self <> 0)%Z ->
        files st' = files st).
Proof.
  intros Hw Ht Hs. unfold learn_iter.
  destruct (learn_sync_spec self st l Hw Ht)
    as [st1 [E1 [Heps1 [Hq1 [_ [Hf1 [Ht1 _]]]]]]].
  rewrite E1. simpl.
  destruct (learn_publish_spec self st1 l Hw Hs) as [eps [Heps E2]].
  rewrite E2. simpl.
  assert (Ht2 : has_target self (set_current_eps st1 eps)) by exact Ht1.
  destruct (_optimize_spec self (set_current_eps st1 eps) batch Hw Ht2)
    as [st3 [v [E3 [Heps3 [Htgt3 Hf3]]]]].
  rewrite E3. simpl.
  destruct (learn_bookkeeping_spec self st3 l v Hw)
    as [st4 [l4 [E4 [Hsteps [Heps4 [Hq4 [Htgt4 [Hsave Hnosave]]]]]]]].
  exists st4, l4. split; [exact E4 | ].
  split; [exact Hsteps | ].
  split; [rewrite Heps4, Heps3; exact Heps | ].
  split.
  { unfold has_target in *. rewrite Htgt4, Htgt3. exact Ht1. }
  split.
  { intros d Hd Hne Hm. rewrite (Hsave d Hd Hne Hm), Hq4, Hf3. simpl. now rewrite Hf1. }
  intros Hno. rewrite (Hnosave Hno), Hf3. simpl. exact Hf1.
Qed.

(** The loop of [learn] returns on any list of batches, and the counter
    has advanced by their number. *)
Lemma learn_loop_spec self (batches : list (Batch Obs)) :
  well_configured self ->
  forall st l, has_target self st -> (0 <= steps l)%Z ->
  exists st' l',
    learn_loop forward optimizer_step self st l batches = Ret (st', l')
    /\ steps l' = (steps l + Z.of_nat (List.length batches))%Z
    /\ has_target self st'.
Proof.
  intros Hw. induction batches as [ | b bs IH]; intros st l Ht Hs.
  - exists st, l. simpl. repeat split; [lia | exact Ht].
  - destruct (learn_iter_spec self st l b Hw Ht Hs) as [st1 [l1 [E1 [Hs1 [_ [Ht1 _]]]]]].
    destruct (IH st1 l1 Ht1 ltac:(lia)) as [st2 [l2 [E2 [Hs2 Ht2]]]].
    exists st2, l2. simpl learn_loop. rewrite E1. simpl.
    split; [exact E2 | ]. split; [ | exact Ht2].
    rewrite Hs2, Hs1. simpl List.length. lia.
Qed.

End LearnerResults.

(* ================================================================== *)
(** * Results: who writes the shared state *)
(* ================================================================== *)

Lemma schedule_at_zero (self : FastDQNAgent) :
  well_configured self -> _get_current_eps self 0 = Ret (_eps_start self).
Proof.
  intros [[He | Hl] [Hd _]].
  - rewrite exponential_value by (auto; lia). f_equal.
    replace (- 0 / _eps_decay self)%R with 0%R by (field; lra).
    rewrite exp_0. ring.
  - rewrite linear_value by auto. f_equal.
    rewrite Rmin_left by lra. field. lra.
Qed.

Section SystemResults.

Context {Obs Params OptState Env : Type}.
Variable forward : bool -> Params -> Obs -> list R.
Variable optimizer_step :
  FastDQNAgent -> Params -> OptState -> Batch Obs -> list R -> Params * OptState.
Variable env_create_fn : Env.
Variable env_reset : Env -> Env * Obs.
Variable env_step : Env -> nat -> Env * Obs * R * bool.

Implicit Types (self : FastDQNAgent) (s : System Obs Params OptState Env) (e : Event).

(** Actor turns, builder iterations and the learner's optimisation leave
    the shared epsilon and the target network as they are. *)
Lemma step_frame self s e s' :
  step forward optimizer_step env_reset env_step self s e = Some (Ret s') ->
  e <> LearnerHead ->
  _current_eps (agent s') = _current_eps (agent s)
  /\ _target_q_network (agent s') = _target_q_network (agent s).
Proof.
  intros H Hne. destruct e as [pid u sampled | tid rnd | | ]; unfold step in H.
  - destruct (nth_error (actors s) pid) as [a | ]; [ | discriminate].
    destruct (actor_worker _ _ _ _ _ _ _ _ _ _) as [[a' queue] | ]; [ | discriminate].
    inversion H; subst. simpl. split; reflexivity.
  - destruct (nth_error (builders s) tid) as [[b | ] | ]; try discriminate.
    destruct (_prepare_batch_iter _ _ _ _) as [[[[b' queue] out] | ex] | ];
      try discriminate.
    + destruct out as [ts | ].
      * destruct (full _ _); [discriminate | ].
        inversion H; subst. simpl. split; reflexivity.
      * inversion H; subst. simpl. split; reflexivity.
    + inversion H; subst. simpl. split; reflexivity.
  - now elim Hne.
  - destruct (waiting s); [ | discriminate].
    destruct (batch_queue s) as [ | batch rest]; [discriminate | ].
    destruct (_optimize forward optimizer_step self (agent s) batch)
      as [[st3 v] | ex] eqn:E3; simpl in H; [ | discriminate].
    destruct (learn_bookkeeping self st3 (locals s) v) as [[st4 l4] | ex] eqn:E4;
      simpl in H; [ | discriminate].
    inversion H; subst. simpl.
    destruct (_optimize_frame _ _ _ _ _ _ _ E3) as [Heps3 [Htgt3 _]].
    destruct (learn_bookkeeping_frame _ _ _ _ _ _ E4) as [Heps4 [Htgt4 _]].
    split; congruence.
Qed.

(** The head of the learner's loop runs once per iteration, and what it
    writes into the shared epsilon is the schedule's value at the count. *)
Lemma step_head self s s' :
  step forward optimizer_step env_reset env_step self s LearnerHead = Some (Ret s') ->
  waiting s = false /\ waiting s' = true /\ locals s' = locals s
  /\ _get_current_eps self (steps (locals s)) = Ret (_current_eps (agent s')).
Proof.
  unfold step. destruct (waiting s); [discriminate | ].
  intros H. inversion H as [H1]. clear H.
  destruct (learn_sync self (agent s) (locals s)) as [st1 | ex]; simpl in H1;
    [ | discriminate].
  unfold learn_publish in H1.
  destruct (_get_current_eps self (steps (locals s))) as [eps | ex]; simpl in H1;
    [ | discriminate].
  inversion H1; subst. simpl. repeat split; reflexivity.
Qed.

(** The optimisation that follows needs the head to have run, and hands
    the turn back to it with the counter advanced. *)
Lemma step_optimize self s s' :
  step forward optimizer_step env_reset env_step self s LearnerOptimize = Some (Ret s') ->
  waiting s = true /\ waiting s' = false
  /\ steps (locals s') = (steps (locals s) + 1)%Z.
Proof.
  unfold step. destruct (waiting s); [ | discriminate].
  destruct (batch_queue s) as [ | batch rest]; [discriminate | ].
  intros H. inversion H as [H1]. clear H.
  destruct (_optimize _ _ _ _ _) as [[st3 v] | ex]; simpl in H1; [ | discriminate].
  destruct (learn_bookkeeping _ _ _ _) as [[st4 l4] | ex] eqn:E4; simpl in H1;
    [ | discriminate].
  inversion H1; subst. simpl.
  destruct (learn_bookkeeping_frame _ _ _ _ _ _ E4) as [_ [_ Hs]].
  split; [reflexivity | ]. split; [reflexivity | exact Hs].
Qed.

(** From the start of [learn] the head of the loop can run at once, and
    it publishes the schedule's value at step 0. *)
Lemma first_publish self (st : AgentState Params OptState) (n : nat) :
  well_configured self -> has_target self st ->
  exists s1,
    step forward optimizer_step env_reset env_step self
      (learn_start env_create_fn self st n) LearnerHead = Some (Ret s1)
    /\ _current_eps (agent s1) = _eps_start self.
Proof.
  intros Hw Ht. unfold step, learn_start. simpl.
  destruct (learn_sync_spec self st {| steps := 0; loss_sum := 0 |} Hw Ht)
    as [st1 [E1 _]].
  rewrite E1. simpl. unfold learn_publish. simpl.
  rewrite (schedule_at_zero self Hw). simpl.
  eexists. split; reflexivity.
Qed.

(** Actor turns and builder iterations touch nothing of the learner. *)
Lemma step_worker self s e s' :
  step forward optimizer_step env_reset env_step self s e = Some (Ret s') ->
  e <> LearnerHead -> e <> LearnerOptimize ->
  agent s' = agent s /\ locals s' = locals s /\ waiting s' = waiting s.
Proof.
  intros H Hh Ho. destruct e as [pid u sampled | tid rnd | | ]; unfold step in H.
  - destruct (nth_error (actors s) pid) as [a | ]; [ | discriminate].
    destruct (actor_worker _ _ _ _ _ _ _ _ _ _) as [[a' queue] | ]; [ | discriminate].
    inversion H; subst. simpl. repeat split; reflexivity.
  - destruct (nth_error (builders s) tid) as [[b | ] | ]; try discriminate.
    destruct (_prepare_batch_iter _ _ _ _) as [[[[b' queue] out] | ex] | ];
      try discriminate.
    + destruct out as [ts | ].
      * destruct (full _ _); [discriminate | ].
        inversion H; subst. simpl. repeat split; reflexivity.
      * inversion H; subst. simpl. repeat split; reflexivity.
    + inversion H; subst. simpl. repeat split; reflexivity.
  - now elim Hh.
  - now elim Ho.
Qed.

Lemma step_published self (eps0 : R) s e s' :
  step forward optimizer_step env_reset env_step self s e = Some (Ret s') ->
  published self eps0 s -> published self eps0 s'.
Proof.
  intros H Hp.
  destruct e as [pid u sampled | tid rnd | | ] eqn:He.
  - destruct (step_worker self s _ s' H ltac:(discriminate) ltac:(discriminate))
      as [Ha [Hl Hw]].
    unfold published in *. now rewrite Ha, Hl, Hw.
  - destruct (step_worker self s _ s' H ltac:(discriminate) ltac:(discriminate))
      as [Ha [Hl Hw]].
    unfold published in *. now rewrite Ha, Hl, Hw.
  - destruct (step_head self s s' H) as [Hw [Hw' [Hl Heps]]].
    unfold published in *. rewrite Hw in Hp. rewrite Hw', Hl.
    split; [ | exact Heps]. destruct Hp as [[H0 _] | [Hpos _]]; lia.
  - destruct (step_optimize self s s' H) as [Hw [Hw' Hs]].
    destruct (step_frame self s _ s' H ltac:(discriminate)) as [Heps _].
    unfold published in *. rewrite Hw in Hp. rewrite Hw', Hs, Heps.
    destruct Hp as [Hnn Hp]. right. split; [lia | ].
    now replace (steps (locals s) + 1 - 1)%Z with (steps (locals s)) by lia.
Qed.

Lemma run_published self (eps0 : R) (events : list Event) :
  forall s s',
  run forward optimizer_step env_reset env_step self s events = Some (Ret s') ->
  published self eps0 s -> published self eps0 s'.
Proof.
  induction events as [ | e events IH]; intros s s' H Hp.
  - simpl in H. inversion H; subst. exact Hp.
  - simpl in H.
    destruct (step forward optimizer_step env_reset env_step self s e)
      as [[s1 | ex] | ] eqn:E; try discriminate.
    apply (IH s1 s' H). exact (step_published self eps0 s e s1 E Hp).
Qed.

(** [__init__] creates the shared epsilon holding the constant 1.0. *)
Lemma init_epsilon (a : Args Params OptState) (fs : list (string * Params))
  self (st : AgentState Params OptState) :
  __init__ a fs = Ret (self, st) -> _current_eps st = 1%R.
Proof.
  unfold __init__. intros H.
  match type of H with
  | context [Py.bind ?c _] => destruct c as [[net idx] | ex]
  end; simpl in H; [ | discriminate].
  destruct (double_dqn a); simpl in H; inversion H; reflexivity.
Qed.



(** C6, as the code has it.  [__init__] creates the shared epsilon holding
    1.0, whatever [eps_start] is, and starting the actors and builders
    does not write it.  For a learner whose arithmetic is defined (a
    supported schedule with a positive [eps_decay], a supported loss,
    non-zero periods, and a target network when double-DQN reads it), the
    head of the loop can run at once and then publishes [compute(0)];
    every later run of the head publishes [compute(steps)], and head and
    optimisation alternate, so there is one publication per optimisation
    step.  No other event writes the shared epsilon: actor turns only read
    it.  So at any point of any run the scalar holds its initial value or
    the schedule's value at a count the learner has reached.  Over the
    reals [compute(0)] is
    [eps_start]; evaluated in binary64 it is the float [eps_start] for the
    linear schedule with [eps_start=0.5, eps_end=0.1, eps_decay=100], and
    0.30000000000000004 for the exponential schedule with [eps_start=0.3,
    eps_end=0.03]. *)
Theorem epsilon_single_writer self (st : AgentState Params OptState) (n : nat) :
  well_configured self -> has_target self st ->
  (forall (a : Args Params OptState) fs self0 st0,
     __init__ a fs = Ret (self0, st0) -> _current_eps st0 = 1%R)
  /\ _current_eps (agent (learn_start (Obs := Obs) env_create_fn self st n))
     = _current_eps st
  /\ (exists s1,
        step forward optimizer_step env_reset env_step self
          (learn_start env_create_fn self st n) LearnerHead = Some (Ret s1)
        /\ _current_eps (agent s1) = _eps_start self)
  /\ (forall s s',
        step forward optimizer_step env_reset env_step self s LearnerHead
        = Some (Ret s') ->
        waiting s = false /\ waiting s' = true
        /\ _get_current_eps self (steps (locals s)) = Ret (_current_eps (agent s')))
  /\ (forall s s',
        step forward optimizer_step env_reset env_step self s LearnerOptimize
        = Some (Ret s') ->
        waiting s = true /\ waiting s' = false
        /\ steps (locals s') = (steps (locals s) + 1)%Z)
  /\ (forall s e s',
        step forward optimizer_step env_reset env_step self s e = Some (Ret s') ->
        e <> LearnerHead ->
        _current_eps (agent s') = _current_eps (agent s))
  /\ (forall events s',
        run forward optimizer_step env_reset env_step self
          (learn_start env_create_fn self st n) events = Some (Ret s') ->
        _current_eps (agent s') = _current_eps st
        \/ exists k, (0 <= k <= steps (locals s'))%Z
                     /\ _get_current_eps self k = Ret (_current_eps (agent s')))
  /\ Binary64._get_current_eps_linear 0.5 0.1 100 0 = Ret 0.5%float
  /\ Binary64._get_current_eps_exponential 0.3 0.03 100 0
     = Ret (Some 0x1.3333333333334p-2%float)
  /\ PrimFloat.eqb 0x1.3333333333334p-2 0.3 = false.
Proof.
  intros Hw Ht.
  split; [intros a fs self0 st0; apply init_epsilon | ].
  split; [reflexivity | ].
  split; [now apply first_publish | ].
  split.
  { intros s s' H. destruct (step_head self s s' H) as [H1 [H2 [_ H4]]].
    repeat split; assumption. }
  split; [intros s s' H; exact (step_optimize self s s' H) | ].
  split.
  { intros s e s' H Hne.
    now destruct (step_frame self s e s' H Hne) as [Heps _]. }
  split; [ | repeat split; reflexivity].
  intros events s' H.
  assert (Hp : published self (_current_eps st) s').
  { apply (run_published self (_current_eps st) events _ s' H).
    unfold published, learn_start. simpl. left. split; reflexivity. }
  unfold published in Hp.
  destruct (waiting s').
  - destruct Hp as [Hs Hp]. right. exists (steps (locals s')). split; [lia | exact Hp].
  - destruct Hp as [[_ Hp] | [Hs Hp]]; [now left | ].
    right. exists (steps (locals s') - 1)%Z. split; [lia | exact Hp].
Qed.

End SystemResults.

Ltac configured :=
  unfold well_configured, has_target; simpl;
  repeat match goal with |- _ /\ _ => split end;
  first [lra | now left | now right | intros; discriminate].


Lemma epsilon_single_writer_witness :
  exists s1,
    step toy_forward toy_optimizer_step toy_env_reset toy_env_step
      (agent_of "linear" 0.5 0.1 100 0.9 true 32 100)
      (learn_start O (agent_of "linear" 0.5 0.1 100 0.9 true 32 100) toy_state 2)
      LearnerHead = Some (Ret s1)
    /\ _current_eps (agent s1) = 0.5%R.
Proof.
  destruct (epsilon_single_writer toy_forward toy_optimizer_step O
              toy_env_reset toy_env_step
              (agent_of "linear" 0.5 0.1 100 0.9 true 32 100) toy_state 2
              ltac:(configured) ltac:(configured))
    as [_ [_ [H _]]].
  exact H.
Defined.

(** C6 as stated fails on the code: line 124 creates the shared epsilon
    with the constant 1.0, so with [eps_start=0.5] the scalar holds 1.0,
    not [eps_start], until the learner's first publication. *)
Lemma epsilon_created_at_one :
  exists self st,
    __init__ (toy_args 0.5 false 32 16 None) [] = Ret (self, st)
    /\ _eps_start self = 0.5%R
    /\ _current_eps st = 1%R
    /\ _current_eps st <> _eps_start self.
Proof.
  eexists. eexists.
  split; [reflexivity | ].
  split; [reflexivity | ].
  split; [reflexivity | ].
  simpl. lra.
Qed.

(* ================================================================== *)
(** * Results: checkpoints and the resumed count *)
(* ================================================================== *)

(** C9 fails on the code.  Started from the checkpoint
    [ckpt/agent.model-50000], [__init__] loads the parameters and parses
    50000 into [_episode_idx] (lines 129-132), but [learn] never reads
    that attribute: its counter starts at 0 (line 165), so after any
    number of batches the count is that number, and with
    [save_model_freq=2] the first checkpoint written after the resume is
    [ckpt/agent.model-2], not [ckpt/agent.model-50002]. *)
Theorem resumed_count_ignored (b1 b2 : Batch nat) (batches : list (Batch nat)) :
  let path := "ckpt/agent.model-50000"%string in
  exists self st,
    __init__ (toy_args 1 false 32 16 (Some path)) [(path, 41%Z)] = Ret (self, st)
    /\ state_dict (_q_network st) = 41%Z
    /\ _episode_idx self = 50000%Z
    /\ (exists st' l',
          learn toy_forward toy_optimizer_step self st batches = Ret (st', l')
          /\ steps l' = Z.of_nat (List.length batches))
    /\ (exists st' l',
          learn toy_forward toy_optimizer_step self st [b1; b2] = Ret (st', l')
          /\ steps l' = 2%Z
          /\ map fst (files st') = ["ckpt/agent.model-2"%string; path]).
Proof.
  intros path.
  eexists. eexists.
  split; [reflexivity | ].
  split; [reflexivity | ].
  split; [reflexivity | ].
  match goal with
  | |- (exists st' l', learn _ _ ?self0 ?st0 _ = _ /\ _) /\ _ =>
      set (self := self0); set (st := st0)
  end.
  assert (Hw : well_configured self) by configured.
  assert (Ht : has_target self st) by configured.
  split.
  - destruct (learn_loop_spec toy_forward toy_optimizer_step self batches Hw st
                {| steps := 0; loss_sum := 0 |} Ht ltac:(simpl; lia))
      as [st' [l' [E [Hs _]]]].
    exists st', l'. split; [exact E | exact Hs].
  - set (l0 := {| steps := 0; loss_sum := 0 |}).
    destruct (learn_iter_spec toy_forward toy_optimizer_step self st l0 b1 Hw Ht
                ltac:(simpl; lia))
      as [st1 [l1 [E1 [Hs1 [_ [Ht1 [_ Hno1]]]]]]].
    assert (Hl1 : steps l1 = 1%Z) by (rewrite Hs1; reflexivity).
    destruct (learn_iter_spec toy_forward toy_optimizer_step self st1 l1 b2 Hw Ht1
                ltac:(lia))
      as [st2 [l2 [E2 [Hs2 [_ [_ [Hsave2 _]]]]]]].
    exists st2, l2.
    split.
    { unfold learn. fold l0. simpl learn_loop. rewrite E1. simpl. rewrite E2. reflexivity. }
    split; [lia | ].
    rewrite (Hsave2 "ckpt"%string eq_refl ltac:(discriminate)
               ltac:(rewrite Hl1; reflexivity)).
    rewrite Hno1 by (right; discriminate).
    rewrite Hl1. reflexivity.
Qed.

(* ================================================================== *)
(** * Results: the name of a checkpoint and the count parsed from it *)
(* ================================================================== *)

Lemma append_assoc (a b c : string) : ((a ++ b) ++ c = a ++ (b ++ c))%string.
Proof. induction a as [ | x a IH]; simpl; [reflexivity | now rewrite IH]. Qed.

Lemma int_digits_acc (d : Decimal.uint) (p : positive) :
  int_digits (NilEmpty.string_of_uint d) (Z.pos p) = Some (Z.pos (Pos.of_uint_acc d p)).
Proof.
  revert p. induction d; intros p;
    cbn [NilEmpty.string_of_uint Pos.of_uint_acc int_digits]; try reflexivity;
    match goal with
    | |- context [digit_of_ascii ?c] =>
        let v := eval vm_compute in (digit_of_ascii c) in
        change (digit_of_ascii c) with v
    end;
    cbv iota beta;
    match goal with
    | |- int_digits _ ?z = Some (Z.pos (Pos.of_uint_acc _ ?q)) =>
        replace z with (Z.pos q) by lia; apply IHd
    end.
Qed.

Lemma int_digits_uint (d : Decimal.uint) :
  int_digits (NilEmpty.string_of_uint d) 0 = Some (Z.of_N (Pos.of_uint d)).
Proof.
  induction d; cbn [NilEmpty.string_of_uint Pos.of_uint int_digits]; try reflexivity;
    match goal with
    | |- context [digit_of_ascii ?c] =>
        let v := eval vm_compute in (digit_of_ascii c) in
        change (digit_of_ascii c) with v
    end;
    cbv iota beta; change (10 * 0 + 0)%Z with 0%Z; try exact IHd;
    match goal with
    | |- int_digits _ ?z = _ =>
        let v := eval vm_compute in z in change z with v
    end;
    apply int_digits_acc.
Qed.

Lemma rfind_uint (d : Decimal.uint) (i : Z) :
  rfind_from "-" (NilEmpty.string_of_uint d) i = (-1)%Z.
Proof.
  revert i. induction d; intros i; cbn [NilEmpty.string_of_uint rfind_from];
    try reflexivity; rewrite IHd; reflexivity.
Qed.

Lemma rfind_last (c : ascii) (pre rest : string) (i : Z) :
  (forall j, rfind_from c rest j = (-1)%Z) -> (0 <= i)%Z ->
  rfind_from c (pre ++ String c rest) i = (i + Z.of_nat (String.length pre))%Z.
Proof.
  intros Hrest. revert i. induction pre as [ | a pre IH]; intros i Hi.
  - simpl. rewrite Hrest. simpl. rewrite Ascii.eqb_refl. lia.
  - simpl append. cbn [rfind_from]. rewrite IH by lia.
    destruct (Z.leb_spec 0 (i + 1 + Z.of_nat (String.length pre))) as [_ | N]; [ | lia].
    simpl String.length. lia.
Qed.

Lemma string_length_app (a b : string) :
  String.length (a ++ b) = (String.length a + String.length b)%nat.
Proof. induction a as [ | x a IH]; simpl; [reflexivity | now rewrite IH]. Qed.

Lemma drop_app (pre rest : string) :
  drop (String.length pre) (pre ++ rest) = rest.
Proof. induction pre as [ | a pre IH]; simpl; [now destruct rest | exact IH]. Qed.

Lemma format_d_digits (n : Z) :
  (0 <= n)%Z ->
  int_of_str (format_d n) = Ret n
  /\ forall j, rfind_from "-" (format_d n) j = (-1)%Z.
Proof.
  intros Hn. unfold format_d.
  destruct n as [ | p | p]; [split; [reflexivity | intros j; reflexivity] | | lia].
  cbn [Z.to_int NilZero.string_of_int].
  pose proof (Unsigned.of_to p) as Hp.
  destruct (Pos.to_uint p) as [ | d | d | d | d | d | d | d | d | d | d] eqn:E;
    [discriminate Hp | .. ];
    (split; [ | intros j; apply (rfind_uint _ j)]);
    unfold NilZero.string_of_uint, int_of_str;
    match goal with
    | |- match NilEmpty.string_of_uint ?u with _ => _ end = _ =>
        rewrite (int_digits_uint u), Hp;
        cbn [NilEmpty.string_of_uint]; reflexivity
    end.
Qed.

(** The path [learn] writes for the count [n] ends in a dash and the decimal
    digits of [n], and that dash is the last one of the path. *)
Lemma checkpoint_path_parts (d : string) (n : Z) :
  (0 <= n)%Z ->
  let path := path_join d ("agent.model-" ++ format_d n) in
  rfind path "-" = (Z.of_nat (String.length path) - Z.of_nat (String.length (format_d n)) - 1)%Z
  /\ slice_from path (rfind path "-" + 1) = format_d n
  /\ int_of_str (slice_from path (rfind path "-" + 1)) = Ret n.
Proof.
  intros Hn path.
  destruct (format_d_digits n Hn) as [Hparse Hnodash].
  assert (Hshape : exists pre, path = (pre ++ String "-" (format_d n))%string).
  { unfold path, path_join.
    destruct (String.eqb d EmptyString || ends_with_slash d).
    - exists (d ++ "agent.model")%string. now rewrite append_assoc.
    - exists (d ++ "/agent.model")%string. now rewrite append_assoc. }
  destruct Hshape as [pre Hpath].
  assert (Hr : rfind path "-" = Z.of_nat (String.length pre)).
  { unfold rfind. rewrite Hpath. rewrite rfind_last by (auto; lia). lia. }
  assert (Hs : slice_from path (rfind path "-" + 1) = format_d n).
  { rewrite Hr. unfold slice_from.
    replace (Z.to_nat (Z.of_nat (String.length pre) + 1)) with (S (String.length pre)) by lia.
    rewrite Hpath.
    change (pre ++ String "-" (format_d n))%string
      with (pre ++ (String "-" EmptyString ++ format_d n))%string.
    rewrite <- append_assoc.
    replace (S (String.length pre)) with (String.length (pre ++ "-")%string)
      by (rewrite string_length_app; simpl; lia).
    apply drop_app. }
  split.
  { rewrite Hr, Hpath, string_length_app. simpl String.length. lia. }
  split; [exact Hs | ].
  rewrite Hs. exact Hparse.
Qed.

(** X1.  The name of a checkpoint and its parse are inverse to each other.  For
    every directory [d] (it may contain dashes, be empty or end in a slash)
    and every count [n >= 0], in the path
    [os.path.join(d, 'agent.model-%d' % n)] that [learn] writes (lines
    173-175) the last dash is the one before the digits, the slice
    [path[path.rfind('-')+1:]] of [__init__] (line 132) is ['%d' % n], and
    [int] of it is [n]. *)
Theorem checkpoint_name_round_trip (d : string) (n : Z) :
  (0 <= n)%Z ->
  let path := path_join d ("agent.model-" ++ format_d n) in
  rfind path "-" = (Z.of_nat (String.length path) - Z.of_nat (String.length (format_d n)) - 1)%Z
  /\ slice_from path (rfind path "-" + 1) = format_d n
  /\ int_of_str (slice_from path (rfind path "-" + 1)) = Ret n.
Proof.
  intros Hn. exact (checkpoint_path_parts d n Hn).
Qed.

Lemma checkpoint_name_round_trip_witness :
  let path := path_join "runs/dqn-v2" ("agent.model-" ++ format_d 150000) in
  rfind path "-" = 23%Z
  /\ slice_from path (rfind path "-" + 1) = "150000"%string
  /\ int_of_str (slice_from path (rfind path "-" + 1)) = Ret 150000%Z.
Proof.
  exact (checkpoint_name_round_trip "runs/dqn-v2" 150000 ltac:(lia)).
Defined.

Lemma path_join_truthy (d name : string) :
  name <> EmptyString -> truthy (Some (path_join d name)) = true.
Proof.
  intros Hn. unfold truthy, path_join.
  destruct (String.eqb d EmptyString || ends_with_slash d).
  - destruct d; simpl; [ | reflexivity]. destruct name; [now elim Hn | reflexivity].
  - destruct d; reflexivity.
Qed.


(* ================================================================== *)
(** * Results: a checkpoint written by [learn] resumes an agent *)
(* ================================================================== *)

Section ResumeResults.

Context {Obs Params OptState : Type}.
Variable forward : bool -> Params -> Obs -> list R.
Variable optimizer_step :
  FastDQNAgent -> Params -> OptState -> Batch Obs -> list R -> Params * OptState.

(** X2.  On a machine with at most one CUDA device, a checkpoint that
    [learn] writes can be given back to [__init__].  When an iteration of
    [learn] brings the count to a multiple of [save_model_freq] and a
    directory is set, an agent constructed with [init_model_path] set to
    the path of that iteration finds the file, starts from the parameters
    the learner had after that iteration, and parses the learner's count
    into [_episode_idx].  (With more than one device [_save_model] saves
    the state of the network wrapped by lines 133-134, whose entries are
    named differently from those of the bare network that line 130 loads
    into: not covered.) *)
Theorem resume_from_written_checkpoint (self : FastDQNAgent)
  (st : AgentState Params OptState) (l : Locals) (batch : Batch Obs) (d : string)
  (a : Args Params OptState) :
  well_configured self -> has_target self st -> (0 <= steps l)%Z ->
  _save_model_dir self = Some d -> d <> EmptyString ->
  ((steps l + 1) mod _save_model_freq self = 0)%Z ->
  init_model_path a = Some (path_join d ("agent.model-" ++ format_d (steps l + 1))) ->
  exists st' l' self2 st2,
    learn_iter forward optimizer_step self st l batch = Ret (st', l')
    /\ __init__ a (files st') = Ret (self2, st2)
    /\ state_dict (_q_network st2) = state_dict (_q_network st')
    /\ _episode_idx self2 = steps l'.
Proof.
  intros Hw Ht Hs Hd Hne Hm Ha.
  destruct (learn_iter_spec forward optimizer_step self st l batch Hw Ht Hs)
    as [st' [l' [E [Hl' [_ [_ [Hsave _]]]]]]].
  specialize (Hsave d Hd Hne Hm).
  set (path := path_join d ("agent.model-" ++ format_d (steps l + 1))) in *.
  destruct (checkpoint_path_parts d (steps l + 1) ltac:(lia)) as [_ [_ Hparse]].
  fold path in Hparse.
  exists st', l'.
  unfold __init__. rewrite Ha.
  assert (Htr : truthy (Some path) = true)
    by (apply path_join_truthy; cbn [append]; discriminate).
  rewrite Htr.
  unfold _load_model. rewrite Hsave. cbn [lookup]. rewrite String.eqb_refl.
  cbn [Py.bind]. rewrite Hparse. cbn [Py.bind].
  destruct (double_dqn a) eqn:Hdd.
  - unfold _update_target_network. cbn.
    eexists. eexists. split; [exact E | ]. split; [reflexivity | ].
    cbn. split; [reflexivity | lia].
  - cbn. eexists. eexists. split; [exact E | ]. split; [reflexivity | ].
    cbn. split; [reflexivity | lia].
Qed.

End ResumeResults.

Lemma resume_from_written_checkpoint_witness :
  exists st' l' self2 st2,
    learn_iter toy_forward toy_optimizer_step (agent_of "linear" 1 0.1 100 0.9 true 32 100)
      toy_state {| steps := 1; loss_sum := 0 |} (_transitions_to_batch [transition_at 0])
    = Ret (st', l')
    /\ __init__ (toy_args 1 true 32 16 (Some "ckpt/agent.model-2"%string)) (files st')
       = Ret (self2, st2)
    /\ state_dict (_q_network st2) = state_dict (_q_network st')
    /\ _episode_idx self2 = steps l'.
Proof.
  apply (resume_from_written_checkpoint toy_forward toy_optimizer_step
           (agent_of "linear" 1 0.1 100 0.9 true 32 100) toy_state
           {| steps := 1; loss_sum := 0 |} (_transitions_to_batch [transition_at 0])
           "ckpt" (toy_args 1 true 32 16 (Some "ckpt/agent.model-2"%string))).
  - configured.
  - configured.
  - simpl. lia.
  - reflexivity.
  - discriminate.
  - reflexivity.
  - reflexivity.
Defined.



(* ================================================================== *)
(** * Results: how many checkpoints [learn] writes *)
(* ================================================================== *)

Lemma div_succ (k f : Z) :
  (0 < f)%Z ->
  ((k + 1) / f = k / f + (if ((k + 1) mod f =? 0) then 1 else 0))%Z.
Proof.
  intros Hf.
  pose proof (Z.div_mod k f ltac:(lia)) as Hk.
  pose proof (Z.mod_pos_bound k f Hf) as Hb.
  pose proof (Z.div_mod (k + 1) f ltac:(lia)) as Hk1.
  pose proof (Z.mod_pos_bound (k + 1) f Hf) as Hb1.
  destruct (Z.eqb_spec ((k + 1) mod f) 0) as [E | E]; nia.
Qed.

Section CadenceResults.

Context {Obs Params OptState : Type}.
Variable forward : bool -> Params -> Obs -> list R.
Variable optimizer_step :
  FastDQNAgent -> Params -> OptState -> Batch Obs -> list R -> Params * OptState.

(** The files of a stretch of [learn]'s loop: one per multiple of
    [save_model_freq] the count passes, named after that multiple. *)
Lemma learn_loop_files (self : FastDQNAgent) (d : string) (batches : list (Batch Obs)) :
  well_configured self -> _save_model_dir self = Some d -> d <> EmptyString ->
  (0 < _save_model_freq self)%Z ->
  forall (st : AgentState Params OptState) (l : Locals),
  has_target self st -> (0 <= steps l)%Z ->
  exists st' l' new,
    learn_loop forward optimizer_step self st l batches = Ret (st', l')
    /\ files st' = new ++ files st
    /\ Z.of_nat (List.length new)
       = ((steps l + Z.of_nat (List.length batches)) / _save_model_freq self
          - steps l / _save_model_freq self)%Z
    /\ (forall path, In path (map fst new) <->
        exists k, (steps l < k <= steps l + Z.of_nat (List.length batches))%Z
                  /\ (k mod _save_model_freq self = 0)%Z
                  /\ path = path_join d ("agent.model-" ++ format_d k)).
Proof.
  intros Hw Hd Hne Hf.
  induction batches as [ | b bs IH]; intros st l Ht Hs.
  - exists st, l, []. simpl. split; [reflexivity | ]. split; [reflexivity | ].
    split; [rewrite Z.add_0_r; lia | ].
    intros path. split; [intros [] | intros [k [Hk _]]; lia].
  - destruct (learn_iter_spec forward optimizer_step self st l b Hw Ht Hs)
      as [st1 [l1 [E1 [Hs1 [_ [Ht1 [Hsave Hno]]]]]]].
    destruct (IH st1 l1 Ht1 ltac:(lia)) as [st2 [l2 [new2 [E2 [Hfiles [Hlen Hin]]]]]].
    simpl learn_loop. rewrite E1. cbn [Py.bind].
    pose proof (div_succ (steps l) (_save_model_freq self) Hf) as Hdiv.
    replace (steps l + Z.of_nat (List.length (b :: bs)))%Z
      with (steps l1 + Z.of_nat (List.length bs))%Z
      by (rewrite Hs1; simpl List.length; lia).
    destruct (Z.eqb_spec ((steps l + 1) mod _save_model_freq self) 0) as [Hm | Hm].
    + specialize (Hsave d Hd Hne Hm).
      exists st2, l2,
        (new2 ++ [(path_join d ("agent.model-" ++ format_d (steps l + 1)),
                   state_dict (_q_network st1))]).
      split; [exact E2 | ].
      split; [rewrite Hfiles, Hsave, <- app_assoc; reflexivity | ].
      split; [rewrite List.length_app; simpl List.length; rewrite Hs1 in *; lia | ].
      intros path. rewrite map_app, in_app_iff, Hin. simpl. split.
      * intros [[k [Hk [Hkm Hp]]] | [Hp | []]].
        -- exists k. repeat split; try assumption; lia.
        -- exists (steps l + 1)%Z. repeat split; try lia; auto.
      * intros [k [Hk [Hkm Hp]]].
        destruct (Z.eq_dec k (steps l + 1)) as [-> | Hk1].
        -- right. left. now symmetry.
        -- left. exists k. repeat split; try assumption; lia.
    + exists st2, l2, new2.
      split; [exact E2 | ].
      split; [rewrite Hfiles, (Hno (or_intror Hm)); reflexivity | ].
      split; [rewrite Hs1 in *; lia | ].
      intros path. rewrite Hin. split.
      * intros [k [Hk [Hkm Hp]]]. exists k. repeat split; try assumption; lia.
      * intros [k [Hk [Hkm Hp]]].
        destruct (Z.eq_dec k (steps l + 1)) as [-> | Hk1]; [contradiction | ].
        exists k. repeat split; try assumption; lia.
Qed.

Lemma learn_loop_no_files (self : FastDQNAgent) (batches : list (Batch Obs)) :
  well_configured self -> truthy (_save_model_dir self) = false ->
  forall (st : AgentState Params OptState) (l : Locals),
  has_target self st -> (0 <= steps l)%Z ->
  exists st' l',
    learn_loop forward optimizer_step self st l batches = Ret (st', l')
    /\ files st' = files st.
Proof.
  intros Hw Hd.
  induction batches as [ | b bs IH]; intros st l Ht Hs.
  - exists st, l. split; reflexivity.
  - destruct (learn_iter_spec forward optimizer_step self st l b Hw Ht Hs)
      as [st1 [l1 [E1 [Hs1 [_ [Ht1 [_ Hno]]]]]]].
    destruct (IH st1 l1 Ht1 ltac:(lia)) as [st2 [l2 [E2 Hfiles]]].
    exists st2, l2. simpl learn_loop. rewrite E1. cbn [Py.bind].
    split; [exact E2 | ]. rewrite Hfiles. apply Hno. now left.
Qed.

(** X3.  The checkpoints of a whole call of [learn] (lines 163-181).  Over [n]
    batches a well-configured learner returns; without a directory
    ([None] or the empty string) it writes nothing; with a directory and a
    positive [save_model_freq] it writes exactly [n // save_model_freq]
    files, and their paths are the names [agent.model-k] in the directory
    for the multiples [k] of [save_model_freq] with [0 < k <= n].  The
    files that were there stay (a path written again shadows the older
    file). *)
Theorem checkpoint_cadence (self : FastDQNAgent) (st : AgentState Params OptState)
  (batches : list (Batch Obs)) :
  well_configured self -> has_target self st ->
  exists st' l',
    learn forward optimizer_step self st batches = Ret (st', l')
    /\ (truthy (_save_model_dir self) = false -> files st' = files st)
    /\ (forall d, _save_model_dir self = Some d -> d <> EmptyString ->
        (0 < _save_model_freq self)%Z ->
        exists new,
          files st' = new ++ files st
          /\ Z.of_nat (List.length new)
             = (Z.of_nat (List.length batches) / _save_model_freq self)%Z
          /\ forall path, In path (map fst new) <->
               exists k, (0 < k <= Z.of_nat (List.length batches))%Z
                         /\ (k mod _save_model_freq self = 0)%Z
                         /\ path = path_join d ("agent.model-" ++ format_d k)).
Proof.
  intros Hw Ht. unfold learn.
  set (l0 := {| steps := 0; loss_sum := 0 |}).
  destruct (learn_loop_spec forward optimizer_step self batches Hw st l0 Ht ltac:(simpl; lia))
    as [st' [l' [E _]]].
  exists st', l'. split; [exact E | ]. split.
  - intros Hd.
    destruct (learn_loop_no_files self batches Hw Hd st l0 Ht ltac:(simpl; lia))
      as [st2 [l2 [E2 Hfiles]]].
    rewrite E in E2. inversion E2; subst. exact Hfiles.
  - intros d Hd Hne Hf.
    destruct (learn_loop_files self d batches Hw Hd Hne Hf st l0 Ht
                ltac:(simpl; lia)) as [st2 [l2 [new [E2 [Hfiles [Hlen Hin]]]]]].
    rewrite E in E2. inversion E2; subst st2 l2.
    exists new. split; [exact Hfiles | ]. split.
    + rewrite Hlen. simpl steps. rewrite Z.add_0_l, Z.div_0_l by lia. lia.
    + intros path. rewrite Hin. simpl steps. rewrite Z.add_0_l. reflexivity.
Qed.

End CadenceResults.

Lemma checkpoint_cadence_witness :
  exists st' l' new,
    learn toy_forward toy_optimizer_step (agent_of "linear" 1 0.1 100 0.9 true 32 100)
      toy_state (repeat (_transitions_to_batch [transition_at 0]) 5) = Ret (st', l')
    /\ files st' = new ++ files toy_state
    /\ Z.of_nat (List.length new) = 2%Z.
Proof.
  destruct (checkpoint_cadence toy_forward toy_optimizer_step
              (agent_of "linear" 1 0.1 100 0.9 true 32 100) toy_state
              (repeat (_transitions_to_batch [transition_at 0]) 5)
              ltac:(configured) ltac:(configured))
    as [st' [l' [E [_ H]]]].
  destruct (H "ckpt"%string eq_refl ltac:(discriminate) ltac:(reflexivity))
    as [new [Hf [Hl _]]].
  exists st', l', new. split; [exact E | ]. split; [exact Hf | exact Hl].
Defined.

(* ================================================================== *)
(** * Results: the actors *)
(* ================================================================== *)

Section ActorResults.

Context {Obs Params OptState Env : Type}.
Variable forward : bool -> Params -> Obs -> list R.
Variable optimizer_step :
  FastDQNAgent -> Params -> OptState -> Batch Obs -> list R -> Params * OptState.
Variable env_create_fn : Env.
Variable env_reset : Env -> Env * Obs.
Variable env_step : Env -> nat -> Env * Obs * R * bool.

(** X4.  [act] at the ends of the range of epsilon (lines 40-55 and 146-161).
    The draw [u] of [random.uniform(0, 1)] lies in [0, 1].  With
    [eps <= 0] the action is always the greedy one: an index of the
    network's output that is in range and holds a largest value, the
    network having been put in evaluation mode when that is allowed.  With
    [eps > 1] the action is always the sample of the action space, and the
    network is left as it is. *)
Theorem act_extremes (allow_eval_mode : bool) (q_network : Network Params)
  (observation : Obs) (eps u : R) (sampled : nat) :
  (0 <= u <= 1)%R ->
  let net := if allow_eval_mode then eval q_network else q_network in
  let q := call forward net observation in
  ((eps <= 0)%R ->
   act forward allow_eval_mode q_network observation eps u sampled = (net, row_argmax q)
   /\ (q <> [] ->
       (row_argmax q < List.length q)%nat
       /\ forall x, In x q -> (x <= nth (row_argmax q) q 0)%R))
  /\ ((1 < eps)%R ->
      act forward allow_eval_mode q_network observation eps u sampled
      = (q_network, sampled)).
Proof.
  intros Hu net q. split.
  - intros He. split.
    + unfold act. destruct (Rle_dec eps u) as [_ | N]; [reflexivity | lra].
    + intros Hq. destruct (row_argmax_spec q Hq) as [Hlt Hnth].
      destruct (row_max_spec q Hq) as [_ Hmax].
      split; [exact Hlt | ]. intros x Hx. rewrite Hnth. now apply Hmax.
  - intros He. unfold act. destruct (Rle_dec eps u) as [N | _]; [lra | reflexivity].
Qed.

(** A turn of an actor whose queue has room. *)
Lemma actor_turn (self : FastDQNAgent) (eps : R) (p : Params) (a : Actor Obs Env)
  (queue : list (Transition Obs)) (u : R) (sampled : nat) :
  full (transition_queue_size self) queue = false ->
  exists a' t,
    actor_worker forward env_reset env_step self eps p a queue u sampled
    = Some (a', queue ++ [t])
    /\ observation t = match at_observation a with
                       | Some o => o
                       | None => snd (env_reset (env a))
                       end
    /\ at_observation a' = (if done t then None else Some (next_observation t))
    /\ episode_id a' = (if done t then episode_id a + 1 else episode_id a)%Z
    /\ cum_return a' = (if done t then 0 else cum_return a + reward t)%R.
Proof.
  intros Hfull. unfold actor_worker.
  destruct (match at_observation a with
            | Some o => (env a, o)
            | None => env_reset (env a)
            end) as [e o] eqn:Eo.
  destruct (act forward (_allow_eval_mode self) _ o eps u sampled) as [net action].
  destruct (env_step e action) as [[[e' next] r] dn].
  rewrite Hfull.
  eexists. eexists. split; [reflexivity | ]. cbn.
  split.
  { destruct (at_observation a); [now inversion Eo | now rewrite Eo]. }
  repeat split; reflexivity.
Qed.

(** [out_queue.put] blocks on a full queue. *)
Lemma actor_blocked (self : FastDQNAgent) (eps : R) (p : Params) (a : Actor Obs Env)
  (queue : list (Transition Obs)) (u : R) (sampled : nat) :
  full (transition_queue_size self) queue = true ->
  actor_worker forward env_reset env_step self eps p a queue u sampled = None.
Proof.
  intros Hfull. unfold actor_worker.
  destruct (match at_observation a with
            | Some o => (env a, o)
            | None => env_reset (env a)
            end) as [e o].
  destruct (act forward (_allow_eval_mode self) _ o eps u sampled) as [net action].
  destruct (env_step e action) as [[[e' next] r] dn].
  now rewrite Hfull.
Qed.

(** X5.  One turn of [actor_worker]'s inner loop (lines 57-72).  On a full
    transition queue the actor blocks.  Otherwise it appends exactly one
    transition at the tail of the queue and leaves the transitions before
    it as they were; the transition starts at the observation the actor
    stands at, or at the one [env.reset()] returns when an episode begins;
    the episode counter goes up by one exactly when the transition is
    terminal, and then the return starts again from 0. *)
Theorem actor_blocks_or_appends (self : FastDQNAgent) (eps : R) (p : Params)
  (a : Actor Obs Env) (queue : list (Transition Obs)) (u : R) (sampled : nat) :
  (full (transition_queue_size self) queue = true ->
   actor_worker forward env_reset env_step self eps p a queue u sampled = None)
  /\ (full (transition_queue_size self) queue = false ->
      exists a' t,
        actor_worker forward env_reset env_step self eps p a queue u sampled
        = Some (a', queue ++ [t])
        /\ observation t = match at_observation a with
                           | Some o => o
                           | None => snd (env_reset (env a))
                           end
        /\ episode_id a' = (if done t then episode_id a + 1 else episode_id a)%Z
        /\ cum_return a' = (if done t then 0 else cum_return a + reward t)%R).
Proof.
  split.
  - apply actor_blocked.
  - intros Hfull.
    destruct (actor_turn self eps p a queue u sampled Hfull)
      as [a' [t [E [Ho [_ [He Hc]]]]]].
    exists a', t. repeat split; assumption.
Qed.

(** X6.  Consecutive turns of one actor chain (lines 61-68), whatever happened
    to the queue, the parameters and epsilon in between: the second
    transition starts at the next observation of the first, or at a reset
    when the first ended its episode. *)
Theorem actor_turns_chain (self : FastDQNAgent) (eps1 eps2 : R) (p1 p2 : Params)
  (a : Actor Obs Env) (q1 q2 : list (Transition Obs)) (u1 u2 : R) (s1 s2 : nat) :
  full (transition_queue_size self) q1 = false ->
  full (transition_queue_size self) q2 = false ->
  exists a1 t1 a2 t2,
    actor_worker forward env_reset env_step self eps1 p1 a q1 u1 s1 = Some (a1, q1 ++ [t1])
    /\ actor_worker forward env_reset env_step self eps2 p2 a1 q2 u2 s2
       = Some (a2, q2 ++ [t2])
    /\ (done t1 = false -> observation t2 = next_observation t1
                           /\ episode_id a1 = episode_id a
                           /\ cum_return a1 = (cum_return a + reward t1)%R)
    /\ (done t1 = true -> observation t2 = snd (env_reset (env a1))
                          /\ episode_id a1 = (episode_id a + 1)%Z
                          /\ cum_return a1 = 0%R).
Proof.
  intros F1 F2.
  destruct (actor_turn self eps1 p1 a q1 u1 s1 F1) as [a1 [t1 [E1 [_ [Hat1 [Hep1 Hcum1]]]]]].
  destruct (actor_turn self eps2 p2 a1 q2 u2 s2 F2) as [a2 [t2 [E2 [Hobs2 _]]]].
  exists a1, t1, a2, t2.
  split; [exact E1 | ]. split; [exact E2 | ].
  split; intros Hd; rewrite Hd in *; rewrite Hobs2, Hat1; repeat split; assumption.
Qed.

End ActorResults.


Lemma act_extremes_witness :
  act toy_forward true (toy_network 7) 3%nat 0 (1 / 2) 1
  = (eval (toy_network 7), row_argmax (call toy_forward (eval (toy_network 7)) 3%nat))
  /\ act toy_forward true (toy_network 7) 3%nat 2 (1 / 2) 1 = (toy_network 7, 1%nat).
Proof.
  destruct (act_extremes toy_forward true (toy_network 7) 3%nat 0 (1 / 2) 1 ltac:(lra))
    as [H0 _].
  destruct (act_extremes toy_forward true (toy_network 7) 3%nat 2 (1 / 2) 1 ltac:(lra))
    as [_ H2].
  split; [exact (proj1 (H0 ltac:(lra))) | exact (H2 ltac:(lra))].
Defined.

Lemma actor_turns_chain_witness :
  exists a1 t1 a2 t2,
    actor_worker toy_forward toy_env_reset toy_env_step (scenario "linear") 1 7%Z
      {| env := 1%nat; mode := true; at_observation := Some 1%nat;
         episode_id := 0; cum_return := 1 |} [] (1 / 2) 1
    = Some (a1, [] ++ [t1])
    /\ actor_worker toy_forward toy_env_reset toy_env_step (scenario "linear") (1 / 4) 8%Z
         a1 [] (1 / 2) 0
       = Some (a2, [] ++ [t2])
    /\ (done t1 = false -> observation t2 = next_observation t1
                           /\ episode_id a1 = 0%Z
                           /\ cum_return a1 = (1 + reward t1)%R).
Proof.
  destruct (actor_turns_chain toy_forward toy_env_reset toy_env_step (scenario "linear")
              1 (1 / 4) 7%Z 8%Z
              {| env := 1%nat; mode := true; at_observation := Some 1%nat;
                 episode_id := 0; cum_return := 1 |} [] [] (1 / 2) (1 / 2) 1%nat 0%nat
              eq_refl eq_refl)
    as [a1 [t1 [a2 [t2 [E1 [E2 [H _]]]]]]].
  exists a1, t1, a2, t2. split; [exact E1 | ]. split; [ | exact H].
  exact E2.
Defined.

(* ================================================================== *)
(** * Results: the builders and the queues *)
(* ================================================================== *)

Lemma get_n_split {A : Type} (n : nat) (queue got rest : list A) :
  get_n n queue = Some (got, rest) -> queue = got ++ rest /\ List.length got = n.
Proof.
  revert queue got rest. induction n as [ | n IH]; intros queue got rest H; simpl in H.
  - inversion H; subst. split; reflexivity.
  - destruct queue as [ | x queue]; [discriminate | ].
    destruct (get_n n queue) as [[g r] | ] eqn:E; [ | discriminate].
    inversion H; subst. destruct (IH _ _ _ E) as [-> Hl].
    split; [reflexivity | simpl; now rewrite Hl].
Qed.

Lemma get_n_blocks {A : Type} (n : nat) (queue : list A) :
  get_n n queue = None <-> (List.length queue < n)%nat.
Proof.
  revert queue. induction n as [ | n IH]; intros queue; simpl.
  - split; [discriminate | lia].
  - destruct queue as [ | x queue]; simpl; [split; [lia | reflexivity] | ].
    destruct (get_n n queue) as [[g r] | ] eqn:E.
    + split; [discriminate | ]. intros Hl.
      assert (Hn : get_n n queue = None) by (apply IH; lia). congruence.
    + split; [intros _ | reflexivity]. apply IH in E. lia.
Qed.

Section QueueResults.

Context {Obs Params OptState Env : Type}.
Variable forward : bool -> Params -> Obs -> list R.
Variable optimizer_step :
  FastDQNAgent -> Params -> OptState -> Batch Obs -> list R -> Params * OptState.
Variable env_create_fn : Env.
Variable env_reset : Env -> Env * Obs.
Variable env_step : Env -> nat -> Env * Obs * R * bool.

Implicit Types (self : FastDQNAgent) (s : System Obs Params OptState Env) (e : Event).

(** What a builder iteration that completes took from the transition queue. *)
Lemma builder_iter_takes self (b b' : Builder Obs)
  (queue rest : list (Transition Obs)) (rnd : nat -> nat)
  (out : option (list (Transition Obs))) :
  _prepare_batch_iter self b queue rnd = Some (Ret (b', rest, out)) ->
  exists got,
    queue = got ++ rest
    /\ memory b' = fold_left Memory.push got (memory b)
    /\ builder_steps b' = (builder_steps b + 1)%Z
    /\ per b' = per b
    /\ (qlt (_frame_step_ratio self) 1 = false -> List.length got = Z.to_nat (per b))
    /\ (qlt (_frame_step_ratio self) 1 = true ->
        List.length got
        = if ((builder_steps b + 1) mod per b =? 0)%Z then 1%nat else 0%nat).
Proof.
  unfold _prepare_batch_iter. intros H.
  set (wanted := if qlt (_frame_step_ratio self) 1
                 then m <- mod_ (builder_steps b + 1) (per b) ;;
                      Ret (if (m =? 0)%Z then 1%nat else 0%nat)
                 else Ret (Z.to_nat (per b))) in *.
  destruct wanted as [n | ex] eqn:Ew; [ | discriminate].
  destruct (get_n n queue) as [[got rest0] | ] eqn:Eg; [ | discriminate].
  destruct (get_n_split _ _ _ _ Eg) as [Hq Hlen].
  inversion H as [H1]. clear H.
  destruct (warming_up self _) as [w | ex]; cbn [Py.bind] in H1; [ | discriminate].
  assert (Hb : b' = {| memory := fold_left Memory.push got (memory b);
                       builder_steps := (builder_steps b + 1)%Z; per := per b |}
               /\ rest = rest0).
  { destruct w.
    - inversion H1; subst. split; reflexivity.
    - destruct (Memory.sample _ _ _) as [ts | ex]; cbn [Py.bind] in H1; [ | discriminate].
      inversion H1; subst. split; reflexivity. }
  destruct Hb as [-> ->].
  exists got. split; [exact Hq | ]. cbn.
  repeat split.
  - intros Hr. unfold wanted in Ew. rewrite Hr in Ew. inversion Ew. lia.
  - intros Hr. unfold wanted in Ew. rewrite Hr in Ew.
    unfold mod_ in Ew. destruct (per b =? 0)%Z; cbn [Py.bind] in Ew; [discriminate | ].
    inversion Ew. lia.
Qed.

(** X7.  An iteration of [_prepare_batch]'s loop that makes at most one
    [get] (lines 248-260 with [frame_step_ratio < 1], or with
    [frames_per_step = 1]) and completes.  It takes at most one transition,
    the one at the head of the transition queue, and pushes it to its
    shard; the counter goes up by one.  With [frames_per_step = 1] it takes
    one transition in every iteration; with [frame_step_ratio < 1] it takes
    one in the iterations whose count is a multiple of [steps_per_frame]
    and none in the others.  (An iteration with several [get]s can be
    interleaved with the other builder threads between them, and is not
    covered.) *)
Theorem builder_takes_from_the_head self (b b' : Builder Obs)
  (queue rest : list (Transition Obs)) (rnd : nat -> nat)
  (out : option (list (Transition Obs))) :
  qlt (_frame_step_ratio self) 1 = true \/ per b = 1%Z ->
  _prepare_batch_iter self b queue rnd = Some (Ret (b', rest, out)) ->
  exists got,
    queue = got ++ rest
    /\ (List.length got <= 1)%nat
    /\ memory b' = fold_left Memory.push got (memory b)
    /\ builder_steps b' = (builder_steps b + 1)%Z
    /\ per b' = per b
    /\ (qlt (_frame_step_ratio self) 1 = false -> List.length got = 1%nat)
    /\ (qlt (_frame_step_ratio self) 1 = true ->
        List.length got
        = if ((builder_steps b + 1) mod per b =? 0)%Z then 1%nat else 0%nat).
Proof.
  intros Hone H.
  destruct (builder_iter_takes self b b' queue rest rnd out H)
    as [got [Hq [Hm [Hs [Hp [Hge Hlt]]]]]].
  assert (Hfalse : qlt (_frame_step_ratio self) 1 = false -> List.length got = 1%nat).
  { intros Hr. destruct Hone as [Hone | Hone]; [congruence | ].
    rewrite (Hge Hr), Hone. reflexivity. }
  exists got. split; [exact Hq | ]. split.
  { destruct (qlt (_frame_step_ratio self) 1) eqn:Hr.
    - rewrite (Hlt eq_refl). destruct (_ =? _)%Z; lia.
    - rewrite (Hfalse eq_refl). lia. }
  repeat split; assumption.
Qed.

End QueueResults.

Lemma builder_takes_from_the_head_witness :
  exists got,
    [transition_at 0; transition_at 1] = got ++ [transition_at 1]
    /\ List.length got = 1%nat.
Proof.
  destruct (builder_takes_from_the_head (scenario "linear")
              {| memory := Memory.new 4; builder_steps := 0; per := 1 |}
              {| memory := Memory.push (Memory.new 4) (transition_at 0);
                 builder_steps := 1; per := 1 |}
              [transition_at 0; transition_at 1] [transition_at 1] (fun _ => O) None
              (or_intror eq_refl) eq_refl)
    as [got [Hq [_ [_ [_ [_ [Hl _]]]]]]].
  exists got. split; [exact Hq | exact (Hl eq_refl)].
Defined.


Lemma transition_queue_size_pos (self : FastDQNAgent) :
  (1 <= _num_threads self)%Z -> (1 <= transition_queue_size self)%Z.
Proof.
  intros Hn. unfold transition_queue_size, qlt.
  destruct (Qlt_le_dec (_frame_step_ratio self) 1) as [_ | Hle]; [lia | ].
  destruct (_frame_step_ratio self) as [a b]. unfold Qle in Hle. simpl in Hle.
  unfold int_of_Q. simpl.
  assert (0 < (a * _num_threads self) ÷ Z.pos (b * 1))%Z; [ | lia].
  apply Z.quot_str_pos. nia.
Qed.

(** X8.  The size of the transition queue (lines 220-222) against what the
    builder threads take from it (lines 244-256), for at least one thread
    and in exact arithmetic.  The size is at least 1, so the queue is a
    bounded one (a [multiprocessing.Queue] of size 0 is unbounded): it is
    full exactly when it holds that many transitions.  With
    [frame_step_ratio < 1] the size is 1.  With [frame_step_ratio >= 1] it
    is at least [num_threads * frames_per_step]: the queue has room for
    what all the builder threads take in one iteration each. *)
Theorem transition_queue_fits_the_builders (self : FastDQNAgent) (Obs : Type) :
  (1 <= _num_threads self)%Z ->
  (1 <= transition_queue_size self)%Z
  /\ (forall queue : list (Transition Obs),
        full (transition_queue_size self) queue = true
        <-> (transition_queue_size self <= Z.of_nat (List.length queue))%Z)
  /\ (qlt (_frame_step_ratio self) 1 = true -> transition_queue_size self = 1%Z)
  /\ (qlt (_frame_step_ratio self) 1 = false ->
      forall b : Builder Obs, _prepare_batch_init self = Ret b ->
      (1 <= per b)%Z
      /\ (_num_threads self * per b <= transition_queue_size self)%Z).
Proof.
  intros Hn. pose proof (transition_queue_size_pos self Hn) as Hpos.
  split; [exact Hpos | ].
  split.
  { intros queue. unfold full. rewrite andb_true_iff, Z.ltb_lt, Z.leb_le.
    split; [intros [_ H]; exact H | intros H; split; [lia | exact H]]. }
  split.
  { intros Hr. unfold transition_queue_size. now rewrite Hr. }
  intros Hr b Hb. unfold _prepare_batch_init in Hb.
  destruct (qtruediv (inject_Z (_memory_size self)) (inject_Z (_num_threads self)))
    as [c | ex]; cbn [Py.bind] in Hb; [ | discriminate].
  rewrite Hr in Hb. cbn [Py.bind] in Hb. inversion Hb; subst b. cbn [per].
  unfold transition_queue_size. rewrite Hr.
  unfold qlt in Hr.
  destruct (Qlt_le_dec (_frame_step_ratio self) 1) as [ | Hle]; [discriminate | ].
  destruct (_frame_step_ratio self) as [n d]. unfold Qle in Hle. simpl in Hle.
  unfold int_of_Q. simpl.
  rewrite Pos.mul_1_r.
  rewrite !Z.quot_div_nonneg by nia.
  pose proof (Z.mul_div_le n (Z.pos d) ltac:(lia)) as Hdiv.
  split.
  - apply Z.div_le_lower_bound; lia.
  - apply Z.div_le_lower_bound; [lia | nia].
Qed.

Lemma transition_queue_fits_the_builders_witness :
  (1 <= transition_queue_size (scenario "linear"))%Z
  /\ forall b : Builder nat, _prepare_batch_init (scenario "linear") = Ret b ->
       (8 * per b <= transition_queue_size (scenario "linear"))%Z.
Proof.
  destruct (transition_queue_fits_the_builders (scenario "linear") nat ltac:(simpl; lia))
    as [H1 [_ [_ H]]].
  split; [exact H1 | ].
  intros b Hb. exact (proj2 (H eq_refl b Hb)).
Defined.

Section RunResults.

Context {Obs Params OptState Env : Type}.
Variable forward : bool -> Params -> Obs -> list R.
Variable optimizer_step :
  FastDQNAgent -> Params -> OptState -> Batch Obs -> list R -> Params * OptState.
Variable env_create_fn : Env.
Variable env_reset : Env -> Env * Obs.
Variable env_step : Env -> nat -> Env * Obs * R * bool.

Implicit Types (self : FastDQNAgent) (s : System Obs Params OptState Env) (e : Event).

(** The head of the learner's loop runs whenever the learner is not waiting
    for a batch. *)
Lemma head_runs self s :
  well_configured self -> has_target self (agent s) -> (0 <= steps (locals s))%Z ->
  waiting s = false ->
  exists st',
    step forward optimizer_step env_reset env_step self s LearnerHead
    = Some (Ret {| agent := st'; locals := locals s; waiting := true;
                   transition_queue := transition_queue s;
                   batch_queue := batch_queue s;
                   actors := actors s;
                   builders := builders s |})
    /\ has_target self st'.
Proof.
  intros Hw Ht Hs Hwait. unfold step. rewrite Hwait.
  destruct (learn_sync_spec self (agent s) (locals s) Hw Ht) as [st1 [E1 [_ [_ [_ [_ [Ht1 _]]]]]]].
  destruct (learn_publish_spec self st1 (locals s) Hw Hs) as [eps [_ E2]].
  rewrite E1. cbn [Py.bind]. rewrite E2. cbn [Py.bind].
  eexists. split; [reflexivity | ].
  unfold has_target, set_current_eps in *. cbn. exact Ht1.
Qed.

(** The rest of the loop runs whenever the learner waits and a batch is
    there. *)
Lemma optimize_runs self s batch rest :
  well_configured self -> has_target self (agent s) ->
  waiting s = true -> batch_queue s = batch :: rest ->
  exists st' l',
    step forward optimizer_step env_reset env_step self s LearnerOptimize
    = Some (Ret {| agent := st'; locals := l'; waiting := false;
                   transition_queue := transition_queue s;
                   batch_queue := rest;
                   actors := actors s;
                   builders := builders s |})
    /\ has_target self st'
    /\ steps l' = (steps (locals s) + 1)%Z.
Proof.
  intros Hw Ht Hwait Hq. unfold step. rewrite Hwait, Hq.
  destruct (_optimize_spec forward optimizer_step self (agent s) batch Hw Ht)
    as [st1 [v [E1 [_ [Ht1 _]]]]].
  destruct (learn_bookkeeping_spec self st1 (locals s) v Hw)
    as [st2 [l2 [E2 [Hs2 [_ [_ [Ht2 _]]]]]]].
  rewrite E1. cbn [Py.bind]. rewrite E2. cbn [Py.bind].
  exists st2, l2. split; [reflexivity | ]. split; [ | exact Hs2].
  unfold has_target in *. rewrite Ht2, Ht1. exact Ht.
Qed.

(** X9.  [learn]'s counter counts the optimizations (lines 167-172): along every
    run the counter has grown by the number of completed [_optimize] calls,
    and the heads and the rests of the loop alternate, the head first. *)
Theorem steps_count_optimizations self (events : list Event) :
  forall s s',
  run forward optimizer_step env_reset env_step self s events = Some (Ret s') ->
  steps (locals s') = (steps (locals s) + count_events is_optimize events)%Z
  /\ (count_events is_head events + (if waiting s then 1 else 0)
      = count_events is_optimize events + (if waiting s' then 1 else 0))%Z.
Proof.
  induction events as [ | e events IH]; intros s s' H.
  - simpl in H. inversion H; subst. simpl. split; lia.
  - simpl in H.
    destruct (step forward optimizer_step env_reset env_step self s e)
      as [[s1 | ex] | ] eqn:E; try discriminate.
    destruct (IH s1 s' H) as [IHs IHw].
    destruct e as [pid u sampled | tid rnd | | ].
    + destruct (step_worker _ _ _ _ self s _ s1 E ltac:(discriminate) ltac:(discriminate))
        as [_ [Hl Hw]].
      cbn [count_events is_optimize is_head]. rewrite <- Hl, <- Hw. split; lia.
    + destruct (step_worker _ _ _ _ self s _ s1 E ltac:(discriminate) ltac:(discriminate))
        as [_ [Hl Hw]].
      cbn [count_events is_optimize is_head]. rewrite <- Hl, <- Hw. split; lia.
    + destruct (step_head _ _ _ _ self s s1 E) as [Hw [Hw1 [Hl _]]].
      cbn [count_events is_optimize is_head]. rewrite Hw. rewrite Hw1 in IHw.
      rewrite <- Hl. split; lia.
    + destruct (step_optimize _ _ _ _ self s s1 E) as [Hw [Hw1 Hs]].
      cbn [count_events is_optimize is_head]. rewrite Hw. rewrite Hw1 in IHw.
      split; lia.
Qed.

End RunResults.

(** A run with an actor turn and two optimizations: the learner publishes,
    an actor adds a transition, the learner optimizes on the first batch,
    publishes again and optimizes on the second; the counter ends at 2. *)
Lemma steps_count_optimizations_witness :
  exists s',
    run toy_forward toy_optimizer_step toy_env_reset toy_env_step
      (agent_of "linear" 1 0.1 100 0.9 true 32 100)
      (toy_system [_transitions_to_batch [transition_at 0];
                   _transitions_to_batch [transition_at 1]])
      [LearnerHead; ActorTurn 0 (1 / 2) 1; LearnerOptimize; LearnerHead; LearnerOptimize]
    = Some (Ret s')
    /\ steps (locals s') = 2%Z
    /\ waiting s' = false.
Proof.
  set (self := agent_of "linear" 1 0.1 100 0.9 true 32 100).
  set (s0 := toy_system [_transitions_to_batch [transition_at 0];
                         _transitions_to_batch [transition_at 1]]).
  assert (Hw : well_configured self) by configured.
  destruct (head_runs toy_forward toy_optimizer_step toy_env_reset toy_env_step self s0
              Hw ltac:(configured) ltac:(simpl; lia) eq_refl) as [st1 [E1 Ht1]].
  set (s1 := {| agent := st1; locals := locals s0; waiting := true;
                transition_queue := transition_queue s0; batch_queue := batch_queue s0;
                actors := actors s0; builders := builders s0 |}) in *.
  destruct (actor_turn toy_forward toy_env_reset toy_env_step self
              (_current_eps st1) (state_dict (_q_network st1)) toy_actor []
              (1 / 2) 1 eq_refl) as [a' [t [E2 _]]].
  set (s2 := {| agent := st1; locals := locals s0; waiting := true;
                transition_queue := [] ++ [t]; batch_queue := batch_queue s0;
                actors := Memory.set_nth 0 a' (actors s0); builders := builders s0 |}).
  assert (E2' : step toy_forward toy_optimizer_step toy_env_reset toy_env_step self s1
                  (ActorTurn 0 (1 / 2) 1) = Some (Ret s2)).
  { unfold step. cbn [actors s1 s0 toy_system nth_error agent transition_queue].
    rewrite E2. reflexivity. }
  destruct (optimize_runs toy_forward toy_optimizer_step toy_env_reset toy_env_step self s2
              (_transitions_to_batch [transition_at 0])
              [_transitions_to_batch [transition_at 1]] Hw Ht1 eq_refl eq_refl)
    as [st3 [l3 [E3 [Ht3 Hs3]]]].
  set (s3 := {| agent := st3; locals := l3; waiting := false;
                transition_queue := transition_queue s2;
                batch_queue := [_transitions_to_batch [transition_at 1]];
                actors := actors s2; builders := builders s2 |}) in *.
  destruct (head_runs toy_forward toy_optimizer_step toy_env_reset toy_env_step self s3
              Hw Ht3 ltac:(cbn [locals s3]; rewrite Hs3; simpl; lia) eq_refl)
    as [st4 [E4 Ht4]].
  set (s4 := {| agent := st4; locals := locals s3; waiting := true;
                transition_queue := transition_queue s3; batch_queue := batch_queue s3;
                actors := actors s3; builders := builders s3 |}) in *.
  destruct (optimize_runs toy_forward toy_optimizer_step toy_env_reset toy_env_step self s4
              (_transitions_to_batch [transition_at 1]) [] Hw Ht4 eq_refl eq_refl)
    as [st5 [l5 [E5 [_ Hs5]]]].
  eexists.
  assert (Hrun : run toy_forward toy_optimizer_step toy_env_reset toy_env_step self s0
                   [LearnerHead; ActorTurn 0 (1 / 2) 1; LearnerOptimize; LearnerHead;
                    LearnerOptimize]
                 = Some (Ret {| agent := st5; locals := l5; waiting := false;
                                transition_queue := transition_queue s4;
                                batch_queue := [];
                                actors := actors s4; builders := builders s4 |})).
  { cbn [run]. rewrite E1. fold s1. rewrite E2'. rewrite E3. fold s3. rewrite E4.
    fold s4. rewrite E5. reflexivity. }
  split; [exact Hrun | ].
  destruct (steps_count_optimizations toy_forward toy_optimizer_step toy_env_reset
              toy_env_step self _ s0 _ Hrun) as [Hs _].
  split; [exact Hs | reflexivity].
Defined.

Lemma int_of_Q_div (m n : Z) :
  (0 < n)%Z -> int_of_Q (inject_Z m / inject_Z n) = (m ÷ n)%Z.
Proof.
  intros Hn. destruct n as [ | p | p]; try lia.
  unfold int_of_Q, Qdiv, Qinv, Qmult, inject_Z. simpl.
  now rewrite Z.mul_1_r.
Qed.

(** X10.  The start of a builder thread (lines 241-247), for a positive number of
    threads.  With [frame_step_ratio == 0] the thread dies at line 245 with
    [ZeroDivisionError].  With a positive ratio it starts with an empty
    shard of capacity [int(memory_size / num_threads)], which for a
    non-negative [memory_size] is the floor of the quotient, and
    [steps_per_frame] or [frames_per_step], whichever it sets, is at least
    1, so the remainder of line 251 is defined.  The quotients are the
    exact ones, as the float quotient of line 242 is for sizes below
    [2^53]. *)
Theorem builder_start (self : FastDQNAgent) (Obs : Type) :
  (0 < _num_threads self)%Z ->
  (_frame_step_ratio self == 0 ->
   _prepare_batch_init (Obs := Obs) self = Raise ZeroDivisionError)
  /\ (0 < _frame_step_ratio self ->
      exists b : Builder Obs,
        _prepare_batch_init self = Ret b
        /\ (1 <= per b)%Z
        /\ builder_steps b = 0%Z
        /\ Memory.count (memory b) = 0%nat
        /\ Memory.capacity (memory b) = Z.to_nat (_memory_size self ÷ _num_threads self)
        /\ ((0 <= _memory_size self)%Z ->
            (Z.of_nat (Memory.capacity (memory b)) * _num_threads self <= _memory_size self
             < (Z.of_nat (Memory.capacity (memory b)) + 1) * _num_threads self)%Z)).
Proof.
  intros Hn.
  assert (Hq : qtruediv (inject_Z (_memory_size self)) (inject_Z (_num_threads self))
               = Ret (inject_Z (_memory_size self) / inject_Z (_num_threads self))).
  { unfold qtruediv.
    destruct (Qeq_bool (inject_Z (_num_threads self)) 0) eqn:E; [ | reflexivity].
    apply Qeq_bool_eq in E. unfold Qeq in E. simpl in E. lia. }
  split.
  - intros Hz. unfold _prepare_batch_init. rewrite Hq. cbn [Py.bind].
    unfold qlt. destruct (Qlt_le_dec (_frame_step_ratio self) 1) as [_ | Hle].
    + unfold qtruediv. rewrite (Qeq_eq_bool _ _ Hz). reflexivity.
    + rewrite Hz in Hle. unfold Qle in Hle. simpl in Hle. lia.
  - intros Hpos. unfold _prepare_batch_init. rewrite Hq. cbn [Py.bind].
    rewrite int_of_Q_div by exact Hn.
    assert (Hper : exists p,
               (if qlt (_frame_step_ratio self) 1
                then r <- qtruediv 1 (_frame_step_ratio self) ;; Ret (int_of_Q r)
                else Ret (int_of_Q (_frame_step_ratio self))) = Ret p /\ (1 <= p)%Z).
    { unfold qlt. destruct (Qlt_le_dec (_frame_step_ratio self) 1) as [Hlt | Hle].
      - unfold qtruediv.
        destruct (Qeq_bool (_frame_step_ratio self) 0) eqn:E.
        + apply Qeq_bool_eq in E. rewrite E in Hpos. unfold Qlt in Hpos. simpl in Hpos. lia.
        + cbn [Py.bind]. eexists. split; [reflexivity | ].
          destruct (_frame_step_ratio self) as [a b].
          unfold Qlt in Hpos, Hlt. simpl in Hpos, Hlt.
          destruct a as [ | a | a]; try lia.
          unfold int_of_Q, Qdiv, Qinv, Qmult. simpl.
          assert (0 < Z.pos b ÷ Z.pos a)%Z; [apply Z.quot_str_pos; lia | lia].
      - eexists. split; [reflexivity | ].
        destruct (_frame_step_ratio self) as [a b].
        unfold Qle in Hle. simpl in Hle. unfold int_of_Q. simpl.
        assert (0 < a ÷ Z.pos b)%Z; [apply Z.quot_str_pos; lia | lia]. }
    destruct Hper as [p [Ep Hp]]. rewrite Ep. cbn [Py.bind].
    eexists. split; [reflexivity | ]. cbn.
    repeat split; try assumption.
    + pose proof (Z.quot_pos (_memory_size self) (_num_threads self) H ltac:(lia)).
      rewrite Z2Nat.id by assumption.
      rewrite Z.quot_div_nonneg by lia.
      pose proof (Z.mul_div_le (_memory_size self) (_num_threads self) Hn). lia.
    + pose proof (Z.quot_pos (_memory_size self) (_num_threads self) H ltac:(lia)).
      rewrite Z2Nat.id by assumption.
      rewrite Z.quot_div_nonneg by lia.
      pose proof (Z.mul_succ_div_gt (_memory_size self) (_num_threads self) Hn). lia.
Qed.


Lemma builder_start_witness :
  exists b : Builder nat,
    _prepare_batch_init (scenario "linear") = Ret b
    /\ (1 <= per b)%Z
    /\ Memory.capacity (memory b) = Z.to_nat 12500.
Proof.
  destruct (builder_start (scenario "linear") nat ltac:(reflexivity)) as [_ H].
  destruct (H ltac:(reflexivity)) as [b [E [Hp [_ [_ [Hc _]]]]]].
  exists b. split; [exact E | ]. split; [exact Hp | exact Hc].
Defined.

(* ================================================================== *)
(** * Results: the deprecated agent's [train] *)
(* ================================================================== *)

Section LegacyResults.

Context {Params OptState Batch : Type}.
Variable _update : Params -> Params -> OptState -> Batch -> Params * OptState * R.

(** One iteration of the deprecated loop, when its three remainders are
    defined. *)
Lemma legacy_iter (self : Legacy.Agent) (st : Legacy.State (Params := Params) (OptState := OptState))
  (loss_sum : R) (batch : Batch) :
  Legacy._target_update_freq self <> 0%Z ->
  Legacy._save_model_freq self <> 0%Z ->
  Legacy._print_freq self <> 0%Z ->
  let n := (Legacy._steps st + 1)%Z in
  let due := ((n mod Legacy._save_model_freq self) =? 0)%Z in
  (due = true -> Legacy._save_model_dir self = None ->
   Legacy.train_iter _update self st loss_sum batch = PyErr.Fail PyErr.TypeError)
  /\ (due = false \/ Legacy._save_model_dir self <> None ->
      exists st' loss_sum',
        Legacy.train_iter _update self st loss_sum batch = PyErr.Done (st', loss_sum')
        /\ Legacy._steps st' = n
        /\ Legacy._epsilon st'
           = Deprecated.train_epsilon (Legacy.epsilon_schedule self) (Legacy._epsilon st)
        /\ (forall d, due = true -> Legacy._save_model_dir self = Some d ->
            Legacy.files st'
            = (path_join d ("agent.model-" ++ format_d n), Legacy._q_network st')
              :: Legacy.files st)
        /\ (due = false -> Legacy.files st' = Legacy.files st)).
Proof.
  intros Ht Hs Hp n due. unfold Legacy.train_iter.
  rewrite (mod_ok _ _ Ht). cbn [PyErr.lift PyErr.bind].
  destruct (_update _ _ _ _) as [[q o] loss].
  rewrite (mod_ok _ _ Hs), (mod_ok _ _ Hp). cbn [PyErr.lift PyErr.bind].
  fold n. fold due.
  split.
  - intros Hdue Hdir. rewrite Hdue, Hdir. reflexivity.
  - intros H. destruct due eqn:Hdue.
    + destruct (Legacy._save_model_dir self) as [d | ] eqn:Hdir;
        [ | destruct H as [H | H]; [discriminate | now elim H]].
      cbn. eexists. eexists. split; [reflexivity | ]. cbn.
      repeat split; try reflexivity.
      * intros d' _ Hd'. inversion Hd'; subst. reflexivity.
      * discriminate.
    + cbn. eexists. eexists. split; [reflexivity | ]. cbn.
      repeat split; try reflexivity. intros d' N. discriminate.
Qed.

End LegacyResults.

Section LegacyRuns.

Context {Params OptState Batch : Type}.
Variable _update : Params -> Params -> OptState -> Batch -> Params * OptState * R.

Implicit Types (self : Legacy.Agent)
  (st : Legacy.State (Params := Params) (OptState := OptState)).

Lemma legacy_loop_done self (batches : list Batch) :
  Legacy._target_update_freq self <> 0%Z ->
  Legacy._save_model_freq self <> 0%Z ->
  Legacy._print_freq self <> 0%Z ->
  forall st loss_sum,
  (Legacy._save_model_dir self <> None
   \/ forall k, (Legacy._steps st < k <= Legacy._steps st + Z.of_nat (List.length batches))%Z ->
                (k mod Legacy._save_model_freq self <> 0)%Z) ->
  exists st' loss_sum',
    Legacy.train_loop _update self st loss_sum batches = PyErr.Done (st', loss_sum')
    /\ Legacy._steps st' = (Legacy._steps st + Z.of_nat (List.length batches))%Z.
Proof.
  intros Ht Hs Hp. induction batches as [ | b bs IH]; intros st loss_sum H.
  - exists st, loss_sum. simpl. split; [reflexivity | lia].
  - destruct (legacy_iter _update self st loss_sum b Ht Hs Hp) as [_ Hok].
    destruct Hok as [st1 [ls1 [E1 [Hs1 _]]]].
    { destruct H as [H | H]; [now right | left].
      apply Z.eqb_neq. apply H. simpl List.length. lia. }
    destruct (IH st1 ls1) as [st2 [ls2 [E2 Hs2]]].
    { destruct H as [H | H]; [now left | right].
      intros k Hk. apply H. simpl List.length. lia. }
    exists st2, ls2. cbn [Legacy.train_loop]. rewrite E1. cbn [PyErr.bind].
    split; [exact E2 | ]. rewrite Hs2, Hs1. simpl List.length. lia.
Qed.

Lemma legacy_loop_fails self (batches : list Batch) :
  Legacy._target_update_freq self <> 0%Z ->
  Legacy._save_model_freq self <> 0%Z ->
  Legacy._print_freq self <> 0%Z ->
  Legacy._save_model_dir self = None ->
  forall st loss_sum m,
  (Legacy._steps st < m <= Legacy._steps st + Z.of_nat (List.length batches))%Z ->
  (m mod Legacy._save_model_freq self = 0)%Z ->
  Legacy.train_loop _update self st loss_sum batches = PyErr.Fail PyErr.TypeError.
Proof.
  intros Ht Hs Hp Hdir. induction batches as [ | b bs IH]; intros st loss_sum m Hm Hmod.
  - simpl in Hm. lia.
  - destruct (legacy_iter _update self st loss_sum b Ht Hs Hp) as [Hfail Hok].
    cbn [Legacy.train_loop].
    destruct (((Legacy._steps st + 1) mod Legacy._save_model_freq self) =? 0)%Z eqn:E.
    + rewrite (Hfail eq_refl Hdir). reflexivity.
    + destruct (Hok (or_introl eq_refl)) as [st1 [ls1 [E1 [Hs1 _]]]].
      apply Z.eqb_neq in E.
      rewrite E1. cbn [PyErr.bind].
      apply (IH st1 ls1 m); [ | exact Hmod].
      rewrite Hs1. simpl List.length in Hm.
      assert (m <> Legacy._steps st + 1)%Z by (intros ->; contradiction). lia.
Qed.

(** X11.  The deprecated [train] needs a checkpoint directory (lines 154-156).
    The save is not guarded by the directory being set, and
    [save_model_dir] defaults to [None]: a fresh agent trains for
    [save_model_freq - 1] iterations, and the iteration that brings the
    count to [save_model_freq] raises [TypeError] in [os.path.join]. *)
Theorem legacy_training_needs_directory self st (batches : list Batch) :
  Legacy._target_update_freq self <> 0%Z ->
  (0 < Legacy._save_model_freq self)%Z ->
  Legacy._print_freq self <> 0%Z ->
  Legacy._save_model_dir self = None ->
  Legacy._steps st = 0%Z ->
  ((Z.of_nat (List.length batches) < Legacy._save_model_freq self)%Z ->
   exists st' loss_sum,
     Legacy.train _update self st batches = PyErr.Done (st', loss_sum)
     /\ Legacy._steps st' = Z.of_nat (List.length batches))
  /\ ((Legacy._save_model_freq self <= Z.of_nat (List.length batches))%Z ->
      Legacy.train _update self st batches = PyErr.Fail PyErr.TypeError).
Proof.
  intros Ht Hf Hp Hdir H0. unfold Legacy.train. split.
  - intros Hlen.
    destruct (legacy_loop_done self batches Ht ltac:(lia) Hp st 0%R) as [st' [ls [E Hs]]].
    { right. intros k Hk. rewrite H0 in Hk. rewrite Z.mod_small by lia. lia. }
    exists st', ls. split; [exact E | ]. rewrite Hs, H0. lia.
  - intros Hlen.
    apply (legacy_loop_fails self batches Ht ltac:(lia) Hp Hdir st 0%R
             (Legacy._save_model_freq self)).
    + rewrite H0. lia.
    + apply Z.mod_same. lia.
Qed.

(** X12.  The deprecated agent resumes its count (lines 114-116 and 140-162).
    Constructed from the checkpoint [agent.model-n] of a directory, it
    starts with the file's parameters in both networks, epsilon at
    [epsilon_max] and [_steps = n]; [train] then counts on from [n]: after
    [k] batches [_steps = n + k]. *)
Theorem legacy_resume_continues (network p : Params) (optimizer : OptState)
  (epsilon_max epsilon_min epsilon_decrease_steps : R) (target_update_freq : Z)
  (d : string) (n : Z) (save_model_dir : option string) (save_model_freq print_freq : Z)
  (fs : list (string * Params)) (batches : list Batch) :
  (0 <= n)%Z -> epsilon_decrease_steps <> 0%R ->
  target_update_freq <> 0%Z -> save_model_freq <> 0%Z -> print_freq <> 0%Z ->
  save_model_dir <> None ->
  let path := path_join d ("agent.model-" ++ format_d n) in
  lookup fs path = Some p ->
  exists self st st' loss_sum,
    Legacy.__init__ network optimizer epsilon_max epsilon_min epsilon_decrease_steps
      target_update_freq (Some path) save_model_dir save_model_freq print_freq fs
    = PyErr.Done (self, st)
    /\ Legacy._steps st = n
    /\ Legacy._q_network st = p
    /\ Legacy._target_q_network st = p
    /\ Legacy._epsilon st = epsilon_max
    /\ Legacy.train _update self st batches = PyErr.Done (st', loss_sum)
    /\ Legacy._steps st' = (n + Z.of_nat (List.length batches))%Z.
Proof.
  intros Hn He Ht Hs Hp Hdir path Hfile.
  destruct (checkpoint_path_parts d n Hn) as [_ [_ Hparse]]. fold path in Hparse.
  assert (Htr : truthy (Some path) = true)
    by (apply path_join_truthy; cbn [append]; discriminate).
  set (self := {| Legacy.epsilon_schedule :=
                    {| Deprecated._epsilon_min := epsilon_min;
                       Deprecated._epsilon_decrease :=
                         ((epsilon_max - epsilon_min) / epsilon_decrease_steps)%R |};
                  Legacy._save_model_dir := save_model_dir;
                  Legacy._save_model_freq := save_model_freq;
                  Legacy._print_freq := print_freq;
                  Legacy._target_update_freq := target_update_freq |}).
  set (st := {| Legacy._steps := n; Legacy._epsilon := epsilon_max;
                Legacy._q_network := p; Legacy._target_q_network := p;
                Legacy._optimizer := optimizer; Legacy.files := fs |}).
  destruct (legacy_loop_done self batches Ht Hs Hp st 0%R (or_introl Hdir))
    as [st' [ls [E Hsteps]]].
  exists self, st, st', ls.
  split.
  { unfold Legacy.__init__, Deprecated.__init__.
    rewrite truediv_ok by exact He. cbn [Py.bind PyErr.lift PyErr.bind].
    rewrite Htr, Hfile, Hparse. reflexivity. }
  repeat split; try reflexivity; [exact E | exact Hsteps].
Qed.

End LegacyRuns.


Lemma legacy_training_needs_directory_witness :
  (exists st' loss_sum,
     Legacy.train toy_update (legacy_agent None 3) (legacy_state 0) [1; 2]%nat
     = PyErr.Done (st', loss_sum)
     /\ Legacy._steps st' = 2%Z)
  /\ Legacy.train toy_update (legacy_agent None 3) (legacy_state 0) [1; 2; 3; 4]%nat
     = PyErr.Fail PyErr.TypeError.
Proof.
  split.
  - destruct (legacy_training_needs_directory toy_update (legacy_agent None 3)
                (legacy_state 0) [1; 2]%nat
                ltac:(discriminate) ltac:(reflexivity) ltac:(discriminate) eq_refl eq_refl)
      as [H _].
    exact (H ltac:(reflexivity)).
  - destruct (legacy_training_needs_directory toy_update (legacy_agent None 3)
                (legacy_state 0) [1; 2; 3; 4]%nat
                ltac:(discriminate) ltac:(reflexivity) ltac:(discriminate) eq_refl eq_refl)
      as [_ H].
    exact (H ltac:(discriminate)).
Defined.

Lemma legacy_resume_continues_witness :
  exists self st st' loss_sum,
    Legacy.__init__ 7%Z tt 1 0.1 1000000 10000 (Some "ckpt/agent.model-50000"%string)
      (Some "ckpt"%string) 10000 1000 [("ckpt/agent.model-50000"%string, 41%Z)]
    = PyErr.Done (self, st)
    /\ Legacy._steps st = 50000%Z
    /\ Legacy._q_network st = 41%Z
    /\ Legacy.train toy_update self st [1; 2]%nat = PyErr.Done (st', loss_sum)
    /\ Legacy._steps st' = 50002%Z.
Proof.
  destruct (legacy_resume_continues toy_update 7%Z 41%Z tt 1 0.1 1000000 10000
              "ckpt" 50000 (Some "ckpt"%string) 10000 1000
              [("ckpt/agent.model-50000"%string, 41%Z)] [1; 2]%nat
              ltac:(lia) ltac:(lra) ltac:(discriminate) ltac:(discriminate)
              ltac:(discriminate) ltac:(discriminate) eq_refl)
    as [self [st [st' [ls [E [Hs [Hq [_ [_ [Et Hs']]]]]]]]]].
  exists self, st, st', ls.
  split; [exact E | ]. split; [exact Hs | ]. split; [exact Hq | ].
  split; [exact Et | exact Hs'].
Defined.

(* ================================================================== *)
(** * Results: the resource actions *)
(* ================================================================== *)

Lemma for_each_done {A B : Type} (f : A -> PyErr.outcome B) (g : A -> B) (l : list A) :
  (forall x, In x l -> f x = PyErr.Done (g x)) ->
  Resource.for_each f l = PyErr.Done (map g l).
Proof.
  induction l as [ | x l IH]; intros H; [reflexivity | ].
  cbn [Resource.for_each]. rewrite (H x (or_introl eq_refl)). cbn [PyErr.bind].
  rewrite IH by (intros y Hy; apply H; now right). reflexivity.
Qed.

Lemma for_each_length {A B : Type} (f : A -> PyErr.outcome B) (l : list A) (ys : list B) :
  Resource.for_each f l = PyErr.Done ys ->
  List.length ys = List.length l
  /\ forall i x, nth_error l i = Some x ->
       exists y, nth_error ys i = Some y /\ f x = PyErr.Done y.
Proof.
  revert ys. induction l as [ | x l IH]; intros ys H.
  - inversion H; subst. split; [reflexivity | ]. intros [ | i] x0 Hx; discriminate.
  - cbn [Resource.for_each] in H.
    destruct (f x) as [y | e] eqn:Ef; cbn [PyErr.bind] in H; [ | discriminate].
    destruct (Resource.for_each f l) as [ys' | e] eqn:El; cbn [PyErr.bind] in H;
      [ | discriminate].
    inversion H; subst. destruct (IH ys' eq_refl) as [Hl Hn].
    split; [simpl; now rewrite Hl | ].
    intros [ | i] x0 Hx; simpl in Hx.
    + inversion Hx; subst. exists y. split; [reflexivity | exact Ef].
    + apply (Hn i x0 Hx).
Qed.

Section ResourceResults.

Import PyErr.

Variable DataContext : Type.
Variable units_of_type : DataContext -> Z -> list Resource.Unit.
Variable mature_units_of_types : DataContext -> list Z -> list Resource.Unit.
Variable closest_unit : Resource.Unit -> list Resource.Unit -> outcome Resource.Unit.
Variable closest_units :
  Resource.Unit -> list Resource.Unit -> Z -> outcome (list Resource.Unit).
Variable ZERG_QUEEN ZERG_HATCHERY ZERG_LAIR ZERG_HIVE ZERG_DRONE ZERG_EXTRACTOR : Z.
Variable EFFECT_INJECTLARVA HARVEST_GATHER_DRONE : Z.

Local Abbreviation queens := (Resource.injectable_queens DataContext units_of_type ZERG_QUEEN).
Local Abbreviation bases :=
  (Resource.bases DataContext mature_units_of_types ZERG_HATCHERY ZERG_LAIR ZERG_HIVE).
Local Abbreviation inject :=
  (Resource._all_idle_queens_inject_larva DataContext units_of_type mature_units_of_types
     closest_unit ZERG_QUEEN ZERG_HATCHERY ZERG_LAIR ZERG_HIVE EFFECT_INJECTLARVA).
Local Abbreviation inject_valid :=
  (Resource._is_valid_all_idle_queens_inject_larva DataContext units_of_type
     mature_units_of_types ZERG_QUEEN ZERG_HATCHERY ZERG_LAIR ZERG_HIVE).

(** X13.  [_all_idle_queens_inject_larva] and its validity test (lines 34-66).
    When the action returns, it returns one command per queen with energy
    at least 25, in the order of the queens: the command is for that queen
    alone, its ability is [EFFECT_INJECTLARVA] and its target is the base
    [closest_unit] found for her among the mature hatcheries, lairs and
    hives.  The validity test holds exactly when there is such a base and
    such a queen.  Without such a queen the action returns no command; and
    when the test holds and [closest_unit] finds a base for every queen,
    the action returns at least one command. *)
Theorem inject_larva_commands (dc : DataContext) :
  (forall actions,
     inject dc = Done actions ->
     List.length actions = List.length (queens dc)
     /\ forall i a, nth_error actions i = Some a ->
          exists queen base,
            nth_error (queens dc) i = Some queen
            /\ In queen (units_of_type dc ZERG_QUEEN)
            /\ (25 <= Resource.energy queen)%Q
            /\ closest_unit queen (bases dc) = Done base
            /\ a = {| Resource.unit_tags := [Resource.tag queen];
                      Resource.ability_id := EFFECT_INJECTLARVA;
                      Resource.target_unit_tag := Resource.tag base |})
  /\ (inject_valid dc = true <-> bases dc <> [] /\ queens dc <> [])
  /\ (queens dc = [] -> inject dc = Done [])
  /\ (inject_valid dc = true ->
      (forall queen, In queen (queens dc) -> exists base, closest_unit queen (bases dc) = Done base) ->
      exists actions, inject dc = Done actions /\ actions <> []).
Proof.
  split; [ | split; [ | split]].
  - intros actions H. unfold Resource._all_idle_queens_inject_larva in H.
    destruct (for_each_length _ _ _ H) as [Hlen Hnth].
    split; [exact Hlen | ].
    intros i a Ha.
    assert (Hi : (i < List.length (queens dc))%nat).
    { rewrite <- Hlen. apply nth_error_Some. congruence. }
    destruct (nth_error (queens dc) i) as [queen | ] eqn:Eq;
      [ | apply nth_error_None in Eq; lia].
    destruct (Hnth i queen Eq) as [y [Hy Hf]].
    rewrite Ha in Hy. inversion Hy; subst y.
    destruct (closest_unit queen (bases dc)) as [base | e] eqn:Eb; cbn [bind] in Hf;
      [ | discriminate].
    inversion Hf; subst a.
    pose proof (nth_error_In _ _ Eq) as Hin.
    unfold Resource.injectable_queens in Hin. apply filter_In in Hin.
    destruct Hin as [Hin Hen]. apply Qle_bool_iff in Hen.
    exists queen, base. repeat split; assumption.
  - unfold Resource._is_valid_all_idle_queens_inject_larva.
    rewrite andb_true_iff, !Nat.ltb_lt.
    split; intros [Hb Hq]; split.
    + destruct (bases dc); [simpl in Hb; lia | discriminate].
    + destruct (queens dc); [simpl in Hq; lia | discriminate].
    + destruct (bases dc); [now elim Hb | simpl; lia].
    + destruct (queens dc); [now elim Hq | simpl; lia].
  - intros Hq. unfold Resource._all_idle_queens_inject_larva. now rewrite Hq.
  - intros Hv Hc.
    unfold Resource._is_valid_all_idle_queens_inject_larva in Hv.
    apply andb_true_iff in Hv. destruct Hv as [_ Hq]. apply Nat.ltb_lt in Hq.
    unfold Resource._all_idle_queens_inject_larva.
    induction (queens dc) as [ | queen rest IH]; [simpl in Hq; lia | ].
    cbn [Resource.for_each].
    destruct (Hc queen (or_introl eq_refl)) as [base Eb]. rewrite Eb. cbn [bind].
    destruct rest as [ | queen' rest'].
    + cbn. eexists. split; [reflexivity | discriminate].
    + destruct IH as [actions [E _]]; [simpl; lia | intros q Hq'; apply Hc; now right | ].
      rewrite E. cbn [bind]. eexists. split; [reflexivity | discriminate].
Qed.

Local Abbreviation extractors :=
  (Resource.idle_extractors DataContext units_of_type ZERG_EXTRACTOR).
Local Abbreviation gas :=
  (Resource._some_workers_gather_gas DataContext units_of_type closest_units
     ZERG_DRONE ZERG_EXTRACTOR HARVEST_GATHER_DRONE).
Local Abbreviation gas_valid :=
  (Resource._is_valid_some_workers_gather_gas DataContext units_of_type
     ZERG_DRONE ZERG_EXTRACTOR).

(** X14.  [_some_workers_gather_gas] and its validity test (lines 88-118).
    Without an extractor that lacks harvesters, [random.choice] raises
    [IndexError]: the action must not be called then.  When the validity
    test holds, [random.choice] returns, whatever it draws, an extractor
    that lacks harvesters.  When the action returns, it returns a single
    command: the drones [closest_units] found for such an extractor, as
    many as it lacks asked for, are sent to it with
    [HARVEST_GATHER_DRONE]. *)
Theorem gather_gas_choice (dc : DataContext) (draw : nat) :
  (extractors dc = [] -> gas dc draw = Fail IndexError)
  /\ (gas_valid dc = true ->
      exists extractor,
        Resource.choice draw (extractors dc) = Done extractor
        /\ In extractor (units_of_type dc ZERG_EXTRACTOR)
        /\ (0 < Resource.ideal_harvesters extractor
                - Resource.assigned_harvesters extractor)%Z)
  /\ (forall actions,
        gas dc draw = Done actions ->
        exists extractor workers,
          In extractor (units_of_type dc ZERG_EXTRACTOR)
          /\ closest_units extractor (units_of_type dc ZERG_DRONE)
               (Resource.ideal_harvesters extractor
                - Resource.assigned_harvesters extractor) = Done workers
          /\ (0 < Resource.ideal_harvesters extractor
                  - Resource.assigned_harvesters extractor)%Z
          /\ actions = [{| Resource.unit_tags := map Resource.tag workers;
                           Resource.ability_id := HARVEST_GATHER_DRONE;
                           Resource.target_unit_tag := Resource.tag extractor |}]).
Proof.
  assert (Hmem : forall extractor,
             Resource.choice draw (extractors dc) = Done extractor ->
             In extractor (units_of_type dc ZERG_EXTRACTOR)
             /\ (0 < Resource.ideal_harvesters extractor
                     - Resource.assigned_harvesters extractor)%Z).
  { intros extractor H. unfold Resource.choice in H.
    destruct (nth_error (extractors dc) _) as [x | ] eqn:E; [ | discriminate].
    inversion H; subst x. apply nth_error_In in E.
    unfold Resource.idle_extractors in E. apply filter_In in E.
    destruct E as [Hin Hpos]. apply Z.ltb_lt in Hpos. split; assumption. }
  split; [ | split].
  - intros He. unfold Resource._some_workers_gather_gas, Resource.choice.
    rewrite He.
    assert (Hnil : forall n, nth_error (@nil Resource.Unit) n = None)
      by (intros [ | n]; reflexivity).
    rewrite Hnil. reflexivity.
  - intros Hv. unfold Resource._is_valid_some_workers_gather_gas in Hv.
    apply andb_true_iff in Hv. destruct Hv as [He _]. apply Nat.ltb_lt in He.
    assert (Hc : exists extractor, Resource.choice draw (extractors dc) = Done extractor).
    { unfold Resource.choice.
      destruct (nth_error (extractors dc) (draw mod List.length (extractors dc)))
        as [x | ] eqn:E; [now exists x | ].
      apply nth_error_None in E.
      pose proof (Nat.mod_upper_bound draw (List.length (extractors dc)) ltac:(lia)). lia. }
    destruct Hc as [extractor Hc]. exists extractor.
    destruct (Hmem extractor Hc). repeat split; assumption.
  - intros actions H. unfold Resource._some_workers_gather_gas in H.
    destruct (Resource.choice draw (extractors dc)) as [extractor | e] eqn:Ec;
      cbn [bind] in H; [ | discriminate].
    destruct (closest_units extractor _ _) as [workers | e] eqn:Ew; cbn [bind] in H;
      [ | discriminate].
    inversion H; subst actions. destruct (Hmem extractor eq_refl) as [Hin Hpos].
    exists extractor, workers. repeat split; assumption.
Qed.

End ResourceResults.

Section MineralResults.

Import PyErr.

Variable DataContext : Type.
Variable idle_units_of_type : DataContext -> Z -> list Resource.Unit.
Variable minerals : DataContext -> list Resource.Unit.
Variable closest_unit : Resource.Unit -> list Resource.Unit -> outcome Resource.Unit.
Variable ZERG_DRONE HARVEST_GATHER_DRONE : Z.

Local Abbreviation gather :=
  (Resource._all_idle_workers_gather_minerals DataContext idle_units_of_type minerals
     closest_unit ZERG_DRONE HARVEST_GATHER_DRONE).
Local Abbreviation gather_valid :=
  (Resource._is_valid_all_idle_workers_gather_minerals DataContext idle_units_of_type
     minerals ZERG_DRONE).

(** X15.  [_all_idle_workers_gather_minerals] and its validity test (lines 68-86).
    When the action returns, it returns one command per idle drone, in
    their order: the command is for that drone alone, its ability is
    [HARVEST_GATHER_DRONE] and its target is the mineral field
    [closest_unit] found for it.  The action stops at the first drone for
    which [closest_unit] fails, with that failure and no command.  The
    validity test holds exactly when there is an idle drone and a mineral
    field. *)
Theorem gather_minerals_commands (dc : DataContext) :
  (forall actions,
     gather dc = Done actions ->
     List.length actions = List.length (idle_units_of_type dc ZERG_DRONE)
     /\ forall i a, nth_error actions i = Some a ->
          exists worker mineral,
            nth_error (idle_units_of_type dc ZERG_DRONE) i = Some worker
            /\ closest_unit worker (minerals dc) = Done mineral
            /\ a = {| Resource.unit_tags := [Resource.tag worker];
                      Resource.ability_id := HARVEST_GATHER_DRONE;
                      Resource.target_unit_tag := Resource.tag mineral |})
  /\ (forall before worker after e,
        idle_units_of_type dc ZERG_DRONE = before ++ worker :: after ->
        (forall w, In w before -> exists m, closest_unit w (minerals dc) = Done m) ->
        closest_unit worker (minerals dc) = Fail e ->
        gather dc = Fail e)
  /\ (gather_valid dc = true <->
      idle_units_of_type dc ZERG_DRONE <> [] /\ minerals dc <> []).
Proof.
  split; [ | split].
  - intros actions H. unfold Resource._all_idle_workers_gather_minerals in H.
    destruct (for_each_length _ _ _ H) as [Hlen Hnth].
    split; [exact Hlen | ].
    intros i a Ha.
    assert (Hi : (i < List.length (idle_units_of_type dc ZERG_DRONE))%nat).
    { rewrite <- Hlen. apply nth_error_Some. congruence. }
    destruct (nth_error (idle_units_of_type dc ZERG_DRONE) i) as [worker | ] eqn:Eq;
      [ | apply nth_error_None in Eq; lia].
    destruct (Hnth i worker Eq) as [y [Hy Hf]].
    rewrite Ha in Hy. inversion Hy; subst y.
    destruct (closest_unit worker (minerals dc)) as [mineral | e] eqn:Em; cbn [bind] in Hf;
      [ | discriminate].
    inversion Hf; subst a.
    exists worker, mineral. repeat split; assumption.
  - intros before worker after e Hl Hb Hw.
    unfold Resource._all_idle_workers_gather_minerals. rewrite Hl. clear Hl.
    induction before as [ | w before IH]; cbn [app Resource.for_each].
    + rewrite Hw. reflexivity.
    + destruct (Hb w (or_introl eq_refl)) as [m Em]. rewrite Em. cbn [bind].
      rewrite IH; [reflexivity | ]. intros w' Hw'. apply Hb. now right.
  - unfold Resource._is_valid_all_idle_workers_gather_minerals.
    rewrite andb_true_iff, !Nat.ltb_lt.
    split; intros [Hd Hm]; split.
    + destruct (idle_units_of_type dc ZERG_DRONE); [simpl in Hd; lia | discriminate].
    + destruct (minerals dc); [simpl in Hm; lia | discriminate].
    + destruct (idle_units_of_type dc ZERG_DRONE); [now elim Hd | simpl; lia].
    + destruct (minerals dc); [now elim Hm | simpl; lia].
Qed.

End MineralResults.

(* ================================================================== *)
(** * Results: a negative decay constant *)
(* ================================================================== *)

(** X16.  A decay constant [eps_decay <= -1] makes the exponential schedule
    fail.  The exponent [-1. * steps / eps_decay] is then positive, grows
    with the count and is at most the count, so it is a finite float as
    long as the count is one; from some count on [OverflowError] is raised
    at every step: [learn] cannot run beyond that count.  (For a negative
    [eps_decay] closer to 0 the quotient itself can overflow to [inf], on
    which [math.exp] returns [inf]: not covered.) *)
Theorem exponential_negative_decay_overflows (self : FastDQNAgent) :
  _eps_method self = "exponential"%string -> (_eps_decay self <= -1)%R ->
  exists bound : Z,
    forall step : Z, (bound <= step)%Z -> _get_current_eps self step = Raise OverflowError.
Proof.
  intros Hm Hd1.
  assert (Hd : (_eps_decay self < 0)%R) by lra. clear Hd1.
  set (d := _eps_decay self) in *.
  exists (up (float_max * - d)).
  intros step Hstep.
  pose proof float_max_gt_1 as Hf.
  destruct (archimed (float_max * - d)) as [Hup _].
  apply IZR_le in Hstep.
  assert (Hs : (float_max * - d < IZR step)%R) by lra.
  unfold _get_current_eps. rewrite Hm. simpl. fold d.
  rewrite truediv_ok by lra. simpl.
  set (x := (-1 * IZR step / d)%R).
  assert (Hx : (float_max < x)%R).
  { unfold x. replace (-1 * IZR step / d)%R with (IZR step / - d)%R by (field; lra).
    apply (Rmult_lt_reg_r (- d)); [lra | ].
    unfold Rdiv. rewrite Rmult_assoc, Rinv_l by lra. lra. }
  pose proof (exp_ineq1 x ltac:(lra)) as He.
  unfold math_exp. destruct (Rlt_dec float_max (exp x)) as [_ | N]; [reflexivity | lra].
Qed.

Lemma exponential_negative_decay_overflows_witness :
  exists bound : Z,
    forall step : Z, (bound <= step)%Z ->
    _get_current_eps (agent_of "exponential" 1 0.1 (-100) 0.9 false 32 100) step
    = Raise OverflowError.
Proof.
  exact (exponential_negative_decay_overflows
           (agent_of "exponential" 1 0.1 (-100) 0.9 false 32 100)
           eq_refl ltac:(simpl; lra)).
Defined.
